(** * Councildashboard_.py: the record join and filter pipeline

    A shallow embedding of the data layer of [Councildashboard_.py]:
    the two loaders [load_and_preprocess_decisions] and
    [load_and_preprocess_people], and the date / status / organization
    filters of the "Decisions" and "People" pages, together with the part
    of pandas and of Python's [str] they are written with.

    Conventions of the embedding.
    - A Python [str] is the list of its Unicode code points ([pystr]).
    - A cell of a DataFrame is a [value]: a missing value ([NaN], which
      stands for [None], [NaN] and [NaT] alike), a string, or a timestamp
      (nanoseconds since the epoch, UTC).  The fields of the JSON records
      are strings or [null], as in the exports.
    - A DataFrame is positional, as in pandas: a list of column labels and
      a list of rows, each row a list of cells.  The row index is not
      modelled: the code only ever combines a frame with masks and columns
      computed from that same frame.
    - Python exceptions are values of [exn]; a computation that may raise
      has type [result A].
    - What lies outside the source is a parameter: the file system, the
      timestamp parser of pandas, the widgets of Streamlit.
    - pandas is taken at version 2 ([merge] raises [MergeError] on the
      duplicate labels its suffixes create, [str.replace] is literal). *)

From Stdlib Require Import String Ascii ZArith NArith Bool Lia Arith List Sorted
  Permutation.
Import ListNotations.
Local Open Scope string_scope.
Local Open Scope list_scope.

(* ================================================================== *)
(** ** Python strings *)

Definition pystr := list N.

(** A string literal of the source (all of them are ASCII). *)
Definition lit (s : string) : pystr :=
  map N_of_ascii (list_ascii_of_string s).

Definition pystr_eqb (a b : pystr) : bool :=
  if list_eq_dec N.eq_dec a b then true else false.

(** [str.isspace] on one code point (CPython's [_PyUnicode_IsWhitespace]). *)
Definition isspace (c : N) : bool :=
  ((9 <=? c) && (c <=? 13) || (28 <=? c) && (c <=? 32)
   || (c =? 133) || (c =? 160) || (c =? 5760)
   || (8192 <=? c) && (c <=? 8202)
   || (c =? 8232) || (c =? 8233) || (c =? 8239) || (c =? 8287)
   || (c =? 12288))%N.

Fixpoint lstrip (s : pystr) : pystr :=
  match s with
  | [] => []
  | c :: s' => if isspace c then lstrip s' else s
  end.

Definition rstrip (s : pystr) : pystr := rev (lstrip (rev s)).

(** [s.strip()] *)
Definition strip (s : pystr) : pystr := rstrip (lstrip s).

(** [s.startswith(p)] *)
Fixpoint startswith (p s : pystr) : bool :=
  match p, s with
  | [], _ => true
  | _ :: _, [] => false
  | a :: p', b :: s' => (a =? b)%N && startswith p' s'
  end.

(** [p in s] *)
Fixpoint occurs (p s : pystr) : bool :=
  match s with
  | [] => startswith p []
  | _ :: s' => startswith p s || occurs p s'
  end.

(** The scan of [s.replace(old, new)] for a non-empty [old]: left to
    right, non-overlapping; [skip] counts the characters of a match that
    are still to be dropped. *)
Fixpoint replace_from (old new : pystr) (skip : nat) (s : pystr) : pystr :=
  match s with
  | [] => []
  | c :: s' =>
      match skip with
      | S k => replace_from old new k s'
      | O =>
          if startswith old s
          then new ++ replace_from old new (length old - 1) s'
          else c :: replace_from old new 0 s'
      end
  end.

(** [s.replace(old, new)] *)
Definition str_replace (old new s : pystr) : pystr :=
  match old with
  | [] => new ++ flat_map (fun c => c :: new) s
  | _ :: _ => replace_from old new 0 s
  end.

(** [a <= b] on strings: lexicographic on code points. *)
Fixpoint pystr_leb (a b : pystr) : bool :=
  match a, b with
  | [], _ => true
  | _ :: _, [] => false
  | x :: a', y :: b' =>
      if (x =? y)%N then pystr_leb a' b' else (x <? y)%N
  end.

(* ================================================================== *)
(** ** Exceptions *)

Inductive exn : Type :=
| FileNotFoundError
| UnicodeDecodeError
| JSONDecodeError
| KeyError (key : string)
| TypeError
| ValueError
| AttributeError
| MergeError.

Inductive result (A : Type) : Type :=
| Ok (a : A)
| Raise (e : exn).
Arguments Ok {A} a.
Arguments Raise {A} e.

Definition bind {A B : Type} (r : result A) (k : A -> result B) : result B :=
  match r with
  | Ok a => k a
  | Raise e => Raise e
  end.

Declare Scope py_scope.
Delimit Scope py_scope with py.
Notation "x <- e ;; k" := (bind e (fun x => k))
  (at level 61, e at next level, right associativity) : py_scope.
Local Open Scope py_scope.

(** [try: body except FileNotFoundError: handler] *)
Definition try_except_FileNotFoundError {A : Type}
    (body : result A) (handler : result A) : result A :=
  match body with
  | Raise FileNotFoundError => handler
  | r => r
  end.

(* ================================================================== *)
(** ** The part of pandas the loaders use *)

Inductive value : Type :=
| NaN
| Str (s : pystr)
| Timestamp (ns : Z).

Abbreviation label := string (only parsing).

Record DataFrame : Type := mkDataFrame {
  columns : list label;
  data : list (list value)
}.

(** [pd.DataFrame()] *)
Definition empty_frame : DataFrame := mkDataFrame [] [].

(** [df.shape[0]] *)
Definition nrows (df : DataFrame) : nat := length (data df).

(** Equality of cells as pandas' hash tables see it ([isin], [unique],
    merge keys): missing values are equal to one another. *)
Definition value_eqb (a b : value) : bool :=
  match a, b with
  | NaN, NaN => true
  | Str s, Str t => pystr_eqb s t
  | Timestamp x, Timestamp y => (x =? y)%Z
  | _, _ => false
  end.

(** A JSON object of flat fields, as the Python [dict] it is parsed to:
    keys in file order, each key once. *)
Inductive json_field : Type :=
| JNull
| JString (s : pystr).

Definition record := list (string * json_field).

Fixpoint dict_get {V : Type} (d : list (string * V)) (k : string) : option V :=
  match d with
  | [] => None
  | (k', v) :: d' => if String.eqb k' k then Some v else dict_get d' k
  end.

(** The cell a record contributes to column [c]: a key the record lacks
    and a JSON [null] are both missing values. *)
Definition cell_of (r : record) (c : label) : value :=
  match dict_get r c with
  | Some (JString s) => Str s
  | Some JNull | None => NaN
  end.

(** Distinct elements in order of first appearance. *)
Fixpoint unique_by {A : Type} (eqb : A -> A -> bool) (l : list A) : list A :=
  match l with
  | [] => []
  | x :: l' => x :: filter (fun y => negb (eqb x y)) (unique_by eqb l')
  end.

(** [pd.DataFrame(records)]: the columns are the keys of the records in
    order of first appearance. *)
Definition frame_of_records (records : list record) : DataFrame :=
  let cols := unique_by String.eqb (flat_map (map fst) records) in
  mkDataFrame cols (map (fun r => map (cell_of r) cols) records).

Fixpoint index_of (c : label) (cols : list label) : option nat :=
  match cols with
  | [] => None
  | c' :: cols' =>
      if String.eqb c' c then Some 0
      else option_map S (index_of c cols')
  end.

Definition cell (i : nat) (row : list value) : value := nth i row NaN.

(** [df[c]] *)
Definition getcol (df : DataFrame) (c : label) : result (list value) :=
  match index_of c (columns df) with
  | Some i => Ok (map (cell i) (data df))
  | None => Raise (KeyError c)
  end.

Fixpoint set_nth (i : nat) (v : value) (row : list value) : list value :=
  match i, row with
  | _, [] => []
  | O, _ :: row' => v :: row'
  | S i', x :: row' => x :: set_nth i' v row'
  end.

Fixpoint map2 {A B C : Type} (f : A -> B -> C) (l : list A) (m : list B)
  : list C :=
  match l, m with
  | a :: l', b :: m' => f a b :: map2 f l' m'
  | _, _ => []
  end.

(** [df[c] = col], for a column computed from [df] itself: an existing
    column is overwritten in place, a new one is appended. *)
Definition setcol (df : DataFrame) (c : label) (col : list value) : DataFrame :=
  match index_of c (columns df) with
  | Some i => mkDataFrame (columns df) (map2 (set_nth i) col (data df))
  | None =>
      mkDataFrame (columns df ++ [c])
                  (map2 (fun v row => row ++ [v]) col (data df))
  end.

(** Positions of the columns labelled [c]. *)
Fixpoint positions (c : label) (cols : list label) : list nat :=
  match cols with
  | [] => []
  | c' :: cols' =>
      let rest := map S (positions c cols') in
      if String.eqb c' c then 0 :: rest else rest
  end.

Fixpoint select_positions (wanted cols : list label) : result (list (label * nat)) :=
  match wanted with
  | [] => Ok []
  | c :: wanted' =>
      match positions c cols with
      | [] => Raise (KeyError c)
      | ps =>
          rest <- select_positions wanted' cols ;;
          Ok (map (fun p => (c, p)) ps ++ rest)
      end
  end.

(** [df[[c1, ..., cn]]]: a label that occurs several times in [df]
    selects every column that carries it. *)
Definition select (df : DataFrame) (wanted : list label) : result DataFrame :=
  ps <- select_positions wanted (columns df) ;;
  Ok (mkDataFrame (map fst ps)
        (map (fun row => map (fun p => cell (snd p) row) ps) (data df))).

(** [df.rename(columns={old: new})] *)
Definition rename (df : DataFrame) (old new : label) : DataFrame :=
  mkDataFrame
    (map (fun c => if String.eqb c old then new else c) (columns df))
    (data df).

(** [df.columns = names] *)
Definition set_columns (df : DataFrame) (names : list label) : result DataFrame :=
  if Nat.eqb (length names) (length (columns df))
  then Ok (mkDataFrame names (data df))
  else Raise ValueError.

(** [x.fillna(v)] on one cell *)
Definition fillna_value (v : value) (x : value) : value :=
  match x with
  | NaN => v
  | _ => x
  end.

(** [df.fillna(v)] *)
Definition fillna (df : DataFrame) (v : value) : DataFrame :=
  mkDataFrame (columns df) (map (map (fillna_value v)) (data df)).

(** One element of [col.str.strip()] and of [col.str.replace(old, new)]:
    the [.str] methods give a missing value on a cell that is no string. *)
Definition str_strip (x : value) : value :=
  match x with
  | Str s => Str (strip s)
  | _ => NaN
  end.

Definition str_replace_value (old new : pystr) (x : value) : value :=
  match x with
  | Str s => Str (str_replace old new s)
  | _ => NaN
  end.

(** One element of [col.isin(values)] *)
Definition isin1 (values : list value) (x : value) : bool :=
  existsb (value_eqb x) values.

(** [col.isin(values)] *)
Definition isin (col : list value) (values : list value) : list bool :=
  map (isin1 values) col.

(** [df[mask]] for a boolean mask aligned with [df] *)
Fixpoint keep {A : Type} (mask : list bool) (rows : list A) : list A :=
  match mask, rows with
  | b :: mask', r :: rows' => if b then r :: keep mask' rows' else keep mask' rows'
  | _, _ => []
  end.

Definition boolean_index (df : DataFrame) (mask : list bool) : DataFrame :=
  mkDataFrame (columns df) (keep mask (data df)).

(** [col.unique()] *)
Definition unique (col : list value) : list value := unique_by value_eqb col.

(** [sorted(values)]: Python orders strings with strings and timestamps
    with timestamps, and raises [TypeError] as soon as it has to compare
    two values of different kinds, which every sort of a mixed list does.
    The sort is stable. *)
Definition value_leb (a b : value) : bool :=
  match a, b with
  | Str s, Str t => pystr_leb s t
  | Timestamp x, Timestamp y => (x <=? y)%Z
  | _, _ => true
  end.

Fixpoint insert_sorted (x : value) (l : list value) : list value :=
  match l with
  | [] => [x]
  | y :: l' => if value_leb x y then x :: l else y :: insert_sorted x l'
  end.

Fixpoint insertion_sort (l : list value) : list value :=
  match l with
  | [] => []
  | x :: l' => insert_sorted x (insertion_sort l')
  end.

Definition is_str (x : value) : bool :=
  match x with Str _ => true | _ => false end.
Definition is_timestamp (x : value) : bool :=
  match x with Timestamp _ => true | _ => false end.
Definition is_nan (x : value) : bool :=
  match x with NaN => true | _ => false end.

Definition sorted (l : list value) : result (list value) :=
  if forallb is_str l || forallb is_timestamp l then Ok (insertion_sort l)
  else if forallb is_nan l then Ok l
  else Raise TypeError.

(** *** [DataFrame.merge(..., how='left')] *)

Definition mem (c : label) (cols : list label) : bool :=
  existsb (String.eqb c) cols.

(** The labels of one side after pandas has put its suffix on the labels
    that occur on both sides. *)
Definition suffixed (overlap : list label) (sfx : string) (cols : list label)
  : list label :=
  map (fun c => if mem c overlap then (c ++ sfx)%string else c) cols.

(** [Index.duplicated()]: marks every occurrence of a label but the first. *)
Fixpoint duplicated (seen cols : list label) : list bool :=
  match cols with
  | [] => []
  | c :: cols' => mem c seen :: duplicated (c :: seen) cols'
  end.

(** Does suffixing create a duplicate label that was not there before? *)
Definition suffix_dups (orig renamed : list label) : bool :=
  existsb (fun b => b)
    (map2 (fun d o => d && negb o) (duplicated [] renamed) (duplicated [] orig)).

(** The rows a left row is joined with; keys are compared as pandas'
    hash join does, so a missing key matches a missing key. *)
Definition matches (key : value) (j : nat) (right_rows : list (list value))
  : list (list value) :=
  filter (fun r => value_eqb key (cell j r)) right_rows.

Definition join_row (i j width : nat) (right_rows : list (list value))
    (l : list value) : list (list value) :=
  match matches (cell i l) j right_rows with
  | [] => [l ++ repeat NaN width]
  | ms => map (fun r => l ++ r) ms
  end.

(** [left.merge(right, left_on=left_on, right_on=right_on, how='left')]
    for two different key labels, as in both calls of the loader: both key
    columns are kept, the left rows keep their order. *)
Definition merge_left (left right : DataFrame) (left_on right_on : label)
  : result DataFrame :=
  match index_of right_on (columns right), index_of left_on (columns left) with
  | None, _ => Raise (KeyError right_on)
  | _, None => Raise (KeyError left_on)
  | Some j, Some i =>
      let overlap := filter (fun c => mem c (columns right)) (columns left) in
      let lcols := suffixed overlap "_x" (columns left) in
      let rcols := suffixed overlap "_y" (columns right) in
      if suffix_dups (columns left) lcols || suffix_dups (columns right) rcols
      then Raise MergeError
      else Ok (mkDataFrame (lcols ++ rcols)
                 (flat_map (join_row i j (length (columns right)) (data right))
                           (data left)))
  end.

(* ================================================================== *)
(** ** The source files *)

(** What [open(path, 'r', encoding='utf-8')] followed by [json.load] finds
    at a path: no file; bytes that are no UTF-8 text; text that is no
    JSON; a JSON value that is no object (an array, a string, a number,
    [true], [false] or [null]); or a JSON object.  The objects considered
    are those whose members are lists of flat records with string or
    null fields (the shape [{"data": [{...}, ...]}] of the four
    exports). *)
Inductive file : Type :=
| Missing
| NotUTF8
| NotJSON
| NotObject
| Document (d : list (string * list record)).

Definition filesystem := string -> file.

(** What [json.load] returns: a [dict], or a value of another type. *)
Inductive json : Type :=
| JObject (d : list (string * list record))
| JOther.

(** [with open(path, 'r', encoding='utf-8') as f: json.load(f)] *)
Definition json_load (fs : filesystem) (path : string) : result json :=
  match fs path with
  | Missing => Raise FileNotFoundError
  | NotUTF8 => Raise UnicodeDecodeError
  | NotJSON => Raise JSONDecodeError
  | NotObject => Ok JOther
  | Document d => Ok (JObject d)
  end.

(** [data[k]] for a string [k]: the member of a [dict]; on a list, a
    string, a number, a boolean or [None] the subscript raises
    [TypeError]. *)
Definition getitem (data : json) (k : string) : result (list record) :=
  match data with
  | JObject d =>
      match dict_get d k with
      | Some v => Ok v
      | None => Raise (KeyError k)
      end
  | JOther => Raise TypeError
  end.

Definition BASE_PATH : string :=
  "/Users/azadehhabibiandehkordi/Heidelberg_Council_JSON".

(** [os.path.join(a, b)] for a relative [b] *)
Definition path_join (a b : string) : string := (a ++ "/" ++ b)%string.

Definition decisions_path : string :=
  path_join BASE_PATH "tagesordnungspunkte-ratsinformationssystem-stadt-heidelberg-oparl_33f7b659-43f4-4d57-b43b-30ed5d7802d6.json".
Definition people_path : string :=
  path_join BASE_PATH "personen-ratsinformationssystem-stadt-heidelberg-oparl_f4cff9e2-a2fc-4ba9-a7b0-955e312b72cd.json".
Definition org_path : string :=
  path_join BASE_PATH "organisationen-ratsinformationssystem-stadt-heidelberg-oparl_c9b68473-42c7-4992-a574-6618caba978c.json".
Definition membership_path : string :=
  path_join BASE_PATH "mitgliedschaften-ratsinformationssystem-stadt-heidelberg-oparl_8c2e8115-15bf-4a03-858a-a4277df36b87.json".

(* ================================================================== *)
(** ** [load_and_preprocess_decisions] *)

Fixpoint mapM {A B : Type} (f : A -> result B) (l : list A) : result (list B) :=
  match l with
  | [] => Ok []
  | a :: l' => b <- f a ;; bs <- mapM f l' ;; Ok (b :: bs)
  end.

(** What [pd.to_datetime] makes of one string of a column: a timestamp
    with a UTC offset ([Instant ns utcoffset], [ns] being the instant it
    denotes, in nanoseconds since the epoch), a timestamp without offset
    ([Naive]), a missing value ([NaT], as for the empty string), or an
    error ([Unparseable]: a string that is no timestamp, that does not
    follow the format of the column, or that is out of the range of
    pandas' timestamps). *)
Inductive parsed : Type :=
| Instant (ns : Z) (utcoffset : Z)
| Naive
| NaT
| Unparseable.

Definition is_unparseable (p : parsed) : bool :=
  match p with Unparseable => true | _ => false end.

(** The time zones of the cells that have a value: [Some utcoffset] for a
    timestamp with offset, [None] for one without. *)
Definition zones (ps : list parsed) : list (option Z) :=
  flat_map (fun p => match p with
                     | Instant _ utcoffset => [Some utcoffset]
                     | Naive => [None]
                     | NaT | Unparseable => []
                     end) ps.

Definition zone_eqb (a b : option Z) : bool :=
  match a, b with
  | Some x, Some y => (x =? y)%Z
  | None, None => true
  | _, _ => false
  end.

(** One element of [col.dt.tz_convert(None)], for a column with a time
    zone: the instant, as a timestamp without time zone. *)
Definition tz_convert_value (p : parsed) : value :=
  match p with
  | Instant ns _ => Timestamp ns
  | _ => NaN
  end.

Section Decisions.

(** pandas' timestamp parser is a parameter: [to_datetime col s] tells
    what [pd.to_datetime(col)] makes of the string [s] of the column
    [col].  (pandas infers one format from the first string of a column
    and reads the other strings with it, so what a string parses to
    depends on the column it stands in.) *)
Variable to_datetime : list value -> pystr -> parsed.

(** One element of [pd.to_datetime(col)]: a missing value stays missing,
    and a timestamp without time zone stays what it is. *)
Definition to_datetime_value (col : list value) (x : value) : parsed :=
  match x with
  | NaN => NaT
  | Str s => to_datetime col s
  | Timestamp _ => Naive
  end.

(** [pd.to_datetime(col).dt.tz_convert(None)].  [pd.to_datetime] raises
    [ValueError] when it rejects a string.  Otherwise the time zones of
    the values decide what column it returns: a column with a time zone
    when all values carry the same UTC offset, which [tz_convert(None)]
    turns into the instants; a column without time zone when no value
    carries an offset, also when there is no value at all, on which
    [tz_convert] raises [TypeError]; and a column of Python objects when
    the values differ in their offsets, on which the [.dt] accessor
    raises [AttributeError]. *)
Definition to_datetime_tz_convert (col : list value) : result (list value) :=
  let ps := map (to_datetime_value col) col in
  if existsb is_unparseable ps then Raise ValueError
  else
    match zones ps with
    | [] => Raise TypeError
    | z :: rest =>
        if negb (forallb (zone_eqb z) rest) then Raise AttributeError
        else
          match z with
          | Some _ => Ok (map tz_convert_value ps)
          | None => Raise TypeError
          end
    end.

Definition excluded_statuses : list value :=
  [Str (lit "No result"); Str (lit "Kenntnis genommen")].

(** Lines 40-52: the body of the [try] once the file is parsed.  (The
    [st.cache_data] decorator memoizes a function without arguments that
    reads fixed paths; it is not modelled.) *)
Definition preprocess_decisions (records : list record)
  : result (DataFrame * DataFrame) :=
  let df := frame_of_records records in
  created <- getcol df "created" ;;
  created <- to_datetime_tz_convert created ;;
  let df := setcol df "created" created in
  result_col <- getcol df "result" ;;
  let df := setcol df "status"
              (map str_strip
                 (map (fillna_value (Str (lit "No result"))) result_col)) in
  status <- getcol df "status" ;;
  let df_filtered :=
    boolean_index df (map negb (isin status excluded_statuses)) in
  Ok (df, df_filtered).

(** The handler also shows a message with [st.error]; only what it
    returns is modelled. *)
Definition load_and_preprocess_decisions (fs : filesystem)
  : result (DataFrame * DataFrame) :=
  try_except_FileNotFoundError
    (doc <- json_load fs decisions_path ;;
     records <- getitem doc "data" ;;
     preprocess_decisions records)
    (Ok (empty_frame, empty_frame)).

End Decisions.

(* ================================================================== *)
(** ** [load_and_preprocess_people] *)

Definition Unknown : value := Str (lit "Unknown").
Definition Fraktion_der : pystr := lit "Fraktion der ".
Definition Fraktionsgemeinschaft : pystr := lit "Fraktionsgemeinschaft ".

(** Line 103, on one cell of the [Organization] column. *)
Definition clean_organization (x : value) : value :=
  str_replace_value Fraktionsgemeinschaft []
    (str_replace_value Fraktion_der [] x).

(** Lines 75-105: the body of the [try] once the three files are parsed. *)
Definition preprocess_people
    (people_data org_data membership_data : list record) : result DataFrame :=
  let df_people := frame_of_records people_data in
  let df_orgs := frame_of_records org_data in
  let df_memberships := frame_of_records membership_data in
  people_id_name <- select df_people ["id"; "name"] ;;
  df_members <- merge_left df_memberships people_id_name "person" "id" ;;
  let df_members := rename df_members "name" "name_person" in
  orgs_id_name <- select df_orgs ["id"; "name"] ;;
  df_members <- merge_left df_members orgs_id_name "organization" "id" ;;
  let df_members := rename df_members "name" "name_org" in
  df_members_final <-
    select df_members ["name_person"; "name_org"; "role"; "startDate"] ;;
  df_members_final <-
    set_columns df_members_final ["Name"; "Organization"; "Role"; "Start Date"] ;;
  let df_members_final := fillna df_members_final Unknown in
  organization <- getcol df_members_final "Organization" ;;
  Ok (setcol df_members_final "Organization"
        (map clean_organization organization)).

Definition load_and_preprocess_people (fs : filesystem) : result DataFrame :=
  try_except_FileNotFoundError
    (people_doc <- json_load fs people_path ;;
     people_data <- getitem people_doc "data" ;;
     org_doc <- json_load fs org_path ;;
     org_data <- getitem org_doc "data" ;;
     membership_doc <- json_load fs membership_path ;;
     membership_data <- getitem membership_doc "data" ;;
     preprocess_people people_data org_data membership_data)
    (Ok empty_frame).

(* ================================================================== *)
(** ** The filters of the "Decisions" and "People" pages *)

(** A [datetime.date] as its day number (days since 1970-01-01); dates
    compare as their day numbers do. *)
Definition date := Z.

Definition ns_per_day : Z := 86400000000000.

(** [.dt.date] of one timestamp *)
Definition date_of (ns : Z) : date := (ns / ns_per_day)%Z.

(** One element of [col.dt.date]; the [.dt] accessor exists on
    datetime columns only. *)
Definition dt_date_value (x : value) : result (option date) :=
  match x with
  | Timestamp ns => Ok (Some (date_of ns))
  | NaN => Ok None
  | Str _ => Raise AttributeError
  end.

(** [dates >= d] and [dates <= d], element by element; a missing date
    compares false. *)
Definition date_ge (d : date) (x : option date) : bool :=
  match x with Some y => (d <=? y)%Z | None => false end.
Definition date_le (d : date) (x : option date) : bool :=
  match x with Some y => (y <=? d)%Z | None => false end.

(** Lines 203-209; [date_range] is the tuple [st.sidebar.date_input]
    returns, of zero, one or two dates. *)
Definition decisions_date_filter (date_range : list date)
    (df_decisions : DataFrame) : result DataFrame :=
  match date_range with
  | [lo; hi] =>
      created <- getcol df_decisions "created" ;;
      dates <- mapM dt_date_value created ;;
      Ok (boolean_index df_decisions
            (map2 andb (map (date_ge lo) dates) (map (date_le hi) dates)))
  | _ => Ok df_decisions
  end.

(** [sorted(df[field].unique())], the options offered by a multiselect
    (lines 212 and 279); they are also its default selection. *)
Definition options (df : DataFrame) (field : label) : result (list value) :=
  col <- getcol df field ;;
  sorted (unique col).

(** [df[df[field].isin(selected)]] (lines 214 and 281) *)
Definition filter_isin (df : DataFrame) (field : label) (selected : list value)
  : result DataFrame :=
  col <- getcol df field ;;
  Ok (boolean_index df (isin col selected)).

Definition status_options (filtered_df : DataFrame) : result (list value) :=
  options filtered_df "status".

Definition decisions_status_filter (filtered_df : DataFrame)
    (selected_statuses : list value) : result DataFrame :=
  filter_isin filtered_df "status" selected_statuses.

Definition org_options (df_members : DataFrame) : result (list value) :=
  options df_members "Organization".

Definition people_org_filter (df_members : DataFrame)
    (selected_orgs : list value) : result DataFrame :=
  filter_isin df_members "Organization" selected_orgs.

(** [row[c]] for a row of [df]. *)
Definition field (df : DataFrame) (c : label) (row : list value) : value :=
  match index_of c (columns df) with
  | Some i => cell i row
  | None => NaN
  end.

(** What the "data" member of the document at [path] holds, if any. *)
Definition file_data (fs : filesystem) (path : string) : option (list record) :=
  match fs path with
  | Document d => dict_get d "data"
  | _ => None
  end.

(** Every row has one cell per column. *)
Definition rectangular (df : DataFrame) : Prop :=
  Forall (fun row => length row = length (columns df)) (data df).

(* ================================================================== *)
(** ** An instance of the timestamp parser

    The parser on the columns of the examples, whose strings are UTC
    timestamps of the form [YYYY-MM-DDThh:mm:ssZ] or empty: enough to run
    the loader on concrete documents. *)

Definition digit (c : N) : option Z :=
  if ((48 <=? c) && (c <=? 57))%N then Some (Z.of_N c - 48)%Z else None.

Fixpoint number (acc : Z) (s : pystr) : option Z :=
  match s with
  | [] => Some acc
  | c :: s' =>
      match digit c with
      | Some d => number (10 * acc + d)%Z s'
      | None => None
      end
  end.

Definition slice (from len : nat) (s : pystr) : pystr :=
  firstn len (skipn from s).

Definition days_from_civil (y m d : Z) : Z :=
  let y' := if (m <=? 2)%Z then (y - 1)%Z else y in
  let era := (y' / 400)%Z in
  let yoe := (y' - era * 400)%Z in
  let mp := if (m <=? 2)%Z then (m + 9)%Z else (m - 3)%Z in
  let doy := ((153 * mp + 2) / 5 + d - 1)%Z in
  let doe := (yoe * 365 + yoe / 4 - yoe / 100 + doy)%Z in
  (era * 146097 + doe - 719468)%Z.

Definition is_leap (y : Z) : bool :=
  ((y mod 4 =? 0) && negb (y mod 100 =? 0) || (y mod 400 =? 0))%Z.

Definition days_in_month (y m : Z) : Z :=
  if (m =? 2)%Z then (if is_leap y then 29 else 28)%Z
  else if ((m =? 4) || (m =? 6) || (m =? 9) || (m =? 11))%Z then 30%Z
  else 31%Z.

(** The timestamps of pandas are 64-bit numbers of nanoseconds. *)
Definition in_bounds (ns : Z) : bool :=
  ((-9223372036854775807 <=? ns) && (ns <=? 9223372036854775807))%Z.

Definition iso_utc (col : list value) (s : pystr) : parsed :=
  match s with
  | [] => NaT
  | _ :: _ =>
      if negb (Nat.eqb (length s) 20
               && pystr_eqb (slice 4 1 s) (lit "-")
               && pystr_eqb (slice 7 1 s) (lit "-")
               && pystr_eqb (slice 10 1 s) (lit "T")
               && pystr_eqb (slice 13 1 s) (lit ":")
               && pystr_eqb (slice 16 1 s) (lit ":")
               && pystr_eqb (slice 19 1 s) (lit "Z"))
      then Unparseable
      else
        match number 0 (slice 0 4 s), number 0 (slice 5 2 s),
              number 0 (slice 8 2 s), number 0 (slice 11 2 s),
              number 0 (slice 14 2 s), number 0 (slice 17 2 s) with
        | Some y, Some m, Some d, Some hh, Some mm, Some ss =>
            let ns := ((days_from_civil y m d * 86400
                        + hh * 3600 + mm * 60 + ss) * 1000000000)%Z in
            if ((1 <=? m) && (m <=? 12) && (1 <=? d)
                && (d <=? days_in_month y m)
                && (hh <=? 23) && (mm <=? 59) && (ss <=? 59))%Z
               && in_bounds ns
            then Instant ns 0
            else Unparseable
        | _, _, _, _, _, _ => Unparseable
        end
  end.

(* ================================================================== *)
(** ** Concrete documents used in the examples *)

Definition agenda_item (name created : string) (result : json_field) : record :=
  [("name", JString (lit name)); ("created", JString (lit created));
   ("result", result)].

Definition demo_agenda : list record :=
  [agenda_item "TOP 1" "2023-03-14T09:30:00Z" (JString (lit " Beschlossen "));
   agenda_item "TOP 2" "2023-03-14T23:59:59Z" JNull;
   agenda_item "TOP 3" "2023-03-15T00:00:00Z" (JString (lit "Kenntnis genommen"));
   [("name", JString (lit "TOP 4")); ("created", JString (lit "2023-03-16T12:00:00Z"))];
   agenda_item "TOP 5" "2023-03-13T08:00:00Z" (JString (lit "Vertagt"))].

Definition only (path : string) (records : list record) : filesystem :=
  fun p => if String.eqb p path then Document [("data", records)] else Missing.

Definition demo_decisions_fs : filesystem := only decisions_path demo_agenda.

(** An agenda item whose [result] is the empty string. *)
Definition empty_result_fs : filesystem :=
  only decisions_path [agenda_item "TOP 1" "2023-03-14T09:30:00Z" (JString [])].

(* ================================================================== *)
(** ** Vocabulary of the statements *)

(** The status the loader derives for one record. *)
Definition derived_status (r : record) : value :=
  str_strip (fillna_value (Str (lit "No result")) (cell_of r "result")).

(** The computation does not raise [FileNotFoundError]. *)
Definition not_FileNotFound {A : Type} (r : result A) : Prop :=
  r <> Raise FileNotFoundError.

(** The day of a [created] cell lies in [[lo, hi]], both ends included. *)
Definition in_date_range (lo hi : date) (x : value) : bool :=
  match x with
  | Timestamp ns => (lo <=? date_of ns)%Z && (date_of ns <=? hi)%Z
  | _ => false
  end.

(** [k] is a key of some record: a label of [pd.DataFrame(records)]. *)
Definition has_key (records : list record) (k : string) : bool :=
  mem k (columns (frame_of_records records)).

(** The Person and Organization collections carry the two keys the
    loader reads. *)
Definition entity_keys_ok (records : list record) : bool :=
  has_key records "id" && has_key records "name".

(** The Membership collection carries the four keys the loader reads, and
    none of the labels the loader creates while it joins ([name] of the
    joined tables, its renamings, and the suffixed [id_x]). *)
Definition membership_keys_ok (records : list record) : bool :=
  has_key records "person" && has_key records "organization"
  && has_key records "role" && has_key records "startDate"
  && negb (has_key records "name") && negb (has_key records "name_person")
  && negb (has_key records "name_org") && negb (has_key records "id_x").

(** The [id] column of a collection. *)
Definition ids (records : list record) : list value :=
  map (fun r => cell_of r "id") records.

(** The records of [targets] a foreign key resolves to. *)
Definition resolved (targets : list record) (key : value) : list record :=
  filter (fun t => value_eqb key (cell_of t "id")) targets.

(** [df[['id', 'name']]] of a collection, as a frame and row by row. *)
Definition id_name (t : record) : list value :=
  [cell_of t "id"; cell_of t "name"].

Definition id_name_frame (targets : list record) : DataFrame :=
  mkDataFrame ["id"; "name"] (map id_name targets).

(** What a left join on [id] appends to a row with foreign key [key]. *)
Definition joined (targets : list record) (key : value) : list (list value) :=
  match resolved targets key with
  | [] => [[NaN; NaN]]
  | ts => map id_name ts
  end.

(** The rows of the final table that come from membership [m]: one for
    each pair of a person and an organization its keys resolve to. *)
Definition final_row (m : record) (person org : list value) : list value :=
  [fillna_value Unknown (cell 1 person);
   clean_organization (fillna_value Unknown (cell 1 org));
   fillna_value Unknown (cell_of m "role");
   fillna_value Unknown (cell_of m "startDate")].

Definition rows_of_membership (people orgs : list record) (m : record)
  : list (list value) :=
  flat_map
    (fun person =>
       map (final_row m person) (joined orgs (cell_of m "organization")))
    (joined people (cell_of m "person")).

(** The labels of the left side of a merge with an [id]/[name] frame. *)
Definition rename_id (cols : list label) : list label :=
  map (fun c => if String.eqb c "id" then "id_x" else c) cols.

(** The label the right [id] column gets in such a merge. *)
Definition id_label (cols : list label) : label :=
  if mem "id" cols then "id_y" else "id".

(** The labels the two merges append to those of the memberships. *)
Definition joined_tail (cols : list label) : list label :=
  if mem "id" cols
  then ["id_y"; "name_person"; "id"; "name_org"]
  else ["id_x"; "name_person"; "id_y"; "name_org"].

(** [name] is what the left join on [id] brings to a row with foreign key
    [key]: a missing value when the key resolves to no record of
    [targets], and otherwise the [name] of a record it resolves to. *)
Definition joined_name (targets : list record) (key : value) (name : value)
  : Prop :=
  (~ In key (ids targets) /\ name = NaN)
  \/ (exists t, In t targets /\ cell_of t "id" = key /\ name = cell_of t "name").

(** The table [load_and_preprocess_people] returns is made of [blocks],
    one per membership and in their order, and every row of the block of
    membership [m] satisfies [P m]. *)
Definition rows_by_membership (ms : list record) (out : DataFrame)
    (P : record -> list value -> Prop) : Prop :=
  exists blocks,
    data out = concat blocks
    /\ Forall2 (fun m rows => rows <> [] /\ Forall (P m) rows) ms blocks.

(** Documents for the people loader. *)
Definition entity (id name : pystr) : record :=
  [("id", JString id); ("name", JString name)].

Definition membership (id person organization : string)
    (role startDate : json_field) : record :=
  [("id", JString (lit id)); ("person", JString (lit person));
   ("organization", JString (lit organization));
   ("role", role); ("startDate", startDate)].

Definition demo_people : list record :=
  [entity (lit "p1") (lit "Alice"); entity (lit "p2") (lit "Bob")].

Definition demo_orgs : list record :=
  [entity (lit "o1") (lit "Fraktion der Gr" ++ [252%N] ++ lit "nen");
   entity (lit "o2") (lit "Fraktionsgemeinschaft Die Linke");
   entity (lit "o3") (lit "Bunte Fraktion der Mitte");
   entity (lit "o4") (lit "Jugendgemeinderat")].

Definition demo_memberships : list record :=
  [membership "m1" "p1" "o1" (JString (lit "Mitglied")) (JString (lit "2019-07-23"));
   membership "m2" "p9" "o2" JNull (JString (lit "2019-07-23"));
   [("id", JString (lit "m3")); ("person", JString (lit "p2"));
    ("organization", JString (lit "o9")); ("role", JString (lit "Vorsitz"))];
   membership "m4" "p2" "o3" (JString (lit "Mitglied")) JNull;
   membership "m5" "p1" "o4" (JString (lit "Mitglied")) (JString (lit "2021-01-01"))].

Definition demo_people_fs : filesystem :=
  fun p =>
    if String.eqb p people_path then Document [("data", demo_people)]
    else if String.eqb p org_path then Document [("data", demo_orgs)]
    else if String.eqb p membership_path then Document [("data", demo_memberships)]
    else Missing.

(** A decisions export that is no JSON, next to intact people files. *)
Definition broken_decisions_fs : filesystem :=
  fun p => if String.eqb p decisions_path then NotJSON else demo_people_fs p.

(** Record [r] has no value for key [k]: the key is absent, or null. *)
Definition missing (r : record) (k : string) : Prop :=
  dict_get r k = None \/ dict_get r k = Some JNull.

(** The file holds something from which the loaders get no records, and
    [e] is the exception that reading it raises (lines 38-40 and 67-72):
    bytes that are no UTF-8 text, text that is no JSON, a JSON value that
    is no object, an object without "data". *)
Inductive malformed : file -> exn -> Prop :=
| malformed_not_utf8 : malformed NotUTF8 UnicodeDecodeError
| malformed_not_json : malformed NotJSON JSONDecodeError
| malformed_not_object : malformed NotObject TypeError
| malformed_no_data d :
    dict_get d "data" = None -> malformed (Document d) (KeyError "data").

(** Each of the eight keys the people loader reads is carried by some
    record of its collection. *)
Definition reads_keys (people orgs ms : list record) : bool :=
  entity_keys_ok people && entity_keys_ok orgs
  && has_key ms "person" && has_key ms "organization"
  && has_key ms "role" && has_key ms "startDate".

(** The people files with an empty Person list. *)
Definition no_people_fs : filesystem :=
  fun p =>
    if String.eqb p people_path then Document [("data", [])]
    else demo_people_fs p.

(** The people files with one membership that has keys [name] and
    [name_person] of its own, and a [person] key that matches no
    Person. *)
Definition named_membership : record :=
  membership "m1" "p9" "o1" (JString (lit "Mitglied")) JNull
  ++ [("name", JString (lit "Sitz 1")); ("name_person", JString (lit "Zed"))].

Definition named_membership_fs : filesystem :=
  fun p =>
    if String.eqb p membership_path then Document [("data", [named_membership])]
    else demo_people_fs p.

(** The people files with an organizations export that holds a JSON
    array, and without memberships export. *)
Definition broken_orgs_fs : filesystem :=
  fun p =>
    if String.eqb p org_path then NotObject
    else if String.eqb p membership_path then Missing
    else demo_people_fs p.

(** Agenda items one of which has the empty string as [created]. *)
Definition blank_created_agenda : list record :=
  [agenda_item "TOP 1" "2023-03-14T09:30:00Z" (JString (lit "Beschlossen"));
   agenda_item "TOP 2" "" (JString (lit "Vertagt"))].

Definition blank_created_fs : filesystem :=
  only decisions_path blank_created_agenda.

(** The [created] column of [pd.DataFrame(records)]. *)
Definition created_column (records : list record) : list value :=
  map (fun r => cell_of r "created") records.

(** Record [r] of [records] carries a [created] string from which
    [pd.to_datetime] reads a timestamp. *)
Definition has_timestamp (to_datetime : list value -> pystr -> parsed)
    (records : list record) (r : record) : Prop :=
  exists s ns utcoffset,
    dict_get r "created" = Some (JString s)
    /\ to_datetime (created_column records) s = Instant ns utcoffset.

(** The frames the loaders return on the demonstration documents. *)
Definition demo_decisions : DataFrame :=
  match load_and_preprocess_decisions iso_utc demo_decisions_fs with
  | Ok (_, df_decisions) => df_decisions
  | Raise _ => empty_frame
  end.

Definition demo_all_decisions : DataFrame :=
  match load_and_preprocess_decisions iso_utc demo_decisions_fs with
  | Ok (df_all_decisions, _) => df_all_decisions
  | Raise _ => empty_frame
  end.

Definition demo_members : DataFrame :=
  match load_and_preprocess_people demo_people_fs with
  | Ok df_members => df_members
  | Raise _ => empty_frame
  end.

(** 14 March 2023 as a day number. *)
Definition day_2023_03_14 : date := 19430%Z.

(* ================================================================== *)
(** ** The "Decisions" and "People" pages

    The part of the two [category] branches that computes the data of
    the page: the frame [filtered_df] that the charts and the listing are
    made from, and the numbers of the [st.metric] calls.  The widgets of
    Streamlit are parameters: what a widget returns is the state the user
    left it in, given the arguments it is called with.  The charts, and
    the orderings made for them and for the listings ([value_counts],
    [sort_values], which leave the order of equal keys open), are not
    modelled: of the listings only the selection of their columns is. *)

(** [df.empty]: some axis has length zero. *)
Definition is_empty (df : DataFrame) : bool :=
  match columns df, data df with
  | _ :: _, _ :: _ => false
  | _, _ => true
  end.

(** The timestamps of a datetime column (timestamps and missing values). *)
Definition timestamps (col : list value) : list Z :=
  flat_map (fun v => match v with Timestamp ns => [ns] | _ => [] end) col.

(** [col.min()] and [col.max()] of a datetime column: missing values are
    skipped, and the result is missing when nothing is left. *)
Definition series_min (col : list value) : value :=
  match timestamps col with
  | [] => NaN
  | ns :: rest => Timestamp (fold_left Z.min rest ns)
  end.

Definition series_max (col : list value) : value :=
  match timestamps col with
  | [] => NaN
  | ns :: rest => Timestamp (fold_left Z.max rest ns)
  end.

(** [ts.date()] of the result; [NaT.date()] is [NaT], here [None]. *)
Definition timestamp_date (x : value) : option date :=
  match x with
  | Timestamp ns => Some (date_of ns)
  | _ => None
  end.

(** [(col == x).sum()] *)
Definition count_eq (col : list value) (x : value) : nat :=
  length (filter (fun v => value_eqb v x) col).

(** [col.nunique()]: the number of distinct values, missing ones apart. *)
Definition nunique (col : list value) : nat :=
  length (unique (filter (fun v => negb (is_nan v)) col)).

(** [df.groupby(by)[of].nunique().reset_index(name='count')], as the list
    of its rows: one per value of the [by] column, in ascending order
    (the keys are of one kind, strings here), with the number of distinct
    values of the [of] column in its group.  Rows without key are left
    out. *)
Definition groupby_nunique (keys vals : list value) : list (value * nat) :=
  map (fun k => (k, nunique (keep (map (value_eqb k) keys) vals)))
      (insertion_sort (unique (filter (fun v => negb (is_nan v)) keys))).

Record decisions_report : Type := mkDecisionsReport {
  decisions_filtered_df : DataFrame; (* [filtered_df] of line 214 *)
  total_agenda_items : nat;          (* "Total Agenda Items" *)
  total_filtered_decisions : nat;    (* "Total Filtered Decisions" *)
  decided : nat                      (* "Decided ('Beschlossen')" *)
}.

Record people_report : Type := mkPeopleReport {
  members_filtered_df : DataFrame;   (* [filtered_df] of line 281 *)
  total_members : nat;               (* "Total Members" *)
  filtered_members : nat;            (* "Filtered Members" *)
  org_counts : list (value * nat)    (* [org_counts], before its sort *)
}.

Section Pages.

Variable to_datetime : list value -> pystr -> parsed.

(** [st.sidebar.date_input(label, (min_date, max_date),
    min_value=min_date, max_value=max_date)]: the tuple of dates the user
    has picked. *)
Variable date_input : option date -> option date -> result (list date).

(** [st.sidebar.multiselect(label, options, default=options)]: the
    options the user has left selected. *)
Variable multiselect : list value -> result (list value).

(** Lines 189-225, the filters and the three metrics: [None] when the
    page shows its header only. *)
Definition decisions_page (fs : filesystem) : result (option decisions_report) :=
  loaded <- load_and_preprocess_decisions to_datetime fs ;;
  let df_all_decisions := fst loaded in
  let df_decisions := snd loaded in
  if is_empty df_all_decisions then Ok None
  else
    created <- getcol df_all_decisions "created" ;;
    let min_date := timestamp_date (series_min created) in
    let max_date := timestamp_date (series_max created) in
    date_range <- date_input min_date max_date ;;
    filtered_df <- decisions_date_filter date_range df_decisions ;;
    status_options <- status_options filtered_df ;;
    selected_statuses <- multiselect status_options ;;
    filtered_df <- decisions_status_filter filtered_df selected_statuses ;;
    status <- getcol filtered_df "status" ;;
    Ok (Some (mkDecisionsReport filtered_df
                (nrows df_all_decisions) (nrows filtered_df)
                (count_eq status (Str (lit "Beschlossen"))))).

(** Lines 274-293, the filter, the two metrics and the counts of the
    chart. *)
Definition people_page (fs : filesystem) : result (option people_report) :=
  df_members <- load_and_preprocess_people fs ;;
  if is_empty df_members then Ok None
  else
    org_options <- org_options df_members ;;
    selected_orgs <- multiselect org_options ;;
    filtered_df <- people_org_filter df_members selected_orgs ;;
    name <- getcol df_members "Name" ;;
    filtered_name <- getcol filtered_df "Name" ;;
    organization <- getcol filtered_df "Organization" ;;
    Ok (Some (mkPeopleReport filtered_df (nunique name) (nunique filtered_name)
                (groupby_nunique organization filtered_name))).

End Pages.

(** The columns of the listing of line 270,
    [filtered_df[['name', 'status', 'created']]], before it is sorted. *)
Definition decisions_listing (filtered_df : DataFrame) : result DataFrame :=
  select filtered_df ["name"; "status"; "created"].

(** The widgets as a page first renders them: every date and every
    option selected. *)
Definition default_date_input (min_date max_date : option date)
  : result (list date) :=
  match min_date, max_date with
  | Some lo, Some hi => Ok [lo; hi]
  | _, _ => Raise ValueError
  end.

Definition default_multiselect (opts : list value) : result (list value) :=
  Ok opts.

(** ** Vocabulary of the further statements *)

(** [t] is [s] without the white space at its two ends: what is cut off
    is white space only, and [t] neither starts nor ends with any. *)
Definition trimmed (s t : pystr) : Prop :=
  (exists a b, s = a ++ t ++ b
               /\ forallb isspace a = true /\ forallb isspace b = true)
  /\ match t with [] => True | c :: _ => isspace c = false end
  /\ match rev t with [] => True | c :: _ => isspace c = false end.

(** The record passes the filter of line 50. *)
Definition actionable (r : record) : bool :=
  negb (isin1 excluded_statuses (derived_status r)).

(** The number of rows one membership gives: one per record its key
    resolves to, and one if it resolves to none. *)
Definition fanout (targets : list record) (key : value) : nat :=
  Nat.max 1 (length (resolved targets key)).

(** The name joined to a key when ids are distinct: that of the first
    record with this id, or the placeholder. *)
Definition name_of (targets : list record) (key : value) : value :=
  match find (fun t => value_eqb key (cell_of t "id")) targets with
  | Some t => fillna_value Unknown (cell_of t "name")
  | None => Unknown
  end.

(** [t] is [s] with some characters deleted. *)
Inductive subsequence : pystr -> pystr -> Prop :=
| sub_nil : subsequence [] []
| sub_keep c s t : subsequence s t -> subsequence (c :: s) (c :: t)
| sub_drop c s t : subsequence s t -> subsequence (c :: s) t.

(** No cell is a timestamp: the cells of parsed records are strings or
    missing. *)
Definition plain_row (row : list value) : Prop :=
  Forall (fun v => is_timestamp v = false) row.

(** [a <= b] as Python compares two values of one kind. *)
Definition value_le (a b : value) : Prop := value_leb a b = true.

(** The [created] cell passes the date filter for the tuple the date
    picker returned: a tuple of fewer than two dates filters nothing. *)
Definition in_picked_range (date_range : list date) (x : value) : bool :=
  match date_range with
  | [lo; hi] => in_date_range lo hi x
  | _ => true
  end.

(** *** The trend of line 229 *)

(** [sorted] on period ordinals. *)
Fixpoint insert_period (m : Z) (l : list Z) : list Z :=
  match l with
  | [] => [m]
  | y :: l' => if (m <=? y)%Z then m :: l else y :: insert_period m l'
  end.

Fixpoint sort_periods (l : list Z) : list Z :=
  match l with
  | [] => []
  | m :: l' => insert_period m (sort_periods l')
  end.

(** The keys that are not missing. *)
Definition present (keys : list (option Z)) : list Z :=
  flat_map (fun k => match k with Some m => [m] | None => [] end) keys.

(** [df.groupby(keys).size().reset_index(name='count')], as the list of
    its rows: one per key, in ascending order, with the number of rows
    of its group.  Rows without key are left out. *)
Definition groupby_size (keys : list (option Z)) : list (Z * nat) :=
  map (fun m => (m, length (filter (Z.eqb m) (present keys))))
      (sort_periods (nodup Z.eq_dec (present keys))).

Section Trend.

(** [to_period_M ns] is the month of the instant [ns], as pandas numbers
    monthly periods: months since January 1970. *)
Variable to_period_M : Z -> Z.

(** One element of [col.dt.to_period('M')]; the [.dt] accessor exists on
    datetime columns only. *)
Definition dt_to_period_value (x : value) : result (option Z) :=
  match x with
  | Timestamp ns => Ok (Some (to_period_M ns))
  | NaN => Ok None
  | Str _ => Raise AttributeError
  end.

(** Line 229: the number of rows of [filtered_df], month by month. *)
Definition decision_trend (filtered_df : DataFrame) : result (list (Z * nat)) :=
  created <- getcol filtered_df "created" ;;
  months <- mapM dt_to_period_value created ;;
  Ok (groupby_size months).

End Trend.

(** The month of a day of the proleptic Gregorian calendar, the inverse
    of [days_from_civil] on the year and the month. *)
Definition month_of_days (days : Z) : Z :=
  let z := (days + 719468)%Z in
  let era := (z / 146097)%Z in
  let doe := (z - era * 146097)%Z in
  let yoe := ((doe - doe / 1460 + doe / 36524 - doe / 146096) / 365)%Z in
  let doy := (doe - (365 * yoe + yoe / 4 - yoe / 100))%Z in
  let mp := ((5 * doy + 2) / 153)%Z in
  let m := if (mp <? 10)%Z then (mp + 3)%Z else (mp - 9)%Z in
  let y := (yoe + era * 400 + (if (m <=? 2)%Z then 1 else 0))%Z in
  ((y - 1970) * 12 + (m - 1))%Z.

Definition month_of_instant (ns : Z) : Z := month_of_days (date_of ns).

(** Agenda items of three months, one of them without [created]. *)
Definition trend_agenda : list record :=
  [agenda_item "TOP 1" "2023-03-14T09:30:00Z" (JString (lit "Beschlossen"));
   agenda_item "TOP 2" "2023-01-31T23:59:59Z" (JString (lit "Vertagt"));
   agenda_item "TOP 3" "2023-03-01T00:00:00Z" (JString (lit "Abgelehnt"));
   agenda_item "TOP 4" "2022-12-31T23:59:59Z" (JString (lit "Beschlossen"));
   [("name", JString (lit "TOP 5")); ("result", JString (lit "Beschlossen"))]].

Definition trend_fs : filesystem := only decisions_path trend_agenda.

Definition trend_all_decisions : DataFrame :=
  match load_and_preprocess_decisions iso_utc trend_fs with
  | Ok (df_all_decisions, _) => df_all_decisions
  | Raise _ => empty_frame
  end.

(** [x] is an instant of the month [m]. *)
Definition is_timestamp_in (to_period_M : Z -> Z) (m : Z) (x : value) : bool :=
  match x with
  | Timestamp ns => (to_period_M ns =? m)%Z
  | _ => false
  end.

(* ================================================================== *)
(** * Properties *)

(** ** Runs of the definitions *)

Example strip_run : strip (lit "  Beschlossen ") = lit "Beschlossen".
Proof. reflexivity. Qed.

Example strip_blank_run : strip (lit "   ") = [].
Proof. reflexivity. Qed.

Example str_replace_run :
  str_replace (lit "ab") (lit "X") (lit "ababcab a") = lit "XXcX a".
Proof. reflexivity. Qed.

Example str_replace_empty_pattern_run :
  str_replace [] (lit "-") (lit "abc") = lit "-a-b-c-".
Proof. reflexivity. Qed.

Example sorted_run :
  sorted [Str (lit "b"); Str (lit "a"); Str (lit "ab")]
  = Ok [Str (lit "a"); Str (lit "ab"); Str (lit "b")].
Proof. reflexivity. Qed.

Example sorted_mixed_run : sorted [Str (lit "b"); NaN] = Raise TypeError.
Proof. reflexivity. Qed.

Example iso_utc_run :
  map (iso_utc [])
      [lit "2023-03-14T09:30:00Z"; []; lit "2023-02-30T00:00:00Z";
       lit "2300-01-01T00:00:00Z"]
  = [Instant 1678786200000000000 0; NaT; Unparseable; Unparseable].
Proof. reflexivity. Qed.

(** The columns [pd.to_datetime(col).dt.tz_convert(None)] accepts and
    rejects: an empty string is a missing timestamp; a column of missing
    timestamps only has no time zone to convert from; timestamps with
    different UTC offsets make a column of objects. *)
Example to_datetime_tz_convert_run :
  let parse (col : list value) (s : pystr) :=
    if pystr_eqb s (lit "a") then Instant 0 0
    else if pystr_eqb s (lit "b") then Instant 7 3600
    else if pystr_eqb s (lit "n") then Naive
    else if pystr_eqb s [] then NaT
    else Unparseable in
  map (to_datetime_tz_convert parse)
      [[Str (lit "a"); Str []; NaN]; [Str []; NaN]; [Str (lit "n")];
       [Str (lit "a"); Str (lit "b")]; [Str (lit "a"); Str (lit "n")];
       [Str (lit "a"); Str (lit "?"); Str (lit "b")]]
  = [Ok [Timestamp 0; NaN; NaN]; Raise TypeError; Raise TypeError;
     Raise AttributeError; Raise AttributeError; Raise ValueError].
Proof. reflexivity. Qed.

Example date_of_run : date_of 1678786200000000000 = day_2023_03_14.
Proof. reflexivity. Qed.

(** A day before the epoch: the date is the floor, as in pandas. *)
Example date_of_before_epoch_run : date_of (-1) = (-1)%Z.
Proof. reflexivity. Qed.

(** The first rows of the demonstration join: Alice in the "Fraktion der
    Gruenen" (written with u-umlaut, code point 252), and a membership of
    the unknown person "p9". *)
Example people_run :
  option_map (firstn 2)
    (match load_and_preprocess_people demo_people_fs with
     | Ok df => Some (data df)
     | Raise _ => None
     end)
  = Some [[Str (lit "Alice"); Str (lit "Gr" ++ [252%N] ++ lit "nen");
           Str (lit "Mitglied"); Str (lit "2019-07-23")];
          [Unknown; Str (lit "Die Linke"); Unknown; Str (lit "2019-07-23")]].
Proof. vm_compute. reflexivity. Qed.

(** An empty collection gives a frame without columns, on which the key
    look-ups of the loaders raise. *)
Example empty_memberships_run :
  preprocess_people demo_people demo_orgs [] = Raise (KeyError "person").
Proof. reflexivity. Qed.

Example empty_agenda_run :
  preprocess_decisions iso_utc [] = Raise (KeyError "created").
Proof. reflexivity. Qed.

(** Two Person records with the same [id] give two rows for one
    membership: the distinctness of the ids is needed for the row count. *)
Example duplicate_person_id_run :
  option_map nrows
    (match preprocess_people (entity (lit "p1") (lit "Alicia") :: demo_people)
             demo_orgs [membership "m1" "p1" "o1" JNull JNull] with
     | Ok df => Some df
     | Raise _ => None
     end)
  = Some 2.
Proof. vm_compute. reflexivity. Qed.

Example membership_with_name_run :
  preprocess_people demo_people demo_orgs
    (map (fun m => ("name", JNull) :: m) demo_memberships)
  = Raise (KeyError "name_person").
Proof. vm_compute. reflexivity. Qed.

(** ** The error monad *)

Lemma bind_Ok {A B : Type} (r : result A) (k : A -> result B) (b : B) :
  bind r k = Ok b -> exists a, r = Ok a /\ k a = Ok b.
Proof.
  destruct r as [a|e]; simpl; intros H; [eauto | discriminate].
Qed.

Ltac inv_bind H :=
  let a := fresh "x" in
  let E := fresh "E" in
  apply bind_Ok in H; destruct H as (a & E & H).

Ltac inv_Ok H := injection H as H; subst.

Lemma mapM_length {A B : Type} (f : A -> result B) (l : list A) (m : list B) :
  mapM f l = Ok m -> length m = length l.
Proof.
  revert m; induction l as [|a l IH]; simpl; intros m H.
  - inv_Ok H; reflexivity.
  - inv_bind H. inv_bind H. inv_Ok H. simpl. f_equal. auto.
Qed.

Lemma mapM_Forall2 {A B : Type} (f : A -> result B) (l : list A) (m : list B) :
  mapM f l = Ok m -> Forall2 (fun a b => f a = Ok b) l m.
Proof.
  revert m; induction l as [|a l IH]; simpl; intros m H.
  - inv_Ok H; constructor.
  - inv_bind H. inv_bind H. inv_Ok H. constructor; auto.
Qed.

Lemma mapM_total {A B : Type} (f : A -> result B) (l : list A) :
  Forall (fun a => exists b, f a = Ok b) l -> exists m, mapM f l = Ok m.
Proof.
  induction 1 as [|a l (b & Hb) _ (m & Hm)]; simpl.
  - eauto.
  - rewrite Hb, Hm; simpl; eauto.
Qed.

(** ** Cells, masks and columns *)

Lemma value_eqb_eq (a b : value) : value_eqb a b = true <-> a = b.
Proof.
  destruct a, b; simpl; try (split; [discriminate | congruence]).
  - tauto.
  - unfold pystr_eqb. destruct (list_eq_dec N.eq_dec s s0); split;
      congruence.
  - rewrite Z.eqb_eq. split; congruence.
Qed.

Lemma value_eqb_refl (a : value) : value_eqb a a = true.
Proof. apply value_eqb_eq; reflexivity. Qed.

Lemma isin1_In (values : list value) (x : value) :
  isin1 values x = true <-> In x values.
Proof.
  unfold isin1. rewrite existsb_exists. split.
  - intros (y & Hy & E). apply value_eqb_eq in E. subst; assumption.
  - intros H. exists x. split; [assumption | apply value_eqb_refl].
Qed.

Lemma keep_map {A : Type} (f : A -> bool) (rows : list A) :
  keep (map f rows) rows = filter f rows.
Proof.
  induction rows as [|r rows IH]; simpl; [reflexivity|].
  rewrite IH. reflexivity.
Qed.

Lemma map2_map {A C D E : Type} (h : C -> D -> E) (f : A -> C) (g : A -> D)
    (l : list A) :
  map2 h (map f l) (map g l) = map (fun a => h (f a) (g a)) l.
Proof. induction l; simpl; congruence. Qed.

Lemma map2_length {A B C : Type} (f : A -> B -> C) (l : list A) (m : list B) :
  length l = length m -> length (map2 f l m) = length m.
Proof.
  revert m; induction l as [|a l IH]; destruct m; simpl; intros H;
    try discriminate; auto.
Qed.

Lemma index_of_bound (c : label) (cols : list label) (i : nat) :
  index_of c cols = Some i -> i < length cols.
Proof.
  revert i; induction cols as [|c' cols IH]; simpl; intros i H;
    [discriminate|].
  destruct (String.eqb c' c).
  - inv_Ok H. lia.
  - destruct (index_of c cols); simpl in H; [|discriminate].
    inv_Ok H. specialize (IH _ eq_refl). lia.
Qed.

Lemma index_of_nth (c : label) (cols : list label) (i : nat) :
  index_of c cols = Some i -> nth_error cols i = Some c.
Proof.
  revert i; induction cols as [|c' cols IH]; simpl; intros i H;
    [discriminate|].
  destruct (String.eqb c' c) eqn:E.
  - inv_Ok H. apply String.eqb_eq in E. subst; reflexivity.
  - destruct (index_of c cols); simpl in H; [|discriminate].
    inv_Ok H. simpl. auto.
Qed.

Lemma index_of_mem (c : label) (cols : list label) :
  mem c cols = true -> exists i, index_of c cols = Some i.
Proof.
  unfold mem. induction cols as [|c' cols IH]; simpl; [discriminate|].
  rewrite String.eqb_sym. destruct (String.eqb c' c); simpl; [eauto|].
  intros H. destruct (IH H) as (i & ->). simpl; eauto.
Qed.

Lemma index_of_not_mem (c : label) (cols : list label) :
  mem c cols = false -> index_of c cols = None.
Proof.
  unfold mem. induction cols as [|c' cols IH]; simpl; [reflexivity|].
  rewrite String.eqb_sym. destruct (String.eqb c' c); simpl; [discriminate|].
  intros H. rewrite (IH H). reflexivity.
Qed.

Lemma cell_map_index (f : label -> value) (c : label) (cols : list label)
    (i : nat) :
  index_of c cols = Some i -> cell i (map f cols) = f c.
Proof.
  intros H. apply index_of_nth in H. unfold cell.
  revert i H; induction cols as [|c' cols IH]; intros [|i] H; simpl in *;
    try discriminate.
  - congruence.
  - auto.
Qed.

Lemma getcol_cells (df : DataFrame) (c : label) (col : list value) :
  getcol df c = Ok col ->
  exists i, index_of c (columns df) = Some i /\ col = map (cell i) (data df).
Proof.
  unfold getcol. destruct (index_of c (columns df)) as [i|]; intros H;
    [|discriminate].
  inv_Ok H. eauto.
Qed.

Lemma getcol_field (df : DataFrame) (c : label) (col : list value) :
  getcol df c = Ok col -> col = map (field df c) (data df).
Proof.
  intros H. destruct (getcol_cells _ _ _ H) as (i & Hi & ->).
  unfold field. rewrite Hi. reflexivity.
Qed.

Lemma getcol_length (df : DataFrame) (c : label) (col : list value) :
  getcol df c = Ok col -> length col = nrows df.
Proof.
  intros H. apply getcol_field in H. subst. apply length_map.
Qed.

Lemma rectangular_frame_of_records (records : list record) :
  rectangular (frame_of_records records).
Proof.
  unfold rectangular, frame_of_records; simpl.
  apply Forall_forall. intros row H. apply in_map_iff in H.
  destruct H as (r & <- & _). apply length_map.
Qed.

Lemma getcol_frame_of_records (records : list record) (c : label)
    (col : list value) :
  getcol (frame_of_records records) c = Ok col ->
  col = map (fun r => cell_of r c) records.
Proof.
  intros H. destruct (getcol_cells _ _ _ H) as (i & Hi & ->).
  simpl in *. rewrite map_map. apply map_ext. intros r.
  apply cell_map_index. assumption.
Qed.

(** *** Assigning a column *)

Lemma length_set_nth (i : nat) (v : value) (row : list value) :
  length (set_nth i v row) = length row.
Proof.
  revert i; induction row as [|x row IH]; intros [|i]; simpl; auto.
Qed.

Lemma cell_set_nth_same (i : nat) (v : value) (row : list value) :
  i < length row -> cell i (set_nth i v row) = v.
Proof.
  unfold cell. revert i; induction row as [|x row IH]; intros [|i]; simpl;
    intros H; try lia; auto.
  apply IH. lia.
Qed.

Lemma cell_set_nth_other (i j : nat) (v : value) (row : list value) :
  i <> j -> cell j (set_nth i v row) = cell j row.
Proof.
  unfold cell. revert i j; induction row as [|x row IH]; intros [|i] [|j];
    simpl; intros H; try congruence; auto.
Qed.

Lemma index_of_app_l (c : label) (cols more : list label) (i : nat) :
  index_of c cols = Some i -> index_of c (cols ++ more) = Some i.
Proof.
  revert i; induction cols as [|c' cols IH]; simpl; intros i H;
    [discriminate|].
  destruct (String.eqb c' c); [assumption|].
  destruct (index_of c cols); simpl in H; [|discriminate].
  rewrite (IH _ eq_refl). assumption.
Qed.

Lemma index_of_app_r (c : label) (cols more : list label) :
  index_of c cols = None ->
  index_of c (cols ++ more)
  = option_map (fun i => length cols + i) (index_of c more).
Proof.
  induction cols as [|c' cols IH]; simpl; intros H.
  - destruct (index_of c more); reflexivity.
  - destruct (String.eqb c' c); [discriminate|].
    destruct (index_of c cols); simpl in H; [discriminate|].
    rewrite (IH eq_refl). destruct (index_of c more); reflexivity.
Qed.

Lemma rectangular_setcol (df : DataFrame) (c : label) (col : list value) :
  rectangular df -> length col = nrows df -> rectangular (setcol df c col).
Proof.
  unfold rectangular, setcol, nrows. destruct df as [cols rows]; simpl.
  destruct (index_of c cols) as [i|]; simpl; intros Hr.
  - revert rows Hr; induction col as [|v col IH]; intros [|row rows] Hr Hl;
      simpl in *; try discriminate; constructor.
    + rewrite length_set_nth. inversion Hr; assumption.
    + apply IH; [inversion Hr; assumption | lia].
  - revert rows Hr; induction col as [|v col IH]; intros [|row rows] Hr Hl;
      simpl in *; try discriminate; constructor.
    + rewrite !length_app. simpl. inversion Hr; subst. lia.
    + apply IH; [inversion Hr; assumption | lia].
Qed.

Lemma nrows_setcol (df : DataFrame) (c : label) (col : list value) :
  length col = nrows df -> nrows (setcol df c col) = nrows df.
Proof.
  unfold setcol, nrows. destruct (index_of c (columns df)); simpl; intros H;
    apply map2_length; assumption.
Qed.

Lemma getcol_setcol_same (df : DataFrame) (c : label) (col : list value) :
  rectangular df -> length col = nrows df ->
  getcol (setcol df c col) c = Ok col.
Proof.
  unfold rectangular, setcol, getcol, nrows. destruct df as [cols rows]; simpl.
  destruct (index_of c cols) as [i|] eqn:Hi; simpl; intros Hr Hl.
  - rewrite Hi. f_equal. apply index_of_bound in Hi.
    revert rows Hr Hl; induction col as [|v col IH]; intros [|row rows] Hr Hl;
      simpl in *; try discriminate; [reflexivity|].
    inversion Hr; subst. f_equal.
    + apply cell_set_nth_same. lia.
    + apply IH; [assumption | lia].
  - rewrite (index_of_app_r _ _ _ Hi). simpl. rewrite String.eqb_refl. simpl.
    f_equal. rewrite Nat.add_0_r.
    revert rows Hr Hl; induction col as [|v col IH]; intros [|row rows] Hr Hl;
      simpl in *; try discriminate; [reflexivity|].
    inversion Hr; subst. f_equal.
    + unfold cell. match goal with H : length row = _ |- _ => rewrite <- H end.
      apply nth_middle.
    + apply IH; [assumption | lia].
Qed.

Lemma getcol_setcol_other (df : DataFrame) (c c' : label) (col : list value) :
  rectangular df -> length col = nrows df -> c' <> c ->
  getcol (setcol df c col) c' = getcol df c'.
Proof.
  unfold rectangular, setcol, getcol, nrows. destruct df as [cols rows]; simpl.
  intros Hr Hl Hne.
  destruct (index_of c cols) as [i|] eqn:Hi; simpl.
  - destruct (index_of c' cols) as [j|] eqn:Hj; [|reflexivity].
    f_equal.
    assert (i <> j).
    { intros ->. apply index_of_nth in Hi, Hj. congruence. }
    clear Hr. revert rows Hl; induction col as [|v col IH]; intros [|row rows] Hl;
      simpl in *; try discriminate; [reflexivity|].
    f_equal; [apply cell_set_nth_other; assumption | apply IH; lia].
  - destruct (index_of c' cols) as [j|] eqn:Hj.
    + rewrite (index_of_app_l _ _ _ _ Hj). f_equal.
      apply index_of_bound in Hj.
      revert rows Hr Hl; induction col as [|v col IH]; intros [|row rows] Hr Hl;
        simpl in *; try discriminate; [reflexivity|].
      inversion Hr; subst. f_equal.
      * unfold cell. apply app_nth1. lia.
      * apply IH; [assumption | lia].
    + rewrite (index_of_app_r _ _ _ Hj). simpl.
      destruct (String.eqb c c') eqn:E; [|reflexivity].
      apply String.eqb_eq in E. congruence.
Qed.

(** ** The decisions loader *)

Lemma bind_not_FileNotFound {A B : Type} (r : result A) (k : A -> result B) :
  not_FileNotFound r -> (forall a, not_FileNotFound (k a)) ->
  not_FileNotFound (bind r k).
Proof.
  unfold not_FileNotFound. destruct r; simpl; intros Hr Hk;
    [apply Hk | intros H; apply Hr; inversion H; reflexivity].
Qed.

Lemma getcol_not_FileNotFound (df : DataFrame) (c : label) :
  not_FileNotFound (getcol df c).
Proof.
  unfold not_FileNotFound, getcol. destruct (index_of c (columns df));
    discriminate.
Qed.

Lemma mapM_not_FileNotFound {A B : Type} (f : A -> result B) (l : list A) :
  (forall a, not_FileNotFound (f a)) -> not_FileNotFound (mapM f l).
Proof.
  intros Hf. induction l as [|a l IH]; simpl; [discriminate|].
  apply bind_not_FileNotFound; [apply Hf|]. intros b.
  apply bind_not_FileNotFound; [assumption|]. discriminate.
Qed.

Lemma try_except_id {A : Type} (body handler : result A) :
  not_FileNotFound body -> try_except_FileNotFoundError body handler = body.
Proof.
  unfold not_FileNotFound. destruct body as [a|[]]; simpl; congruence.
Qed.

Create HintDb py.
#[local] Hint Resolve getcol_not_FileNotFound : py.

Section DecisionsFacts.

Variable to_datetime : list value -> pystr -> parsed.

(** What a column that [pd.to_datetime(col).dt.tz_convert(None)] accepts
    is made of: timestamps that carry one and the same UTC offset, at
    least one, and missing values. *)
Lemma to_datetime_tz_convert_inv (col out : list value) :
  to_datetime_tz_convert to_datetime col = Ok out ->
  out = map (fun x => tz_convert_value (to_datetime_value to_datetime col x)) col
  /\ exists utcoffset,
       (exists x ns,
          In x col
          /\ to_datetime_value to_datetime col x = Instant ns utcoffset)
       /\ Forall (fun x => (exists ns,
                              to_datetime_value to_datetime col x
                              = Instant ns utcoffset)
                           \/ to_datetime_value to_datetime col x = NaT) col.
Proof.
  unfold to_datetime_tz_convert.
  generalize (to_datetime_value to_datetime col). intros f.
  destruct (existsb is_unparseable (map f col)) eqn:Eu; [discriminate|].
  destruct (zones (map f col)) as [|z rest] eqn:Ez; [discriminate|].
  destruct (negb (forallb (zone_eqb z) rest)) eqn:Ea; [discriminate|].
  destruct z as [off|]; [|discriminate]. intros H. inv_Ok H.
  apply negb_false_iff in Ea.
  split; [apply map_map|]. exists off.
  assert (Hz : forall z', In z' (zones (map f col)) -> z' = Some off).
  { intros z' Hz'. rewrite Ez in Hz'. destruct Hz' as [<-|Hz']; [reflexivity|].
    rewrite forallb_forall in Ea. specialize (Ea _ Hz').
    destruct z' as [o|]; [|discriminate]. simpl in Ea.
    apply Z.eqb_eq in Ea. congruence. }
  assert (Hzone : forall x, In x col ->
            forall z', In z' (zones [f x]) -> z' = Some off).
  { intros x Hx z' Hz'. apply Hz. unfold zones in *.
    apply in_flat_map. apply in_flat_map in Hz'.
    destruct Hz' as (p & [<-|[]] & Hp). exists (f x).
    split; [apply in_map; assumption | assumption]. }
  split.
  - assert (Hin : In (Some off) (zones (map f col)))
      by (rewrite Ez; left; reflexivity).
    unfold zones in Hin. apply in_flat_map in Hin.
    destruct Hin as (p & Hp & Hin). apply in_map_iff in Hp.
    destruct Hp as (x & <- & Hx).
    destruct (f x) as [ns o| | |] eqn:Efx; simpl in Hin;
      try (destruct Hin as [Hin|[]]; discriminate); try contradiction.
    destruct Hin as [Hin|[]]. inversion Hin; subst. exists x, ns. auto.
  - apply Forall_forall. intros x Hx. specialize (Hzone x Hx).
    destruct (f x) as [ns o| | |] eqn:Efx.
    + left. exists ns. specialize (Hzone (Some o) (or_introl eq_refl)).
      congruence.
    + specialize (Hzone None (or_introl eq_refl)). discriminate.
    + right. reflexivity.
    + exfalso. apply Bool.not_true_iff_false in Eu. apply Eu.
      apply existsb_exists. exists Unparseable.
      split; [rewrite <- Efx; apply in_map; assumption | reflexivity].
Qed.

Lemma to_datetime_tz_convert_length (col out : list value) :
  to_datetime_tz_convert to_datetime col = Ok out -> length out = length col.
Proof.
  intros H. apply to_datetime_tz_convert_inv in H. destruct H as (-> & _).
  apply length_map.
Qed.

Lemma preprocess_decisions_inv (records : list record) (df dff : DataFrame) :
  preprocess_decisions to_datetime records = Ok (df, dff) ->
  getcol df "status" = Ok (map derived_status records)
  /\ dff = boolean_index df
             (map negb (isin (map derived_status records) excluded_statuses))
  /\ nrows df = length records
  /\ exists created,
      getcol df "created" = Ok created
      /\ to_datetime_tz_convert to_datetime
           (map (fun r => cell_of r "created") records) = Ok created.
Proof.
  unfold preprocess_decisions. intros H.
  inv_bind H. inv_bind H. inv_bind H. inv_bind H. inv_Ok H.
  pose proof (rectangular_frame_of_records records) as R0.
  pose proof (getcol_length _ _ _ E) as L0.
  pose proof (to_datetime_tz_convert_length _ _ E0) as L1. rewrite L0 in L1.
  pose proof (rectangular_setcol _ "created" _ R0 L1) as R1.
  pose proof (nrows_setcol _ "created" _ L1) as N1.
  rewrite getcol_setcol_other in E1 by (assumption || discriminate).
  apply getcol_frame_of_records in E1. subst x1.
  set (status := map str_strip _) in *.
  assert (Ls : length status = nrows (setcol (frame_of_records records) "created" x0)).
  { unfold status. rewrite !length_map, N1. unfold nrows; simpl.
    symmetry; apply length_map. }
  rewrite getcol_setcol_same in E2 by assumption. inv_Ok E2.
  assert (status = map derived_status records) as ->.
  { unfold status. rewrite !map_map. reflexivity. }
  split; [apply getcol_setcol_same; assumption|].
  split; [reflexivity|].
  split.
  { rewrite nrows_setcol by assumption. rewrite N1. unfold nrows; simpl.
    apply length_map. }
  exists x0. split.
  - rewrite getcol_setcol_other by (assumption || discriminate).
    apply getcol_setcol_same; assumption.
  - apply getcol_frame_of_records in E. subst x. assumption.
Qed.

Lemma preprocess_decisions_not_FileNotFound (records : list record) :
  not_FileNotFound (preprocess_decisions to_datetime records).
Proof.
  unfold preprocess_decisions.
  apply bind_not_FileNotFound; auto with py. intros created.
  apply bind_not_FileNotFound.
  { unfold to_datetime_tz_convert.
    destruct (existsb _ _); [discriminate|].
    destruct (zones _) as [|[z|] rest]; try discriminate;
      destruct (negb _); discriminate. }
  intros created'.
  apply bind_not_FileNotFound; auto with py. intros result_col.
  apply bind_not_FileNotFound; auto with py. discriminate.
Qed.

(** Once the file is there and holds a "data" member, the loader is the
    body of its [try]. *)
Lemma load_decisions_data (fs : filesystem) (records : list record) :
  file_data fs decisions_path = Some records ->
  load_and_preprocess_decisions to_datetime fs
  = preprocess_decisions to_datetime records.
Proof.
  unfold file_data, load_and_preprocess_decisions, json_load, getitem.
  destruct (fs decisions_path) as [| | | |d]; try discriminate.
  simpl. intros ->. simpl. apply try_except_id.
  apply preprocess_decisions_not_FileNotFound.
Qed.

(** The loader returns either what the body of its [try] returns, or
    the pair of empty frames of its handler. *)
Lemma load_decisions_cases (fs : filesystem) (df dff : DataFrame) :
  load_and_preprocess_decisions to_datetime fs = Ok (df, dff) ->
  (exists records, preprocess_decisions to_datetime records = Ok (df, dff))
  \/ (df = empty_frame /\ dff = empty_frame).
Proof.
  unfold load_and_preprocess_decisions, try_except_FileNotFoundError.
  destruct (json_load fs decisions_path) as [doc|e]; simpl.
  - destruct (getitem doc "data") as [records|e]; simpl.
    + destruct (preprocess_decisions to_datetime records) as [p|e] eqn:E.
      * intros H. inv_Ok H. left; eauto.
      * destruct e; intros H; try discriminate. inv_Ok H. right; auto.
    + destruct e; intros H; try discriminate. inv_Ok H. right; auto.
  - destruct e; intros H; try discriminate. inv_Ok H. right; auto.
Qed.

End DecisionsFacts.

Lemma derived_status_cases (r : record) :
  match dict_get r "result" with
  | None | Some JNull => derived_status r = Str (lit "No result")
  | Some (JString s) => derived_status r = Str (strip s)
  end.
Proof.
  unfold derived_status, cell_of.
  destruct (dict_get r "result") as [[|s]|]; reflexivity.
Qed.

(** C1 (as amended).  In the frame [load_and_preprocess_decisions]
    returns for a collection of agenda items, the [status] of every item
    is a string, never a missing value: it is ["No result"] when the
    item's [result] is absent or null, and otherwise the [result] with
    surrounding white space removed (so an empty [result] gives the empty
    status, not ["No result"]). *)
Theorem C1_status_of_missing_result
    (to_datetime : list value -> pystr -> parsed) (fs : filesystem)
    (records : list record) (df dff : DataFrame) :
  file_data fs decisions_path = Some records ->
  load_and_preprocess_decisions to_datetime fs = Ok (df, dff) ->
  exists status,
    getcol df "status" = Ok status
    /\ Forall2
         (fun r st =>
            match dict_get r "result" with
            | None | Some JNull => st = Str (lit "No result")
            | Some (JString s) => st = Str (strip s)
            end)
         records status
    /\ Forall (fun st => st <> NaN) status.
Proof.
  intros Hfile Hload.
  rewrite (load_decisions_data _ _ _ Hfile) in Hload.
  apply preprocess_decisions_inv in Hload. destruct Hload as (Hst & _).
  exists (map derived_status records). split; [assumption|]. split.
  - clear. induction records as [|r rs IH]; simpl; constructor; auto.
    apply derived_status_cases.
  - apply Forall_forall. intros st Hin. apply in_map_iff in Hin.
    destruct Hin as (r & <- & _). pose proof (derived_status_cases r) as H.
    destruct (dict_get r "result") as [[|s]|]; rewrite H; discriminate.
Qed.

Lemma C1_status_of_missing_result_witness :
  exists status,
    getcol demo_all_decisions "status" = Ok status
    /\ Forall2
         (fun r st =>
            match dict_get r "result" with
            | None | Some JNull => st = Str (lit "No result")
            | Some (JString s) => st = Str (strip s)
            end)
         demo_agenda status
    /\ Forall (fun st => st <> NaN) status.
Proof.
  apply (C1_status_of_missing_result iso_utc demo_decisions_fs demo_agenda
           demo_all_decisions demo_decisions).
  - reflexivity.
  - vm_compute. reflexivity.
Defined.

(** C1, the claim as stated, fails: an agenda item whose [result] is the
    empty string gets the empty string as its [status]. *)
Lemma C1_empty_result_counterexample :
  exists df dff,
    file_data empty_result_fs decisions_path
    = Some [agenda_item "TOP 1" "2023-03-14T09:30:00Z" (JString [])]
    /\ load_and_preprocess_decisions iso_utc empty_result_fs = Ok (df, dff)
    /\ getcol df "status" = Ok [Str []]
    /\ Str [] <> Str (lit "No result").
Proof.
  eexists. eexists. split; [reflexivity|]. split; [vm_compute; reflexivity|].
  split; [reflexivity | discriminate].
Qed.

(** C5.  The actionable view returned by [load_and_preprocess_decisions]
    has the columns of the full view and holds, in the same order, the
    rows of the full view whose [status] is neither ["No result"] nor
    ["Kenntnis genommen"]: no row of it has one of these two statuses,
    and a row with any other status is in the actionable view if and only
    if it is in the full view. *)
Theorem C5_actionable_view
    (to_datetime : list value -> pystr -> parsed) (fs : filesystem) (df dff : DataFrame) :
  load_and_preprocess_decisions to_datetime fs = Ok (df, dff) ->
  columns dff = columns df
  /\ data dff
     = filter (fun row => negb (isin1 excluded_statuses (field df "status" row)))
         (data df)
  /\ (forall row, In row (data dff) ->
        field dff "status" row <> Str (lit "No result")
        /\ field dff "status" row <> Str (lit "Kenntnis genommen"))
  /\ (forall row,
        field df "status" row <> Str (lit "No result") ->
        field df "status" row <> Str (lit "Kenntnis genommen") ->
        (In row (data dff) <-> In row (data df))).
Proof.
  intros Hload. apply load_decisions_cases in Hload.
  destruct Hload as [(records & Hpre) | (-> & ->)].
  - apply preprocess_decisions_inv in Hpre.
    destruct Hpre as (Hst & -> & _).
    pose proof (getcol_field _ _ _ Hst) as Hcol.
    assert (Hdata : data (boolean_index df
                      (map negb (isin (map derived_status records) excluded_statuses)))
                    = filter (fun row => negb (isin1 excluded_statuses (field df "status" row)))
                        (data df)).
    { unfold boolean_index, isin; simpl. rewrite Hcol, !map_map.
      apply keep_map. }
    split; [reflexivity|]. split; [exact Hdata|]. split.
    + intros row Hin. rewrite Hdata in Hin. apply filter_In in Hin.
      destruct Hin as (_ & Hne). apply negb_true_iff in Hne.
      unfold field in *; simpl.
      split; intros Heq; rewrite Heq in Hne; discriminate.
    + intros row H1 H2. rewrite Hdata, filter_In.
      split; [tauto|]. intros Hin. split; [assumption|].
      apply negb_true_iff. destruct (isin1 _ _) eqn:E; [|reflexivity].
      apply isin1_In in E. simpl in E. destruct E as [E|[E|[]]]; congruence.
  - simpl. repeat split; tauto.
Qed.

Lemma C5_actionable_view_witness :
  nrows demo_all_decisions = 5 /\ nrows demo_decisions = 2
  /\ columns demo_decisions = columns demo_all_decisions
  /\ (forall row, In row (data demo_decisions) ->
        field demo_decisions "status" row <> Str (lit "No result")
        /\ field demo_decisions "status" row <> Str (lit "Kenntnis genommen"))
  /\ (forall row,
        field demo_all_decisions "status" row <> Str (lit "No result") ->
        field demo_all_decisions "status" row <> Str (lit "Kenntnis genommen") ->
        (In row (data demo_decisions) <-> In row (data demo_all_decisions))).
Proof.
  assert (Hload : load_and_preprocess_decisions iso_utc demo_decisions_fs
                  = Ok (demo_all_decisions, demo_decisions))
    by (vm_compute; reflexivity).
  destruct (C5_actionable_view iso_utc demo_decisions_fs demo_all_decisions
              demo_decisions Hload) as (Hcols & _ & Hno & Hiff).
  split; [reflexivity|]. split; [reflexivity|].
  split; [exact Hcols|]. split; [exact Hno | exact Hiff].
Defined.

(** ** The filters *)

Lemma In_unique (x : value) (l : list value) : In x (unique l) <-> In x l.
Proof.
  unfold unique. induction l as [|y l IH]; simpl; [tauto|].
  rewrite filter_In, IH. split.
  - intros [H|[H _]]; auto.
  - intros [H|H]; [auto|].
    destruct (value_eqb y x) eqn:E.
    + apply value_eqb_eq in E. auto.
    + right. split; [assumption | reflexivity].
Qed.

Lemma In_insert_sorted (x y : value) (l : list value) :
  In y (insert_sorted x l) <-> y = x \/ In y l.
Proof.
  induction l as [|z l IH]; simpl.
  - intuition congruence.
  - destruct (value_leb x z); simpl; [intuition congruence|].
    rewrite IH. intuition congruence.
Qed.

Lemma In_insertion_sort (y : value) (l : list value) :
  In y (insertion_sort l) <-> In y l.
Proof.
  induction l as [|x l IH]; simpl; [tauto|].
  rewrite In_insert_sorted, IH. intuition congruence.
Qed.

Lemma sorted_In (l opts : list value) (y : value) :
  sorted l = Ok opts -> (In y opts <-> In y l).
Proof.
  unfold sorted.
  destruct (forallb is_str l || forallb is_timestamp l).
  - intros H; inv_Ok H. apply In_insertion_sort.
  - destruct (forallb is_nan l); intros H; [|discriminate].
    inv_Ok H. tauto.
Qed.

Lemma filter_all {A : Type} (f : A -> bool) (l : list A) :
  (forall x, In x l -> f x = true) -> filter f l = l.
Proof.
  induction l as [|x l IH]; simpl; intros H; [reflexivity|].
  rewrite (H x) by auto. f_equal. apply IH. auto.
Qed.

Lemma filter_none {A : Type} (f : A -> bool) (l : list A) :
  (forall x, In x l -> f x = false) -> filter f l = [].
Proof.
  induction l as [|x l IH]; simpl; intros H; [reflexivity|].
  rewrite (H x) by auto. apply IH. auto.
Qed.

(** The rows [filter_isin] keeps. *)
Lemma filter_isin_rows (df : DataFrame) (c : label) (col selected : list value) :
  getcol df c = Ok col ->
  filter_isin df c selected
  = Ok (mkDataFrame (columns df)
          (filter (fun row => isin1 selected (field df c row)) (data df))).
Proof.
  intros H. unfold filter_isin. rewrite H. simpl.
  apply getcol_field in H. subst col.
  unfold boolean_index, isin. rewrite map_map, keep_map. reflexivity.
Qed.

Lemma filter_isin_nil (df : DataFrame) (c : label) (col : list value) :
  getcol df c = Ok col ->
  filter_isin df c [] = Ok (mkDataFrame (columns df) []).
Proof.
  intros H. rewrite (filter_isin_rows _ _ _ _ H). do 2 f_equal.
  apply filter_none. reflexivity.
Qed.

Lemma filter_isin_all (df : DataFrame) (c : label) (col selected : list value) :
  getcol df c = Ok col ->
  (forall v, In v col -> In v selected) ->
  filter_isin df c selected = Ok df.
Proof.
  intros H Hall. rewrite (filter_isin_rows _ _ _ _ H).
  rewrite filter_all; [destruct df; reflexivity|].
  intros row Hin. apply isin1_In, Hall.
  rewrite (getcol_field _ _ _ H). apply in_map. assumption.
Qed.

Lemma filter_isin_options (df : DataFrame) (c : label) (opts : list value) :
  options df c = Ok opts -> filter_isin df c opts = Ok df.
Proof.
  unfold options. intros H. inv_bind H.
  apply (filter_isin_all _ _ x); [assumption|].
  intros v Hin. apply (sorted_In _ _ v) in H. apply H, In_unique, Hin.
Qed.

Lemma options_of_strings (df : DataFrame) (c : label) (col : list value) :
  getcol df c = Ok col ->
  Forall (fun v => is_str v = true) col ->
  exists opts, options df c = Ok opts.
Proof.
  intros H Hstr. unfold options, sorted. rewrite H. simpl.
  assert (forallb is_str (unique col) = true) as Hu.
  { apply forallb_forall. intros v Hin. apply (proj1 (In_unique _ _)) in Hin.
    rewrite Forall_forall in Hstr. auto. }
  rewrite Hu. simpl. eexists. reflexivity.
Qed.

(** C7.  Filtering by an empty selection gives an empty table, on the
    "Decisions" page (statuses) and on the "People" page (organizations)
    alike: the result has the columns of the input and no row, so for a
    non-empty input it is not the input. *)
Theorem C7_empty_selection_selects_nothing (df : DataFrame) :
  data df <> [] ->
  (forall status, getcol df "status" = Ok status ->
     decisions_status_filter df [] = Ok (mkDataFrame (columns df) [])
     /\ decisions_status_filter df [] <> Ok df)
  /\ (forall organization, getcol df "Organization" = Ok organization ->
       people_org_filter df [] = Ok (mkDataFrame (columns df) [])
       /\ people_org_filter df [] <> Ok df)
  /\ (forall c col, getcol df c = Ok col ->
       filter_isin df c [] = Ok (mkDataFrame (columns df) [])).
Proof.
  intros Hne.
  assert (G : forall c col, getcol df c = Ok col ->
              filter_isin df c [] = Ok (mkDataFrame (columns df) [])
              /\ filter_isin df c [] <> Ok df).
  { intros c col H. pose proof (filter_isin_nil _ _ _ H) as E.
    split; [assumption|]. rewrite E. intros Heq. inv_Ok Heq. apply Hne.
    rewrite <- Heq. reflexivity. }
  split; [|split].
  - intros status H. exact (G _ _ H).
  - intros organization H. exact (G _ _ H).
  - intros c col H. exact (proj1 (G _ _ H)).
Qed.

(** C8.  Filtering a table by the list of all values its column [c]
    holds gives the table back, same rows in the same order.  This holds
    for the options the page computes with [sorted(df[c].unique())]
    (which exist whenever the column holds strings only), and for any
    selection that contains every value of the column. *)
Theorem C8_select_all_is_identity (df : DataFrame) (c : label)
    (col : list value) :
  getcol df c = Ok col ->
  (forall opts, options df c = Ok opts ->
     filter_isin df c opts = Ok df /\ forall v, In v opts <-> In v col)
  /\ (forall selected, (forall v, In v col -> In v selected) ->
       filter_isin df c selected = Ok df)
  /\ (Forall (fun v => is_str v = true) col ->
       exists opts, options df c = Ok opts).
Proof.
  intros H. split; [|split].
  - intros opts Hopts. split; [apply filter_isin_options; assumption|].
    intros v. unfold options in Hopts. rewrite H in Hopts. simpl in Hopts.
    rewrite (sorted_In _ _ v Hopts). apply In_unique.
  - intros selected Hall. apply (filter_isin_all _ _ col); assumption.
  - apply options_of_strings. assumption.
Qed.

Lemma mapM_dt_date (col : list value) :
  Forall (fun v => is_str v = false) col ->
  mapM dt_date_value col
  = Ok (map (fun v => match v with
                      | Timestamp ns => Some (date_of ns)
                      | _ => None
                      end) col).
Proof.
  induction 1 as [|v col Hv _ IH]; simpl; [reflexivity|].
  rewrite IH. destruct v; simpl; try reflexivity. discriminate.
Qed.

Lemma in_date_range_spec (lo hi : date) (x : value) :
  in_date_range lo hi x = true
  <-> exists ns, x = Timestamp ns /\ (lo <= date_of ns <= hi)%Z.
Proof.
  destruct x as [|s|ns]; simpl.
  - split; [discriminate | intros (? & ? & _); discriminate].
  - split; [discriminate | intros (? & ? & _); discriminate].
  - rewrite andb_true_iff, !Z.leb_le. split.
    + intros Hr. exists ns. auto.
    + intros (ns' & E & Hr). inv_Ok E. assumption.
Qed.

Lemma date_filter_rows (df : DataFrame) (lo hi : date) (created : list value) :
  getcol df "created" = Ok created ->
  Forall (fun v => is_str v = false) created ->
  decisions_date_filter [lo; hi] df
  = Ok (mkDataFrame (columns df)
          (filter (fun row => in_date_range lo hi (field df "created" row))
                  (data df))).
Proof.
  intros H Hdt. unfold decisions_date_filter. rewrite H. simpl.
  rewrite (mapM_dt_date _ Hdt). simpl.
  apply getcol_field in H. subst created.
  unfold boolean_index. do 2 f_equal.
  rewrite !map_map, map2_map, <- keep_map. f_equal.
  apply map_ext. intros row.
  destruct (field df "created" row); reflexivity.
Qed.

(** C9.  With a range of two dates the date filter of the "Decisions"
    page keeps, in their order, exactly the rows whose [created]
    timestamp falls on a day [d] with [lo <= d <= hi], both ends
    included; for [lo = hi] these are the rows created on that very day.
    (A row without timestamp is dropped.) *)
Theorem C9_date_range_is_inclusive (df : DataFrame) (lo hi : date)
    (created : list value) :
  getcol df "created" = Ok created ->
  Forall (fun v => is_str v = false) created ->
  exists out,
    decisions_date_filter [lo; hi] df = Ok out
    /\ columns out = columns df
    /\ data out
       = filter (fun row => in_date_range lo hi (field df "created" row))
           (data df)
    /\ (forall row,
          In row (data out)
          <-> In row (data df)
              /\ exists ns, field df "created" row = Timestamp ns
                            /\ (lo <= date_of ns <= hi)%Z)
    /\ (lo = hi ->
        forall row,
          In row (data out)
          <-> In row (data df)
              /\ exists ns, field df "created" row = Timestamp ns
                            /\ date_of ns = lo).
Proof.
  intros H Hdt. eexists. split; [apply (date_filter_rows _ _ _ _ H Hdt)|].
  simpl. split; [reflexivity|]. split; [reflexivity|].
  assert (G : forall row,
             In row (filter (fun row => in_date_range lo hi (field df "created" row))
                       (data df))
             <-> In row (data df)
                 /\ exists ns, field df "created" row = Timestamp ns
                               /\ (lo <= date_of ns <= hi)%Z).
  { intros row. rewrite filter_In, in_date_range_spec. tauto. }
  split; [exact G|].
  intros <- row. rewrite G. split; intros (Hin & ns & E & Hr);
    (split; [assumption|]); exists ns; (split; [assumption|]); lia.
Qed.

(** ** Selecting and merging *)

Lemma mem_In (c : label) (cols : list label) : mem c cols = true <-> In c cols.
Proof.
  unfold mem. rewrite existsb_exists. split.
  - intros (x & Hx & E). apply String.eqb_eq in E. subst; assumption.
  - intros H. exists c. split; [assumption | apply String.eqb_refl].
Qed.

Lemma mem_false (c : label) (cols : list label) :
  mem c cols = false <-> ~ In c cols.
Proof.
  rewrite <- mem_In. destruct (mem c cols); split; congruence.
Qed.

Lemma NoDup_unique_labels (l : list label) : NoDup (unique_by String.eqb l).
Proof.
  induction l as [|x l IH]; simpl; constructor.
  - rewrite filter_In, String.eqb_refl. simpl. intros [_ H]; discriminate.
  - apply NoDup_filter. assumption.
Qed.

Lemma NoDup_columns_frame_of_records (records : list record) :
  NoDup (columns (frame_of_records records)).
Proof. apply NoDup_unique_labels. Qed.

Lemma positions_not_In (c : label) (cols : list label) :
  ~ In c cols -> positions c cols = [].
Proof.
  induction cols as [|c' cols IH]; simpl; intros H; [reflexivity|].
  destruct (String.eqb c' c) eqn:E.
  - apply String.eqb_eq in E. tauto.
  - rewrite IH by tauto. reflexivity.
Qed.

Lemma positions_NoDup (c : label) (cols : list label) (i : nat) :
  NoDup cols -> index_of c cols = Some i -> positions c cols = [i].
Proof.
  intros Hnd. revert i. induction Hnd as [|c' cols Hni Hnd IH]; simpl;
    intros i H; [discriminate|].
  destruct (String.eqb c' c) eqn:E.
  - apply String.eqb_eq in E. subst c'. inv_Ok H.
    rewrite positions_not_In by assumption. reflexivity.
  - destruct (index_of c cols) as [j|]; simpl in H; [|discriminate].
    inv_Ok H. rewrite (IH _ eq_refl). reflexivity.
Qed.

Lemma positions_app (c : label) (cols more : list label) :
  positions c (cols ++ more)
  = positions c cols ++ map (fun i => length cols + i) (positions c more).
Proof.
  induction cols as [|c' cols IH]; simpl.
  - rewrite map_id. reflexivity.
  - rewrite IH, map_app, map_map.
    destruct (String.eqb c' c); reflexivity.
Qed.

Lemma select_id_name (targets : list record) :
  entity_keys_ok targets = true ->
  select (frame_of_records targets) ["id"; "name"] = Ok (id_name_frame targets).
Proof.
  unfold entity_keys_ok, has_key. intros H. apply andb_true_iff in H.
  destruct H as (Hid & Hname).
  apply index_of_mem in Hid, Hname.
  destruct Hid as (i & Hi), Hname as (j & Hj).
  pose proof (NoDup_columns_frame_of_records targets) as Hnd.
  unfold select. cbn [select_positions].
  rewrite (positions_NoDup _ _ _ Hnd Hi), (positions_NoDup _ _ _ Hnd Hj).
  simpl. unfold id_name_frame. do 2 f_equal.
  rewrite map_map. apply map_ext. intros t. unfold id_name.
  unfold frame_of_records in Hi, Hj; simpl in Hi, Hj.
  rewrite (cell_map_index _ _ _ _ Hi), (cell_map_index _ _ _ _ Hj).
  reflexivity.
Qed.

Lemma filter_map_comm {A B : Type} (f : B -> bool) (g : A -> B) (l : list A) :
  filter f (map g l) = map g (filter (fun a => f (g a)) l).
Proof.
  induction l as [|a l IH]; simpl; [reflexivity|].
  rewrite IH. destruct (f (g a)); reflexivity.
Qed.

Lemma join_row_id_name (i : nat) (targets : list record) (l : list value) :
  join_row i 0 2 (map id_name targets) l
  = map (fun r => l ++ r) (joined targets (cell i l)).
Proof.
  unfold join_row, matches, joined, resolved.
  rewrite filter_map_comm. simpl.
  destruct (filter _ targets); reflexivity.
Qed.

(** *** Labels after a merge with an [id]/[name] frame *)

Lemma mem_filter (c : label) (f : label -> bool) (cols : list label) :
  mem c (filter f cols) = mem c cols && f c.
Proof.
  unfold mem. induction cols as [|c' cols IH]; simpl; [reflexivity|].
  destruct (f c') eqn:E; simpl; rewrite IH.
  - destruct (String.eqb c c') eqn:Ec; simpl; [|reflexivity].
    apply String.eqb_eq in Ec. subst. rewrite E. reflexivity.
  - destruct (String.eqb c c') eqn:Ec; simpl; [|reflexivity].
    apply String.eqb_eq in Ec. subst. rewrite E, andb_false_r. reflexivity.
Qed.

Lemma suffixed_left (cols : list label) :
  ~ In "name" cols ->
  suffixed (filter (fun c => mem c ["id"; "name"]) cols) "_x" cols
  = rename_id cols.
Proof.
  intros Hname. unfold suffixed, rename_id. apply map_ext_in.
  intros c Hc. rewrite mem_filter.
  rewrite (proj2 (mem_In c cols) Hc). simpl.
  destruct (String.eqb c "id") eqn:E.
  - apply String.eqb_eq in E. subst. reflexivity.
  - destruct (String.eqb c "name") eqn:E'; [|reflexivity].
    apply String.eqb_eq in E'. subst. tauto.
Qed.

Lemma suffixed_right (cols : list label) :
  ~ In "name" cols ->
  suffixed (filter (fun c => mem c ["id"; "name"]) cols) "_y" ["id"; "name"]
  = [id_label cols; "name"].
Proof.
  intros Hname. unfold suffixed, id_label. simpl. rewrite !mem_filter. simpl.
  rewrite (proj2 (mem_false "name" cols) Hname). simpl.
  destruct (mem "id" cols); reflexivity.
Qed.

Lemma duplicated_map_inj (f : label -> label) (seen cols : list label) :
  (forall a b, In a (seen ++ cols) -> In b (seen ++ cols) -> f a = f b -> a = b) ->
  duplicated (map f seen) (map f cols) = duplicated seen cols.
Proof.
  revert seen. induction cols as [|c cols IH]; simpl; intros seen Hinj;
    [reflexivity|].
  f_equal.
  - destruct (mem c seen) eqn:E.
    + apply mem_In. apply in_map. apply mem_In. assumption.
    + apply mem_false. apply mem_false in E. intros Hin. apply E.
      apply in_map_iff in Hin. destruct Hin as (a & Ha & Hin).
      assert (a = c); [|subst; assumption].
      apply Hinj; [apply in_or_app; auto | apply in_or_app; simpl; auto
                  | assumption].
  - apply (IH (c :: seen)). intros a b Ha Hb. apply Hinj.
    + simpl in Ha. rewrite in_app_iff in *. simpl. tauto.
    + simpl in Hb. rewrite in_app_iff in *. simpl. tauto.
Qed.

Lemma no_new_dups (d : list bool) :
  existsb (fun b => b) (map2 (fun d o => d && negb o) d d) = false.
Proof.
  induction d as [|b d IH]; simpl; [reflexivity|].
  rewrite IH. destruct b; reflexivity.
Qed.

Lemma suffix_dups_rename_id (cols : list label) :
  (In "id" cols -> ~ In "id_x" cols) ->
  suffix_dups cols (rename_id cols) = false.
Proof.
  intros H. unfold suffix_dups, rename_id.
  change (@nil label) with (map (fun c => if String.eqb c "id" then "id_x" else c) [])
    at 1.
  rewrite duplicated_map_inj; [apply no_new_dups|].
  simpl. intros a b Ha Hb.
  destruct (String.eqb a "id") eqn:Ea, (String.eqb b "id") eqn:Eb;
    try apply String.eqb_eq in Ea; try apply String.eqb_eq in Eb; subst;
    intros E; try reflexivity; try assumption; subst; exfalso; tauto.
Qed.

Lemma merge_left_id_name (left : DataFrame) (targets : list record)
    (key : label) (i : nat) :
  index_of key (columns left) = Some i ->
  ~ In "name" (columns left) ->
  (In "id" (columns left) -> ~ In "id_x" (columns left)) ->
  merge_left left (id_name_frame targets) key "id"
  = Ok (mkDataFrame
          (rename_id (columns left) ++ [id_label (columns left); "name"])
          (flat_map (fun l => map (fun r => l ++ r) (joined targets (cell i l)))
                    (data left))).
Proof.
  intros Hi Hname Hidx. unfold merge_left.
  change (index_of "id" (columns (id_name_frame targets))) with (Some 0).
  rewrite Hi. cbv zeta.
  change (columns (id_name_frame targets)) with ["id"; "name"].
  rewrite (suffixed_left _ Hname), (suffixed_right _ Hname).
  rewrite (suffix_dups_rename_id _ Hidx).
  assert (suffix_dups ["id"; "name"] [id_label (columns left); "name"] = false)
    as ->.
  { unfold id_label. destruct (mem "id" (columns left)); reflexivity. }
  simpl. do 2 f_equal. apply flat_map_ext. intros l.
  apply join_row_id_name.
Qed.

Lemma map_rename_not_In (old new : label) (cols : list label) :
  ~ In old cols ->
  map (fun c => if String.eqb c old then new else c) cols = cols.
Proof.
  induction cols as [|c cols IH]; simpl; intros H; [reflexivity|].
  destruct (String.eqb c old) eqn:E.
  - apply String.eqb_eq in E. tauto.
  - rewrite IH by tauto. reflexivity.
Qed.

Lemma rename_id_not_In (cols : list label) :
  ~ In "id" cols -> rename_id cols = cols.
Proof. apply map_rename_not_In. Qed.

Lemma In_rename_id (c : label) (cols : list label) :
  In c (rename_id cols) -> c = "id_x" \/ (c <> "id" /\ In c cols).
Proof.
  unfold rename_id. rewrite in_map_iff. intros (c' & E & Hin).
  destruct (String.eqb c' "id") eqn:E'.
  - left; congruence.
  - right. subst c'. split; [|assumption]. intros ->. discriminate.
Qed.

Lemma positions_rename_id (c : label) (cols : list label) :
  c <> "id" -> c <> "id_x" -> positions c (rename_id cols) = positions c cols.
Proof.
  intros H1 H2. induction cols as [|c' cols IH]; simpl; [reflexivity|].
  rewrite IH. destruct (String.eqb c' "id") eqn:E.
  - apply String.eqb_eq in E. subst c'.
    destruct (String.eqb "id_x" c) eqn:E1; [apply String.eqb_eq in E1; congruence|].
    destruct (String.eqb "id" c) eqn:E2; [apply String.eqb_eq in E2; congruence|].
    reflexivity.
  - reflexivity.
Qed.

Lemma index_of_rename_id (c : label) (cols : list label) :
  c <> "id" -> c <> "id_x" -> index_of c (rename_id cols) = index_of c cols.
Proof.
  intros H1 H2. induction cols as [|c' cols IH]; simpl; [reflexivity|].
  rewrite IH. destruct (String.eqb c' "id") eqn:E.
  - apply String.eqb_eq in E. subst c'.
    destruct (String.eqb "id_x" c) eqn:E1; [apply String.eqb_eq in E1; congruence|].
    destruct (String.eqb "id" c) eqn:E2; [apply String.eqb_eq in E2; congruence|].
    reflexivity.
  - reflexivity.
Qed.

Lemma length_rename_id (cols : list label) :
  length (rename_id cols) = length cols.
Proof. apply length_map. Qed.

Lemma joined_length (targets : list record) (key : value) (r : list value) :
  In r (joined targets key) -> length r = 2.
Proof.
  unfold joined. destruct (resolved targets key) as [|t ts] eqn:E.
  - intros [<-|[]]. reflexivity.
  - rewrite in_map_iff. intros (t' & <- & _). reflexivity.
Qed.

Lemma joined_not_nil (targets : list record) (key : value) :
  joined targets key <> [].
Proof.
  unfold joined. destruct (resolved targets key); discriminate.
Qed.

Lemma flat_map_ext_in {A B : Type} (f g : A -> list B) (l : list A) :
  (forall a, In a l -> f a = g a) -> flat_map f l = flat_map g l.
Proof.
  induction l as [|a l IH]; simpl; intros H; [reflexivity|].
  rewrite (H a) by auto. f_equal. apply IH. auto.
Qed.

Lemma flat_map_flat_map {A B C : Type} (f : A -> list B) (g : B -> list C)
    (l : list A) :
  flat_map g (flat_map f l) = flat_map (fun a => flat_map g (f a)) l.
Proof.
  induction l as [|a l IH]; simpl; [reflexivity|].
  rewrite flat_map_app, IH. reflexivity.
Qed.

Lemma flat_map_map_l {A B C : Type} (f : A -> B) (g : B -> list C) (l : list A) :
  flat_map g (map f l) = flat_map (fun a => g (f a)) l.
Proof. induction l as [|a l IH]; simpl; congruence. Qed.

Lemma map_flat_map {A B C : Type} (f : A -> list B) (g : B -> C) (l : list A) :
  map g (flat_map f l) = flat_map (fun a => map g (f a)) l.
Proof.
  induction l as [|a l IH]; simpl; [reflexivity|].
  rewrite map_app, IH. reflexivity.
Qed.

#[local] Arguments mem : simpl never.
#[local] Arguments rename_id : simpl never.

Lemma not_In_name_rename_id (L : list label) :
  ~ In "name" L -> ~ In "name" (rename_id L).
Proof.
  intros Hname H. apply In_rename_id in H.
  destruct H as [H|[_ H]]; [discriminate | tauto].
Qed.

(** The labels after the first merge and its [rename]. *)
Lemma labels_after_first_merge (L : list label) :
  ~ In "name" L ->
  map (fun c => if String.eqb c "name" then "name_person" else c)
      (rename_id L ++ [id_label L; "name"])
  = rename_id L ++ [id_label L; "name_person"].
Proof.
  intros Hname.
  rewrite map_app, (map_rename_not_In _ _ _ (not_In_name_rename_id _ Hname)).
  unfold id_label. destruct (mem "id" L); reflexivity.
Qed.

Lemma first_merge_labels_ok (L : list label) :
  ~ In "name" L -> ~ In "id_x" L ->
  let cols := rename_id L ++ [id_label L; "name_person"] in
  ~ In "name" cols /\ (In "id" cols -> ~ In "id_x" cols).
Proof.
  intros Hname Hidx cols. subst cols. split.
  - rewrite in_app_iff. intros [H|H].
    + exact (not_In_name_rename_id _ Hname H).
    + unfold id_label in H. destruct (mem "id" L); simpl in H;
        intuition discriminate.
  - unfold id_label. destruct (mem "id" L) eqn:Hid.
    + intros H. exfalso. rewrite in_app_iff in H. destruct H as [H|H].
      * apply In_rename_id in H. destruct H as [H|[H _]];
          [discriminate | congruence].
      * simpl in H. intuition discriminate.
    + intros _. apply mem_false in Hid. rewrite (rename_id_not_In _ Hid).
      rewrite in_app_iff. intros [H|H]; [tauto|].
      simpl in H. intuition discriminate.
Qed.

(** The labels after the second merge and its [rename]. *)
Lemma labels_after_second_merge (L : list label) :
  ~ In "name" L -> ~ In "id_x" L ->
  let cols := rename_id L ++ [id_label L; "name_person"] in
  map (fun c => if String.eqb c "name" then "name_org" else c)
      (rename_id cols ++ [id_label cols; "name"])
  = rename_id L ++ joined_tail L.
Proof.
  intros Hname Hidx cols.
  destruct (first_merge_labels_ok L Hname Hidx) as (Hn1 & _). fold cols in Hn1.
  rewrite map_app, (map_rename_not_In _ _ _ (not_In_name_rename_id _ Hn1)).
  subst cols. unfold id_label, joined_tail.
  destruct (mem "id" L) eqn:Hid.
  - assert (Hni : ~ In "id" (rename_id L ++ ["id_y"; "name_person"])).
    { rewrite in_app_iff. intros [H|H].
      - apply In_rename_id in H. destruct H as [H|[H _]];
          [discriminate | congruence].
      - simpl in H. intuition discriminate. }
    rewrite (rename_id_not_In _ Hni).
    rewrite (proj2 (mem_false _ _) Hni). rewrite <- app_assoc. reflexivity.
  - apply mem_false in Hid.
    assert (Hin : In "id" (rename_id L ++ ["id"; "name_person"])).
    { rewrite in_app_iff. simpl. auto. }
    rewrite (proj2 (mem_In _ _) Hin).
    unfold rename_id at 1. rewrite map_app. fold (rename_id (rename_id L)).
    rewrite (rename_id_not_In _ Hid), (rename_id_not_In _ Hid).
    rewrite <- app_assoc. reflexivity.
Qed.

Lemma membership_keys_facts (ms : list record) :
  membership_keys_ok ms = true ->
  let L := columns (frame_of_records ms) in
  (exists ip, index_of "person" L = Some ip)
  /\ (exists io, index_of "organization" L = Some io)
  /\ (exists ir, index_of "role" L = Some ir)
  /\ (exists isd, index_of "startDate" L = Some isd)
  /\ ~ In "name" L /\ ~ In "name_person" L /\ ~ In "name_org" L
  /\ ~ In "id_x" L.
Proof.
  intros H L. subst L. unfold membership_keys_ok, has_key in H.
  repeat (apply andb_true_iff in H; destruct H as [H ?]).
  repeat match goal with
         | H : negb _ = true |- _ => apply negb_true_iff, mem_false in H
         | H : mem _ _ = true |- _ => apply index_of_mem in H
         end.
  repeat split; assumption.
Qed.

(** The four columns the loader selects from the twice-merged table. *)
Lemma select_final (L : list label) (D : list (list value)) (ir isd : nat) :
  NoDup L ->
  index_of "role" L = Some ir -> index_of "startDate" L = Some isd ->
  ~ In "name_person" L -> ~ In "name_org" L ->
  select (mkDataFrame (rename_id L ++ joined_tail L) D)
         ["name_person"; "name_org"; "role"; "startDate"]
  = Ok (mkDataFrame ["name_person"; "name_org"; "role"; "startDate"]
          (map (fun row => [cell (length L + 1) row; cell (length L + 3) row;
                            cell ir row; cell isd row]) D)).
Proof.
  intros Hnd Hr Hs Hnp Hno. unfold select. cbn [select_positions columns].
  rewrite !positions_app, !positions_rename_id by discriminate.
  rewrite (positions_not_In _ _ Hnp), (positions_not_In _ _ Hno).
  rewrite (positions_NoDup _ _ _ Hnd Hr), (positions_NoDup _ _ _ Hnd Hs).
  rewrite length_rename_id.
  unfold joined_tail. destruct (mem "id" L); reflexivity.
Qed.

Lemma cell_app_l (i : nat) (l r : list value) :
  i < length l -> cell i (l ++ r) = cell i l.
Proof. intros H. unfold cell. apply app_nth1. assumption. Qed.

Lemma cell_app_r (i : nat) (l r : list value) :
  cell (length l + i) (l ++ r) = cell i r.
Proof.
  unfold cell. rewrite app_nth2 by lia. f_equal. lia.
Qed.

Lemma data_frame_of_records (records : list record) :
  data (frame_of_records records)
  = map (fun r => map (cell_of r) (columns (frame_of_records records))) records.
Proof. reflexivity. Qed.

(** The rows of the final table, membership by membership. *)
Lemma joined_rows (people orgs ms : list record) (ip io ir isd : nat) :
  let L := columns (frame_of_records ms) in
  index_of "person" L = Some ip -> index_of "organization" L = Some io ->
  index_of "role" L = Some ir -> index_of "startDate" L = Some isd ->
  map (fun row =>
         [fillna_value Unknown (cell (length L + 1) row);
          clean_organization (fillna_value Unknown (cell (length L + 3) row));
          fillna_value Unknown (cell ir row);
          fillna_value Unknown (cell isd row)])
      (flat_map (fun l => map (fun r => l ++ r) (joined orgs (cell io l)))
         (flat_map (fun l => map (fun r => l ++ r) (joined people (cell ip l)))
            (data (frame_of_records ms))))
  = flat_map (rows_of_membership people orgs) ms.
Proof.
  intros L Hp Ho Hr Hs.
  rewrite map_flat_map, flat_map_flat_map.
  rewrite data_frame_of_records. fold L.
  rewrite flat_map_map_l. apply flat_map_ext. intros m.
  pose proof (cell_map_index (cell_of m) _ _ _ Hp) as Cp.
  pose proof (cell_map_index (cell_of m) _ _ _ Ho) as Co.
  pose proof (cell_map_index (cell_of m) _ _ _ Hr) as Cr.
  pose proof (cell_map_index (cell_of m) _ _ _ Hs) as Cs.
  assert (Hlen : length (map (cell_of m) L) = length L) by apply length_map.
  apply index_of_bound in Ho, Hr, Hs. clearbody L.
  rewrite <- Hlen in Ho. rewrite <- Hlen in Hr. rewrite <- Hlen in Hs.
  rewrite <- Hlen.
  clear Hlen Hp.
  remember (map (cell_of m) L) as mrow eqn:Hmrow. clear Hmrow.
  rewrite flat_map_map_l. unfold rows_of_membership. rewrite Cp.
  apply flat_map_ext_in. intros pr Hpr. apply joined_length in Hpr.
  rewrite (cell_app_l _ _ _ Ho), Co.
  rewrite map_map. apply map_ext_in. intros or Hor. apply joined_length in Hor.
  destruct pr as [|p0 [|p1 [|]]]; try discriminate.
  destruct or as [|o0 [|o1 [|]]]; try discriminate.
  unfold final_row. rewrite <- app_assoc.
  rewrite !cell_app_r.
  rewrite (cell_app_l _ _ _ Hr), (cell_app_l _ _ _ Hs), Cr, Cs.
  reflexivity.
Qed.

Lemma index_of_Organization :
  index_of "Organization" ["Name"; "Organization"; "Role"; "Start Date"]
  = Some 1.
Proof. reflexivity. Qed.

(** What [preprocess_people] returns on collections that carry the keys
    it reads. *)
Lemma preprocess_people_rows (people orgs ms : list record) :
  entity_keys_ok people = true -> entity_keys_ok orgs = true ->
  membership_keys_ok ms = true ->
  preprocess_people people orgs ms
  = Ok (mkDataFrame ["Name"; "Organization"; "Role"; "Start Date"]
          (flat_map (rows_of_membership people orgs) ms)).
Proof.
  intros Hp Ho Hm.
  destruct (membership_keys_facts ms Hm)
    as ((ip & Hip) & (io & Hio) & (ir & Hir) & (isd & His)
        & Hname & Hnp & Hno & Hidx).
  pose proof (NoDup_columns_frame_of_records ms) as Hnd.
  set (L := columns (frame_of_records ms)) in *.
  unfold preprocess_people.
  rewrite (select_id_name _ Hp). cbn [bind].
  rewrite (merge_left_id_name _ _ _ ip Hip Hname (fun _ => Hidx)). cbn [bind].
  rewrite (select_id_name _ Ho). cbn [bind].
  unfold rename at 1. cbn [columns data]. fold L.
  rewrite (labels_after_first_merge L Hname).
  destruct (first_merge_labels_ok L Hname Hidx) as (Hn1 & Hx1).
  assert (Hio' : index_of "organization"
                   (rename_id L ++ [id_label L; "name_person"]) = Some io).
  { apply index_of_app_l. rewrite index_of_rename_id by discriminate.
    assumption. }
  rewrite (merge_left_id_name
             (mkDataFrame (rename_id L ++ [id_label L; "name_person"]) _)
             orgs "organization" io Hio' Hn1 Hx1).
  cbn [bind]. unfold rename. cbn [columns data].
  rewrite (labels_after_second_merge L Hname Hidx).
  rewrite (select_final L _ ir isd Hnd Hir His Hnp Hno). cbn [bind].
  unfold set_columns. cbn [columns data length Nat.eqb bind].
  unfold fillna, getcol, setcol. cbn [columns data].
  rewrite index_of_Organization. cbn [bind].
  rewrite !map_map, map2_map.
  do 2 f_equal.
  rewrite <- (joined_rows people orgs ms ip io ir isd Hip Hio Hir His).
  fold L. apply map_ext. intros row. reflexivity.
Qed.

(** ** The people loader *)

Lemma select_not_FileNotFound (df : DataFrame) (wanted : list label) :
  not_FileNotFound (select df wanted).
Proof.
  unfold select. apply bind_not_FileNotFound; [|discriminate].
  induction wanted as [|c wanted IH]; simpl; [discriminate|].
  destruct (positions c (columns df)); [discriminate|].
  apply bind_not_FileNotFound; [assumption | discriminate].
Qed.

Lemma merge_left_not_FileNotFound (left right : DataFrame) (lk rk : label) :
  not_FileNotFound (merge_left left right lk rk).
Proof.
  unfold merge_left.
  destruct (index_of rk (columns right)); [|discriminate].
  destruct (index_of lk (columns left)); [|discriminate].
  destruct (_ || _); discriminate.
Qed.

Lemma set_columns_not_FileNotFound (df : DataFrame) (names : list label) :
  not_FileNotFound (set_columns df names).
Proof.
  unfold set_columns. destruct (Nat.eqb _ _); discriminate.
Qed.

#[local] Hint Resolve select_not_FileNotFound merge_left_not_FileNotFound
  set_columns_not_FileNotFound : py.

Lemma preprocess_people_not_FileNotFound (people orgs ms : list record) :
  not_FileNotFound (preprocess_people people orgs ms).
Proof.
  unfold preprocess_people.
  repeat (apply bind_not_FileNotFound; [auto with py | intros ?]).
  discriminate.
Qed.

(** Once the three files are there and hold a "data" member, the loader
    is the body of its [try]. *)
Lemma load_people_data (fs : filesystem) (people orgs ms : list record) :
  file_data fs people_path = Some people ->
  file_data fs org_path = Some orgs ->
  file_data fs membership_path = Some ms ->
  load_and_preprocess_people fs = preprocess_people people orgs ms.
Proof.
  unfold file_data, load_and_preprocess_people, json_load, getitem.
  destruct (fs people_path) as [| | | |dp]; try discriminate.
  destruct (fs org_path) as [| | | |do]; try discriminate.
  destruct (fs membership_path) as [| | | |dm]; try discriminate.
  simpl. intros -> -> ->. simpl. apply try_except_id.
  apply preprocess_people_not_FileNotFound.
Qed.

(** *** Row counts *)

Lemma In_positions (c : label) (cols : list label) :
  positions c cols <> [] -> In c cols.
Proof.
  intros H. destruct (mem c cols) eqn:E; [apply mem_In; assumption|].
  apply mem_false in E. rewrite positions_not_In in H by assumption.
  congruence.
Qed.

Lemma select_id_name_inv (targets : list record) (df : DataFrame) :
  select (frame_of_records targets) ["id"; "name"] = Ok df ->
  entity_keys_ok targets = true /\ df = id_name_frame targets.
Proof.
  intros H.
  assert (K : entity_keys_ok targets = true).
  { unfold entity_keys_ok, has_key. unfold select in H. inv_bind H.
    cbn [select_positions] in E.
    destruct (positions "id" (columns (frame_of_records targets))) eqn:Pi;
      [discriminate|].
    inv_bind E.
    destruct (positions "name" (columns (frame_of_records targets))) eqn:Pn;
      [discriminate|].
    apply andb_true_iff. split; apply mem_In, In_positions; congruence. }
  split; [assumption|]. rewrite (select_id_name _ K) in H. congruence.
Qed.

Lemma resolved_at_most_one (targets : list record) (key : value) :
  NoDup (ids targets) -> length (resolved targets key) <= 1.
Proof.
  unfold ids, resolved. induction targets as [|t ts IH]; simpl; intros Hnd;
    [lia|].
  inversion Hnd as [|? ? Hni Hnd']; subst.
  destruct (value_eqb key (cell_of t "id")) eqn:E; [|auto].
  apply value_eqb_eq in E. subst key. simpl.
  rewrite filter_none; [simpl; lia|].
  intros t' Hin. destruct (value_eqb _ _) eqn:E'; [|reflexivity].
  apply value_eqb_eq in E'. exfalso. apply Hni. rewrite E'.
  apply in_map with (f := fun r => cell_of r "id"). assumption.
Qed.

Lemma joined_single (targets : list record) (key : value) :
  NoDup (ids targets) -> length (joined targets key) = 1.
Proof.
  intros Hnd. pose proof (resolved_at_most_one targets key Hnd) as H.
  unfold joined. destruct (resolved targets key) as [|t [|t' ts]]; simpl in *;
    try reflexivity. lia.
Qed.

Lemma length_flat_map_single {A B : Type} (f : A -> list B) (l : list A) :
  (forall a, In a l -> length (f a) = 1) -> length (flat_map f l) = length l.
Proof.
  induction l as [|a l IH]; simpl; intros H; [reflexivity|].
  rewrite length_app, (H a), IH by auto. reflexivity.
Qed.

Lemma merge_left_id_name_nrows (left : DataFrame) (targets : list record)
    (key : label) (df : DataFrame) :
  merge_left left (id_name_frame targets) key "id" = Ok df ->
  NoDup (ids targets) ->
  nrows df = nrows left.
Proof.
  unfold merge_left.
  change (index_of "id" (columns (id_name_frame targets))) with (Some 0).
  destruct (index_of key (columns left)) as [i|]; [|discriminate].
  cbv zeta. destruct (_ || _); [discriminate|].
  intros H Hnd. inv_Ok H. unfold nrows. cbn [data].
  apply length_flat_map_single. intros l _.
  change (data (id_name_frame targets)) with (map id_name targets).
  change (length (columns (id_name_frame targets))) with 2.
  rewrite join_row_id_name, length_map. apply joined_single. assumption.
Qed.

Lemma nrows_select (df out : DataFrame) (wanted : list label) :
  select df wanted = Ok out -> nrows out = nrows df.
Proof.
  unfold select. intros H. inv_bind H. inv_Ok H. apply length_map.
Qed.

Lemma nrows_set_columns (df out : DataFrame) (names : list label) :
  set_columns df names = Ok out -> nrows out = nrows df.
Proof.
  unfold set_columns. destruct (Nat.eqb _ _); intros H; [|discriminate].
  inv_Ok H. reflexivity.
Qed.

Lemma nrows_frame_of_records (records : list record) :
  nrows (frame_of_records records) = length records.
Proof. apply length_map. Qed.

(** With distinct [id]s on the right-hand sides, the two left joins keep
    the number of rows, whatever keys the records carry. *)
Lemma preprocess_people_nrows (people orgs ms : list record) (out : DataFrame) :
  preprocess_people people orgs ms = Ok out ->
  NoDup (ids people) -> NoDup (ids orgs) ->
  nrows out = length ms.
Proof.
  unfold preprocess_people. intros H Hp Ho.
  inv_bind H. inv_bind H. inv_bind H. inv_bind H. inv_bind H. inv_bind H.
  inv_bind H. inv_Ok H.
  apply select_id_name_inv in E. destruct E as (_ & ->).
  apply select_id_name_inv in E1. destruct E1 as (_ & ->).
  apply merge_left_id_name_nrows in E0; [|assumption].
  apply merge_left_id_name_nrows in E2; [|assumption].
  apply nrows_select in E3. apply nrows_set_columns in E4.
  apply getcol_length in E5.
  rewrite nrows_setcol by (rewrite length_map; assumption).
  unfold nrows, fillna in *. cbn [data] in *. rewrite length_map.
  unfold rename in *. cbn [data] in *.
  pose proof (nrows_frame_of_records ms) as N. unfold nrows in N.
  congruence.
Qed.

(** *** The rows of a membership *)

Lemma joined_name_spec (targets : list record) (key : value) (r : list value) :
  In r (joined targets key) -> joined_name targets key (cell 1 r).
Proof.
  unfold joined, joined_name. destruct (resolved targets key) as [|t ts] eqn:E.
  - intros [<-|[]]. left. split; [|reflexivity].
    unfold ids. rewrite in_map_iff. intros (t & Ht & Hin).
    assert (In t (resolved targets key)); [|rewrite E in *; contradiction].
    unfold resolved. apply filter_In. split; [assumption|].
    apply value_eqb_eq. congruence.
  - rewrite <- E. unfold resolved. rewrite in_map_iff.
    intros (t' & <- & Hin). apply filter_In in Hin. destruct Hin as (Hin & Hk).
    apply value_eqb_eq in Hk. right. exists t'. auto.
Qed.

Lemma rows_of_membership_not_nil (people orgs : list record) (m : record) :
  rows_of_membership people orgs m <> [].
Proof.
  unfold rows_of_membership.
  pose proof (joined_not_nil people (cell_of m "person")) as Hp.
  pose proof (joined_not_nil orgs (cell_of m "organization")) as Ho.
  destruct (joined people _) as [|p ps]; [congruence|].
  destruct (joined orgs _) as [|o os]; [congruence|].
  discriminate.
Qed.

Lemma rows_of_membership_spec (people orgs : list record) (m : record)
    (row : list value) :
  In row (rows_of_membership people orgs m) ->
  exists pname oname,
    joined_name people (cell_of m "person") pname
    /\ joined_name orgs (cell_of m "organization") oname
    /\ row = [fillna_value Unknown pname;
              clean_organization (fillna_value Unknown oname);
              fillna_value Unknown (cell_of m "role");
              fillna_value Unknown (cell_of m "startDate")].
Proof.
  unfold rows_of_membership. rewrite in_flat_map.
  intros (p & Hp & Hin). rewrite in_map_iff in Hin.
  destruct Hin as (o & <- & Ho).
  exists (cell 1 p), (cell 1 o).
  split; [apply joined_name_spec; assumption|].
  split; [apply joined_name_spec; assumption | reflexivity].
Qed.

(** The loader on collections that carry the keys it reads: the table it
    returns, block by block. *)
Lemma load_people_blocks (fs : filesystem) (people orgs ms : list record) :
  file_data fs people_path = Some people ->
  file_data fs org_path = Some orgs ->
  file_data fs membership_path = Some ms ->
  entity_keys_ok people = true -> entity_keys_ok orgs = true ->
  membership_keys_ok ms = true ->
  exists out,
    load_and_preprocess_people fs = Ok out
    /\ columns out = ["Name"; "Organization"; "Role"; "Start Date"]
    /\ rows_by_membership ms out
         (fun m row =>
            exists pname oname,
              joined_name people (cell_of m "person") pname
              /\ joined_name orgs (cell_of m "organization") oname
              /\ field out "Name" row = fillna_value Unknown pname
              /\ field out "Organization" row
                 = clean_organization (fillna_value Unknown oname)
              /\ field out "Role" row = fillna_value Unknown (cell_of m "role")
              /\ field out "Start Date" row
                 = fillna_value Unknown (cell_of m "startDate")
              /\ row = [field out "Name" row; field out "Organization" row;
                        field out "Role" row; field out "Start Date" row]).
Proof.
  intros Fp Fo Fm Kp Ko Km.
  rewrite (load_people_data _ _ _ _ Fp Fo Fm).
  rewrite (preprocess_people_rows _ _ _ Kp Ko Km).
  eexists. split; [reflexivity|]. split; [reflexivity|].
  exists (map (rows_of_membership people orgs) ms). split.
  - cbn [data]. apply flat_map_concat_map.
  - clear. induction ms as [|m ms IH]; simpl; [constructor|].
    constructor; [|assumption].
    split; [apply rows_of_membership_not_nil|].
    apply Forall_forall. intros row Hin.
    apply rows_of_membership_spec in Hin.
    destruct Hin as (pname & oname & Hp & Ho & ->).
    exists pname, oname. repeat split; assumption.
Qed.

Lemma rows_by_membership_impl (ms : list record) (out : DataFrame)
    (P Q : record -> list value -> Prop) :
  (forall m row, P m row -> Q m row) ->
  rows_by_membership ms out P -> rows_by_membership ms out Q.
Proof.
  intros HPQ (blocks & Hd & Hall). exists blocks. split; [assumption|].
  clear Hd. induction Hall as [|m rows ms blocks (Hne & Hrows) _ IH].
  - constructor.
  - constructor; [|assumption].
    split; [assumption|]. eapply Forall_impl; [|eassumption]. apply HPQ.
Qed.

Lemma fillna_Unknown_NaN : fillna_value Unknown NaN = Unknown.
Proof. reflexivity. Qed.

(** ** [str.replace] *)

Lemma startswith_app (p rest : pystr) : startswith p (p ++ rest) = true.
Proof.
  induction p as [|c p IH]; simpl; [reflexivity|].
  rewrite N.eqb_refl. assumption.
Qed.

Lemma replace_from_skip (old new p rest : pystr) :
  replace_from old new (length p) (p ++ rest) = replace_from old new 0 rest.
Proof.
  induction p as [|c p IH]; simpl; [|assumption].
  destruct rest; reflexivity.
Qed.

Lemma str_replace_prefix (old new rest : pystr) :
  old <> [] ->
  str_replace old new (old ++ rest) = new ++ str_replace old new rest.
Proof.
  destruct old as [|c old]; [congruence|]. intros _.
  unfold str_replace. cbn [app replace_from].
  change (c :: old ++ rest) with ((c :: old) ++ rest).
  rewrite startswith_app.
  replace (length (c :: old) - 1) with (length old) by (simpl; lia).
  rewrite replace_from_skip. reflexivity.
Qed.

Lemma str_replace_absent (old new s : pystr) :
  occurs old s = false -> str_replace old new s = s.
Proof.
  destruct old as [|c old]; [destruct s; discriminate|].
  unfold str_replace. induction s as [|x s IH]; [reflexivity|].
  cbn [occurs replace_from]. intros H. apply orb_false_iff in H.
  destruct H as (H1 & H2). rewrite H1, (IH H2). reflexivity.
Qed.

Lemma clean_organization_Str (s : pystr) :
  clean_organization (Str s)
  = Str (str_replace Fraktionsgemeinschaft [] (str_replace Fraktion_der [] s)).
Proof. reflexivity. Qed.

Lemma clean_organization_absent (s : pystr) :
  occurs Fraktion_der s = false -> occurs Fraktionsgemeinschaft s = false ->
  clean_organization (Str s) = Str s.
Proof.
  intros H1 H2. rewrite clean_organization_Str.
  rewrite (str_replace_absent _ _ _ H1), (str_replace_absent _ _ _ H2).
  reflexivity.
Qed.

Lemma clean_organization_Fraktion_der (s : pystr) :
  occurs Fraktion_der s = false -> occurs Fraktionsgemeinschaft s = false ->
  clean_organization (Str (Fraktion_der ++ s)) = Str s.
Proof.
  intros H1 H2. rewrite clean_organization_Str.
  rewrite str_replace_prefix by discriminate.
  rewrite (str_replace_absent _ _ _ H1). cbn [app].
  rewrite (str_replace_absent _ _ _ H2). reflexivity.
Qed.

(** No occurrence of ["Fraktion der "] starts inside
    ["Fraktionsgemeinschaft "]. *)
Lemma Fraktion_der_skips_Fraktionsgemeinschaft (s : pystr) :
  str_replace Fraktion_der [] (Fraktionsgemeinschaft ++ s)
  = Fraktionsgemeinschaft ++ str_replace Fraktion_der [] s.
Proof. reflexivity. Qed.

Lemma clean_organization_Fraktionsgemeinschaft (s : pystr) :
  occurs Fraktion_der s = false -> occurs Fraktionsgemeinschaft s = false ->
  clean_organization (Str (Fraktionsgemeinschaft ++ s)) = Str s.
Proof.
  intros H1 H2. rewrite clean_organization_Str.
  rewrite Fraktion_der_skips_Fraktionsgemeinschaft.
  rewrite (str_replace_absent _ _ _ H1).
  rewrite str_replace_prefix by discriminate. cbn [app].
  rewrite (str_replace_absent _ _ _ H2). reflexivity.
Qed.

Lemma missing_cell (r : record) (k : string) :
  missing r k <-> cell_of r k = NaN.
Proof.
  unfold missing, cell_of. destruct (dict_get r k) as [[|s]|]; split;
    intros H; try discriminate; auto; destruct H; discriminate.
Qed.

Lemma fillna_cell_of_is_str (r : record) (k : string) :
  is_str (fillna_value Unknown (cell_of r k)) = true.
Proof. unfold cell_of. destruct (dict_get r k) as [[|s]|]; reflexivity. Qed.

Lemma fillna_joined_name_is_str (targets : list record) (key name : value) :
  joined_name targets key name ->
  exists s, fillna_value Unknown name = Str s.
Proof.
  intros [(_ & ->)|(t & _ & _ & ->)]; [eexists; reflexivity|].
  unfold cell_of. destruct (dict_get t "name") as [[|s]|]; eexists;
    reflexivity.
Qed.

(* ================================================================== *)
(** ** The claims about the people loader *)





(* ================================================================== *)
(** ** Missing and malformed sources *)

Lemma paths_distinct :
  decisions_path <> people_path /\ decisions_path <> org_path
  /\ decisions_path <> membership_path.
Proof.
  repeat split; apply String.eqb_neq; vm_compute; reflexivity.
Qed.

(* ================================================================== *)
(** ** Runs on the demonstration documents *)

Ltac distinct :=
  repeat (constructor; [simpl; intuition discriminate|]); constructor.







(** The frames the decisions loader returns are typed as the filters
    expect: [created] holds timestamps (or nothing), [status] strings. *)
Lemma getcol_boolean_index (df : DataFrame) (mask : list bool) (c : label)
    (col : list value) :
  getcol df c = Ok col ->
  getcol (boolean_index df mask) c = Ok (keep mask col).
Proof.
  unfold getcol, boolean_index. cbn [columns data].
  destruct (index_of c (columns df)) as [i|]; intros H; [|discriminate].
  inv_Ok H. f_equal. revert mask.
  induction (data df) as [|r rows IH]; intros [|b mask]; simpl;
    try reflexivity.
  destruct b; simpl; rewrite IH; reflexivity.
Qed.

Lemma Forall_keep {A : Type} (P : A -> Prop) (mask : list bool) (l : list A) :
  Forall P l -> Forall P (keep mask l).
Proof.
  intros H. revert mask. induction H as [|x l Hx _ IH]; intros [|b mask];
    simpl; try constructor.
  destruct b; [constructor|]; auto.
Qed.

Lemma loaded_decisions_typed (to_datetime : list value -> pystr -> parsed)
    (records : list record) (df dff : DataFrame) :
  preprocess_decisions to_datetime records = Ok (df, dff) ->
  forall frame, frame = df \/ frame = dff ->
  exists created status,
    getcol frame "created" = Ok created
    /\ Forall (fun v => is_str v = false) created
    /\ getcol frame "status" = Ok status
    /\ Forall (fun v => is_str v = true) status.
Proof.
  intros H. apply preprocess_decisions_inv in H.
  destruct H as (Hst & -> & _ & created & Hcr & Hall).
  assert (Tc : Forall (fun v => is_str v = false) created).
  { apply to_datetime_tz_convert_inv in Hall. destruct Hall as (-> & _).
    apply Forall_forall. intros v Hv. apply in_map_iff in Hv.
    destruct Hv as (x & <- & _).
    destruct (to_datetime_value _ _ x); reflexivity. }
  assert (Ts : Forall (fun v => is_str v = true) (map derived_status records)).
  { apply Forall_forall. intros v Hin. apply in_map_iff in Hin.
    destruct Hin as (r & <- & _). pose proof (derived_status_cases r) as E.
    destruct (dict_get r "result") as [[|s]|]; rewrite E; reflexivity. }
  intros frame [->| ->].
  - exists created, (map derived_status records). auto.
  - eexists. eexists.
    split; [apply getcol_boolean_index; eassumption|].
    split; [apply Forall_keep; assumption|].
    split; [apply getcol_boolean_index; eassumption|].
    apply Forall_keep; assumption.
Qed.

Lemma C7_empty_selection_selects_nothing_witness :
  data demo_decisions <> []
  /\ decisions_status_filter demo_decisions []
     = Ok (mkDataFrame (columns demo_decisions) [])
  /\ decisions_status_filter demo_decisions [] <> Ok demo_decisions
  /\ people_org_filter demo_members []
     = Ok (mkDataFrame (columns demo_members) []).
Proof.
  assert (Hd : data demo_decisions <> []) by (vm_compute; discriminate).
  assert (Hm : data demo_members <> []) by (vm_compute; discriminate).
  destruct (C7_empty_selection_selects_nothing demo_decisions Hd)
    as (Hstatus & _ & _).
  destruct (C7_empty_selection_selects_nothing demo_members Hm)
    as (_ & Horg & _).
  destruct (getcol demo_decisions "status") as [status|e] eqn:Es;
    [|vm_compute in Es; discriminate].
  destruct (getcol demo_members "Organization") as [org|e] eqn:Eo;
    [|vm_compute in Eo; discriminate].
  split; [exact Hd|].
  split; [exact (proj1 (Hstatus status eq_refl))|].
  split; [exact (proj2 (Hstatus status eq_refl))|].
  exact (proj1 (Horg org eq_refl)).
Defined.

Lemma C8_select_all_is_identity_witness :
  exists opts,
    status_options demo_decisions = Ok opts
    /\ decisions_status_filter demo_decisions opts = Ok demo_decisions
    /\ opts = [Str (lit "Beschlossen"); Str (lit "Vertagt")].
Proof.
  destruct (getcol demo_decisions "status") as [status|e] eqn:Es;
    [|vm_compute in Es; discriminate].
  destruct (C8_select_all_is_identity demo_decisions "status" status Es)
    as (Hopts & _ & _).
  exists [Str (lit "Beschlossen"); Str (lit "Vertagt")].
  split; [reflexivity|]. split; [|reflexivity].
  exact (proj1 (Hopts _ eq_refl)).
Defined.

Lemma C9_date_range_is_inclusive_witness :
  exists out,
    decisions_date_filter [day_2023_03_14; day_2023_03_14] demo_decisions
    = Ok out
    /\ nrows demo_decisions = 2
    /\ nrows out = 1
    /\ forall row,
         In row (data out)
         <-> In row (data demo_decisions)
             /\ exists ns, field demo_decisions "created" row = Timestamp ns
                           /\ date_of ns = day_2023_03_14.
Proof.
  destruct (getcol demo_decisions "created") as [created|e] eqn:Ec;
    [|vm_compute in Ec; discriminate].
  assert (Ht : Forall (fun v => is_str v = false) created).
  { vm_compute in Ec. inv_Ok Ec. repeat constructor. }
  destruct (C9_date_range_is_inclusive demo_decisions day_2023_03_14
              day_2023_03_14 created Ec Ht)
    as (out & Hout & _ & Hdata & _ & Hday).
  exists out. split; [exact Hout|]. split; [reflexivity|].
  split; [unfold nrows; rewrite Hdata; reflexivity|].
  exact (Hday eq_refl).
Defined.

(* ================================================================== *)
(** * Further properties *)

(** ** [str.strip] and the derived status *)

Lemma lstrip_spec (s : pystr) :
  exists a, s = a ++ lstrip s /\ forallb isspace a = true
            /\ match lstrip s with [] => True | c :: _ => isspace c = false end.
Proof.
  induction s as [|c s (a & Hs & Ha & Hh)]; simpl.
  - exists []. auto.
  - destruct (isspace c) eqn:E.
    + exists (c :: a). simpl. rewrite E, Ha. repeat split; [congruence | assumption].
    + exists []. simpl. auto.
Qed.

Lemma hd_app_nonempty (t b : pystr) :
  match t ++ b with [] => True | c :: _ => isspace c = false end ->
  match t with [] => True | c :: _ => isspace c = false end.
Proof. destruct t; simpl; auto. Qed.

Lemma strip_trimmed (s : pystr) : trimmed s (strip s).
Proof.
  unfold strip, rstrip.
  destruct (lstrip_spec s) as (a & Hs & Ha & Hh).
  destruct (lstrip_spec (rev (lstrip s))) as (b & Hr & Hb & Hl).
  set (m := lstrip s) in *. set (t := lstrip (rev m)) in *.
  assert (Hm : m = rev t ++ rev b).
  { rewrite <- rev_app_distr, <- Hr, rev_involutive. reflexivity. }
  split; [|split].
  - exists a, (rev b). split; [congruence|]. split; [assumption|].
    rewrite forallb_forall in *. intros x Hx. apply Hb, in_rev. assumption.
  - rewrite Hm in Hh. eapply hd_app_nonempty. eassumption.
  - rewrite rev_involutive. assumption.
Qed.

(** X1.  The status derived from a [result] that is a string is that
    string without the white space at its two ends: only white space is
    cut off, and the status neither starts nor ends with white space.
    Two results that differ in surrounding white space only therefore
    fall into the same status. *)
Theorem X1_status_is_trimmed_result
    (to_datetime : list value -> pystr -> parsed) (fs : filesystem)
    (records : list record) (df dff : DataFrame) :
  file_data fs decisions_path = Some records ->
  load_and_preprocess_decisions to_datetime fs = Ok (df, dff) ->
  exists status,
    getcol df "status" = Ok status
    /\ Forall2
         (fun r st =>
            forall s, dict_get r "result" = Some (JString s) ->
                      exists t, st = Str t /\ trimmed s t)
         records status.
Proof.
  intros Hfile Hload.
  rewrite (load_decisions_data _ _ _ Hfile) in Hload.
  apply preprocess_decisions_inv in Hload. destruct Hload as (Hst & _).
  exists (map derived_status records). split; [assumption|].
  clear. induction records as [|r rs IH]; simpl; constructor; [|assumption].
  intros s Hs. pose proof (derived_status_cases r) as H. rewrite Hs in H.
  exists (strip s). split; [assumption | apply strip_trimmed].
Qed.

Lemma X1_status_is_trimmed_result_witness :
  exists status,
    getcol demo_all_decisions "status" = Ok status
    /\ Forall2
         (fun r st =>
            forall s, dict_get r "result" = Some (JString s) ->
                      exists t, st = Str t /\ trimmed s t)
         demo_agenda status.
Proof.
  apply (X1_status_is_trimmed_result iso_utc demo_decisions_fs demo_agenda
           demo_all_decisions demo_decisions).
  - reflexivity.
  - vm_compute. reflexivity.
Defined.

(** ** The frames of the decisions loader *)

Lemma columns_setcol (df : DataFrame) (c : label) (col : list value) :
  columns (setcol df c col)
  = if mem c (columns df) then columns df else columns df ++ [c].
Proof.
  unfold setcol. destruct (mem c (columns df)) eqn:E.
  - destruct (index_of_mem _ _ E) as (i & ->). reflexivity.
  - rewrite (index_of_not_mem _ _ E). reflexivity.
Qed.

Lemma getcol_has_key (records : list record) (c : label) (col : list value) :
  getcol (frame_of_records records) c = Ok col -> has_key records c = true.
Proof.
  unfold has_key. intros H. apply getcol_cells in H.
  destruct H as (i & Hi & _). apply mem_In.
  apply index_of_nth in Hi. eapply nth_error_In. eassumption.
Qed.

Lemma has_key_getcol (records : list record) (c : label) :
  has_key records c = true ->
  getcol (frame_of_records records) c = Ok (map (fun r => cell_of r c) records).
Proof.
  unfold has_key. intros H. destruct (index_of_mem _ _ H) as (i & Hi).
  assert (G : getcol (frame_of_records records) c
              = Ok (map (cell i) (data (frame_of_records records)))).
  { unfold getcol. rewrite Hi. reflexivity. }
  pose proof (getcol_frame_of_records _ _ _ G) as E.
  rewrite G, E. reflexivity.
Qed.

Lemma has_key_not_nil (records : list record) (c : label) :
  has_key records c = true -> records <> [].
Proof. intros H ->. discriminate. Qed.

Lemma length_keep_map {A B : Type} (f : A -> bool) (l : list A) (rows : list B) :
  length rows = length l ->
  length (keep (map f l) rows) = length (filter f l).
Proof.
  revert rows. induction l as [|a l IH]; intros [|r rows]; simpl; intros H;
    try discriminate; [reflexivity|].
  destruct (f a); simpl; rewrite IH by lia; reflexivity.
Qed.

Section DecisionsFrames.

Variable to_datetime : list value -> pystr -> parsed.

(** The full view is the frame of the records with two columns
    assigned. *)
Lemma preprocess_decisions_frame (records : list record) (df dff : DataFrame) :
  preprocess_decisions to_datetime records = Ok (df, dff) ->
  exists created,
    to_datetime_tz_convert to_datetime
      (map (fun r => cell_of r "created") records) = Ok created
    /\ df = setcol (setcol (frame_of_records records) "created" created)
              "status" (map derived_status records)
    /\ has_key records "created" = true
    /\ has_key records "result" = true.
Proof.
  unfold preprocess_decisions. intros H.
  inv_bind H. inv_bind H. inv_bind H. inv_bind H. inv_Ok H.
  pose proof (rectangular_frame_of_records records) as R0.
  pose proof (getcol_length _ _ _ E) as L0.
  pose proof (getcol_has_key _ _ _ E) as Kc.
  pose proof (to_datetime_tz_convert_length _ _ _ E0) as L1. rewrite L0 in L1.
  rewrite getcol_setcol_other in E1 by (assumption || discriminate).
  pose proof (getcol_has_key _ _ _ E1) as Kr.
  apply getcol_frame_of_records in E1. subst x1.
  apply getcol_frame_of_records in E. subst x.
  exists x0. split; [assumption|]. split; [|auto].
  rewrite !map_map. reflexivity.
Qed.

(** X2.  The actionable view holds the rows of the full view, one per
    agenda item and in their order, whose item passes the filter: an item
    without [result] never does, and an item with a [result] does exactly
    when the result, white space at its ends apart, is neither
    "No result" nor "Kenntnis genommen". *)
Theorem X2_actionable_items
    (fs : filesystem) (records : list record) (df dff : DataFrame) :
  file_data fs decisions_path = Some records ->
  load_and_preprocess_decisions to_datetime fs = Ok (df, dff) ->
  nrows df = length records
  /\ data dff = keep (map actionable records) (data df)
  /\ nrows dff = length (filter actionable records)
  /\ (forall r, missing r "result" -> actionable r = false)
  /\ (forall r s, dict_get r "result" = Some (JString s) ->
        (actionable r = true
         <-> strip s <> lit "No result" /\ strip s <> lit "Kenntnis genommen")).
Proof.
  intros Hfile Hload.
  rewrite (load_decisions_data _ _ _ Hfile) in Hload.
  apply preprocess_decisions_inv in Hload.
  destruct Hload as (_ & -> & Hn & _).
  assert (Hmask : map negb (isin (map derived_status records) excluded_statuses)
                  = map actionable records).
  { unfold isin. rewrite !map_map. reflexivity. }
  split; [assumption|]. split; [|split; [|split]].
  - unfold boolean_index. cbn [data]. rewrite Hmask. reflexivity.
  - unfold nrows, boolean_index. cbn [data]. rewrite Hmask.
    apply length_keep_map. exact Hn.
  - intros r Hm. unfold actionable.
    pose proof (derived_status_cases r) as H.
    destruct Hm as [Hm|Hm]; rewrite Hm in H; rewrite H; reflexivity.
  - intros r s Hs. unfold actionable.
    pose proof (derived_status_cases r) as H. rewrite Hs in H. rewrite H.
    rewrite negb_true_iff. split.
    + intros Hni. split; intros Heq; rewrite Heq in Hni; discriminate.
    + intros (H1 & H2). destruct (isin1 _ _) eqn:E; [|reflexivity].
      apply isin1_In in E. simpl in E.
      destruct E as [E|[E|[]]]; inversion E; congruence.
Qed.

(** X3.  The full view has one row per agenda item and one cell per
    column in every row.  Its columns are the keys of the items, with
    [status] added at the end unless it is a key already; every column
    but [created] and [status] holds the values of the items, unchanged.
    [created] holds, item by item, the instant pandas reads from the
    [created] string of the item, and a missing value where the item has
    no [created] or where pandas reads a missing timestamp from the
    string (as it does from the empty string).  All the timestamps read
    carry the same UTC offset, and there is at least one. *)
Theorem X3_full_view_keeps_the_fields
    (fs : filesystem) (records : list record) (df dff : DataFrame) :
  file_data fs decisions_path = Some records ->
  load_and_preprocess_decisions to_datetime fs = Ok (df, dff) ->
  nrows df = length records
  /\ rectangular df
  /\ columns df
     = (if has_key records "status"
        then columns (frame_of_records records)
        else columns (frame_of_records records) ++ ["status"])
  /\ (forall c, c <> "created" -> c <> "status" -> has_key records c = true ->
        getcol df c = Ok (map (fun r => cell_of r c) records))
  /\ exists created utcoffset,
       getcol df "created" = Ok created
       /\ Forall2
            (fun r v =>
               (missing r "created" -> v = NaN)
               /\ (forall s, dict_get r "created" = Some (JString s) ->
                     (exists ns,
                        to_datetime (map (fun r => cell_of r "created") records) s
                        = Instant ns utcoffset
                        /\ v = Timestamp ns)
                     \/ (to_datetime (map (fun r => cell_of r "created") records) s
                         = NaT
                         /\ v = NaN)))
            records created
       /\ exists ns, In (Timestamp ns) created.
Proof.
  intros Hfile Hload.
  rewrite (load_decisions_data _ _ _ Hfile) in Hload.
  pose proof (preprocess_decisions_inv _ _ _ _ Hload) as (_ & _ & Hn & _).
  apply preprocess_decisions_frame in Hload.
  destruct Hload as (created & Hc & -> & Kc & Kr).
  pose proof (rectangular_frame_of_records records) as R0.
  assert (L1 : length created = nrows (frame_of_records records)).
  { rewrite (to_datetime_tz_convert_length _ _ _ Hc), length_map. symmetry.
    apply nrows_frame_of_records. }
  pose proof (rectangular_setcol _ "created" _ R0 L1) as R1.
  assert (L2 : length (map derived_status records)
               = nrows (setcol (frame_of_records records) "created" created)).
  { rewrite length_map, nrows_setcol by assumption. symmetry.
    apply nrows_frame_of_records. }
  split; [assumption|]. split; [apply rectangular_setcol; assumption|].
  split; [|split].
  - rewrite !columns_setcol. unfold has_key in *. rewrite Kc. reflexivity.
  - intros c H1 H2 Hk.
    rewrite !getcol_setcol_other by (assumption || congruence).
    apply has_key_getcol. assumption.
  - apply to_datetime_tz_convert_inv in Hc.
    destruct Hc as (Ec & off & (x & ns & Hx & Hns) & Hall).
    exists created, off. split; [|split].
    + rewrite getcol_setcol_other by (assumption || discriminate).
      apply getcol_setcol_same; assumption.
    + rewrite Ec, map_map.
      set (col := map (fun r => cell_of r "created") records) in *.
      assert (Hrec : forall r, In r records ->
                (exists ns, to_datetime_value to_datetime col (cell_of r "created")
                            = Instant ns off)
                \/ to_datetime_value to_datetime col (cell_of r "created") = NaT).
      { intros r Hr. rewrite Forall_forall in Hall. apply Hall.
        unfold col. apply in_map with (f := fun r => cell_of r "created").
        assumption. }
      clearbody col. clear -Hrec.
      induction records as [|r rs IH]; simpl; constructor.
      * split.
        -- intros Hm. apply missing_cell in Hm. rewrite Hm. reflexivity.
        -- intros s Hs. specialize (Hrec r (or_introl eq_refl)).
           unfold cell_of in *. rewrite Hs in *. cbn [to_datetime_value] in *.
           destruct Hrec as [(ns & E)|E]; rewrite E;
             [left; exists ns | right]; auto.
      * apply IH. intros r' Hr'. apply Hrec. right. assumption.
    + exists ns. rewrite Ec. apply in_map_iff. exists x.
      rewrite Hns. auto.
Qed.

(** From a file that is there the loader returns a full view with the
    rows of a non-empty list of agenda items. *)
Lemma loaded_full_view_not_empty
    (fs : filesystem) (records : list record) (df dff : DataFrame) :
  file_data fs decisions_path = Some records ->
  load_and_preprocess_decisions to_datetime fs = Ok (df, dff) ->
  is_empty df = false /\ records <> [] /\ nrows df = length records.
Proof.
  intros Hfile Hload.
  rewrite (load_decisions_data _ _ _ Hfile) in Hload.
  pose proof (preprocess_decisions_inv _ _ _ _ Hload) as (_ & _ & Hn & _).
  apply preprocess_decisions_frame in Hload.
  destruct Hload as (created & _ & -> & Kc & _).
  pose proof (has_key_not_nil _ _ Kc) as Hne.
  split; [|auto].
  unfold is_empty. rewrite !columns_setcol.
  unfold has_key in Kc. rewrite Kc. unfold nrows in Hn.
  destruct (data _) as [|row rows];
    [destruct records; simpl in Hn; congruence|].
  destruct (mem "status" _);
    destruct (columns (frame_of_records records)); try discriminate;
    reflexivity.
Qed.

(** The file as the loader found it, when it returned. *)
Lemma load_decisions_file (fs : filesystem) (df dff : DataFrame) :
  load_and_preprocess_decisions to_datetime fs = Ok (df, dff) ->
  (fs decisions_path = Missing /\ df = empty_frame /\ dff = empty_frame)
  \/ exists records, file_data fs decisions_path = Some records.
Proof.
  unfold load_and_preprocess_decisions, json_load, getitem, file_data.
  destruct (fs decisions_path) as [| | | |doc]; cbn [bind].
  - intros H. inv_Ok H. left. auto.
  - discriminate.
  - discriminate.
  - discriminate.
  - destruct (dict_get doc "data") as [records|]; [eauto | discriminate].
Qed.

(** X4.  What the loader returns is empty exactly when the file is
    missing: the pair of empty frames of its handler.  From a file that
    is there the loader never returns an empty full view (an empty
    "data" list makes it raise [KeyError]). *)
Theorem X4_empty_means_missing_file
    (fs : filesystem) (df dff : DataFrame) :
  load_and_preprocess_decisions to_datetime fs = Ok (df, dff) ->
  (is_empty df = true <-> fs decisions_path = Missing)
  /\ (fs decisions_path = Missing -> df = empty_frame /\ dff = empty_frame)
  /\ (forall records, file_data fs decisions_path = Some records ->
      records <> [] /\ nrows df = length records).
Proof.
  intros Hload.
  destruct (load_decisions_file _ _ _ Hload)
    as [(Hm & -> & ->)|(records & Hfile)].
  - split; [split; auto|]. split; [auto|].
    intros records Hfile. unfold file_data in Hfile. rewrite Hm in Hfile.
    discriminate.
  - destruct (loaded_full_view_not_empty _ _ _ _ Hfile Hload)
      as (He & Hne & Hn).
    assert (Hnm : fs decisions_path <> Missing).
    { intros Hm. unfold file_data in Hfile. rewrite Hm in Hfile.
      discriminate. }
    split; [split; [congruence | contradiction]|].
    split; [contradiction|].
    intros records' Hfile'. rewrite Hfile in Hfile'. inv_Ok Hfile'. auto.
Qed.

End DecisionsFrames.

Lemma demo_decisions_loaded :
  load_and_preprocess_decisions iso_utc demo_decisions_fs
  = Ok (demo_all_decisions, demo_decisions).
Proof. vm_compute. reflexivity. Qed.

Lemma X2_actionable_items_witness :
  nrows demo_all_decisions = length demo_agenda
  /\ data demo_decisions = keep (map actionable demo_agenda) (data demo_all_decisions)
  /\ nrows demo_decisions = length (filter actionable demo_agenda)
  /\ (forall r, missing r "result" -> actionable r = false)
  /\ (forall r s, dict_get r "result" = Some (JString s) ->
        (actionable r = true
         <-> strip s <> lit "No result" /\ strip s <> lit "Kenntnis genommen")).
Proof.
  exact (X2_actionable_items iso_utc demo_decisions_fs demo_agenda
           demo_all_decisions demo_decisions eq_refl demo_decisions_loaded).
Defined.

Lemma X3_full_view_keeps_the_fields_witness :
  columns demo_all_decisions = ["name"; "created"; "result"; "status"]
  /\ getcol demo_all_decisions "name"
     = Ok (map (fun r => cell_of r "name") demo_agenda)
  /\ exists df dff created,
       load_and_preprocess_decisions iso_utc blank_created_fs = Ok (df, dff)
       /\ getcol df "created" = Ok created
       /\ Forall2
            (fun r v =>
               forall s, dict_get r "created" = Some (JString s) ->
                 (exists ns, iso_utc (created_column blank_created_agenda) s
                             = Instant ns 0
                             /\ v = Timestamp ns)
                 \/ (iso_utc (created_column blank_created_agenda) s = NaT
                     /\ v = NaN))
            blank_created_agenda created.
Proof.
  destruct (X3_full_view_keeps_the_fields iso_utc demo_decisions_fs demo_agenda
              demo_all_decisions demo_decisions eq_refl demo_decisions_loaded)
    as (_ & _ & Hcols & Hkept & _).
  split; [exact Hcols|].
  split; [apply Hkept; [discriminate | discriminate | reflexivity]|].
  destruct (load_and_preprocess_decisions iso_utc blank_created_fs)
    as [[df dff]|e] eqn:Hload; [|vm_compute in Hload; discriminate].
  destruct (X3_full_view_keeps_the_fields iso_utc blank_created_fs
              blank_created_agenda df dff eq_refl Hload)
    as (_ & _ & _ & _ & created & off & Hc & Hall & (ns & Hns)).
  exists df, dff, created. split; [reflexivity|]. split; [exact Hc|].
  assert (Hoff : off = 0%Z).
  { inversion Hall as [|r v rs vs (_ & Hr) _]; subst.
    destruct (Hr _ eq_refl) as [(ns' & E & _)|(E & _)];
      vm_compute in E; congruence. }
  subst off. revert Hall. apply Forall2_impl. intros r v (_ & H). exact H.
Defined.

Lemma X4_empty_means_missing_file_witness :
  (is_empty demo_all_decisions = true <-> demo_decisions_fs decisions_path = Missing)
  /\ is_empty demo_all_decisions = false
  /\ load_and_preprocess_decisions iso_utc demo_people_fs
     = Ok (empty_frame, empty_frame).
Proof.
  destruct (X4_empty_means_missing_file iso_utc demo_decisions_fs
              demo_all_decisions demo_decisions demo_decisions_loaded)
    as (Hiff & _ & _).
  assert (Hm : load_and_preprocess_decisions iso_utc demo_people_fs
               = Ok (empty_frame, empty_frame)) by reflexivity.
  destruct (X4_empty_means_missing_file iso_utc demo_people_fs
              empty_frame empty_frame Hm) as (_ & _ & _).
  split; [exact Hiff|]. split; [reflexivity | exact Hm].
Defined.


(** ** The table of the people loader, whatever the records carry *)

Lemma merge_left_id_name_inv (left : DataFrame) (targets : list record)
    (key : label) (df : DataFrame) :
  merge_left left (id_name_frame targets) key "id" = Ok df ->
  exists i,
    index_of key (columns left) = Some i
    /\ data df
       = flat_map (fun l => map (fun r => l ++ r) (joined targets (cell i l)))
           (data left).
Proof.
  unfold merge_left.
  change (index_of "id" (columns (id_name_frame targets))) with (Some 0).
  destruct (index_of key (columns left)) as [i|]; [|discriminate].
  cbv zeta. destruct (_ || _); [discriminate|].
  intros H. inv_Ok H. exists i. split; [reflexivity|]. cbn [data].
  apply flat_map_ext. intros l.
  change (data (id_name_frame targets)) with (map id_name targets).
  change (length (columns (id_name_frame targets))) with 2.
  apply join_row_id_name.
Qed.

Lemma length_flat_map_nonempty {A B : Type} (f : A -> list B) (l : list A) :
  (forall a, f a <> []) -> length l <= length (flat_map f l).
Proof.
  intros Hf. induction l as [|a l IH]; simpl; [lia|].
  rewrite length_app. specialize (Hf a). destruct (f a); [congruence|].
  simpl. lia.
Qed.

Lemma joined_rows_nonempty (targets : list record) (i : nat) (l : list value) :
  map (fun r => l ++ r) (joined targets (cell i l)) <> [].
Proof.
  pose proof (joined_not_nil targets (cell i l)) as H.
  destruct (joined targets (cell i l)); [congruence | discriminate].
Qed.

Lemma cell_of_plain (r : record) (c : label) : is_timestamp (cell_of r c) = false.
Proof. unfold cell_of. destruct (dict_get r c) as [[|s]|]; reflexivity. Qed.

Lemma frame_of_records_plain (records : list record) :
  Forall plain_row (data (frame_of_records records)).
Proof.
  rewrite data_frame_of_records. apply Forall_forall. intros row Hin.
  apply in_map_iff in Hin. destruct Hin as (r & <- & _).
  apply Forall_forall. intros v Hv. apply in_map_iff in Hv.
  destruct Hv as (c & <- & _). apply cell_of_plain.
Qed.

Lemma joined_plain (targets : list record) (key : value) :
  Forall plain_row (joined targets key).
Proof.
  unfold joined. destruct (resolved targets key) as [|t ts].
  - repeat constructor.
  - apply Forall_forall. intros row Hin. apply in_map_iff in Hin.
    destruct Hin as (t' & <- & _). repeat constructor; apply cell_of_plain.
Qed.

Lemma merged_plain (targets : list record) (i : nat) (rows : list (list value)) :
  Forall plain_row rows ->
  Forall plain_row
    (flat_map (fun l => map (fun r => l ++ r) (joined targets (cell i l))) rows).
Proof.
  intros H. apply Forall_forall. intros row Hin. apply in_flat_map in Hin.
  destruct Hin as (l & Hl & Hin). apply in_map_iff in Hin.
  destruct Hin as (r & <- & Hr). apply Forall_app. split.
  - rewrite Forall_forall in H. exact (H _ Hl).
  - pose proof (joined_plain targets (cell i l)) as J.
    rewrite Forall_forall in J. exact (J _ Hr).
Qed.

Lemma cell_plain (i : nat) (row : list value) :
  plain_row row -> is_timestamp (cell i row) = false.
Proof.
  unfold cell, plain_row. intros H. revert i.
  induction H as [|v row Hv _ IH]; intros [|i]; simpl; auto.
Qed.

Lemma fillna_plain_is_str (v : value) :
  is_timestamp v = false -> is_str (fillna_value Unknown v) = true.
Proof. destruct v; simpl; congruence. Qed.

Lemma clean_organization_is_str (v : value) :
  is_str v = true -> is_str (clean_organization v) = true.
Proof. destruct v; simpl; congruence. Qed.

Lemma Forall_set_nth (P : value -> Prop) (i : nat) (v : value) (row : list value) :
  Forall P row -> P v -> Forall P (set_nth i v row).
Proof.
  intros H Hv. revert i. induction H as [|x row Hx Hrow IH]; intros [|i];
    simpl; constructor; auto.
Qed.

Lemma select_inv (df out : DataFrame) (wanted : list label) :
  select df wanted = Ok out ->
  exists ps : list (string * nat),
    length (columns out) = length ps
    /\ data out = map (fun row => map (fun p => cell (snd p) row) ps) (data df).
Proof.
  unfold select. intros H. inv_bind H. inv_Ok H. exists x.
  split; [apply length_map | reflexivity].
Qed.

(** The steps of [preprocess_people] on any three collections. *)
Lemma preprocess_people_inv (people orgs ms : list record) (out : DataFrame) :
  preprocess_people people orgs ms = Ok out ->
  entity_keys_ok people = true /\ entity_keys_ok orgs = true
  /\ has_key ms "person" = true
  /\ columns out = ["Name"; "Organization"; "Role"; "Start Date"]
  /\ length ms <= nrows out
  /\ Forall (fun row => length row = 4 /\ Forall (fun v => is_str v = true) row)
       (data out).
Proof.
  unfold preprocess_people. intros H.
  inv_bind H. inv_bind H. inv_bind H. inv_bind H. inv_bind H. inv_bind H.
  inv_bind H. inv_Ok H.
  apply select_id_name_inv in E. destruct E as (Kp & ->).
  apply select_id_name_inv in E1. destruct E1 as (Ko & ->).
  apply merge_left_id_name_inv in E0. destruct E0 as (ip & Hip & D1).
  apply merge_left_id_name_inv in E2. destruct E2 as (io & Hio & D2).
  apply select_inv in E3. destruct E3 as (ps & Lps & D3).
  unfold rename in D2, D3. cbn [data columns] in D2, D3.
  unfold set_columns in E4.
  destruct (Nat.eqb _ _) eqn:L4; [|discriminate]. inv_Ok E4.
  apply Nat.eqb_eq in L4. cbn [length] in L4.
  unfold fillna, getcol in E5. cbn [columns data] in E5.
  rewrite index_of_Organization in E5. inv_Ok E5.
  unfold fillna, setcol. cbn [columns data].
  rewrite index_of_Organization. cbn [columns data].
  assert (P1 : Forall plain_row (data x0)).
  { rewrite D1. apply merged_plain, frame_of_records_plain. }
  assert (P2 : Forall plain_row (data x2)).
  { rewrite D2. apply merged_plain. assumption. }
  assert (N1 : length ms <= length (data x0)).
  { rewrite D1, <- (nrows_frame_of_records ms). unfold nrows.
    apply length_flat_map_nonempty. intros l. apply joined_rows_nonempty. }
  assert (N2 : length (data x0) <= length (data x2)).
  { rewrite D2. apply length_flat_map_nonempty. intros l.
    apply joined_rows_nonempty. }
  split; [assumption|]. split; [assumption|].
  split; [apply mem_In; eapply nth_error_In, index_of_nth; eassumption|].
  split; [reflexivity|].
  rewrite D3, !map_map, map2_map. split.
  - unfold nrows. cbn [data]. rewrite length_map. lia.
  - apply Forall_forall. intros row Hin. apply in_map_iff in Hin.
    destruct Hin as (src & <- & Hsrc).
    assert (Psrc : plain_row src) by (rewrite Forall_forall in P2; exact (P2 _ Hsrc)).
    assert (S : Forall (fun v => is_str v = true)
                  (map (fillna_value Unknown)
                     (map (fun p : string * nat => cell (snd p) src) ps))).
    { apply Forall_forall. intros v Hv. apply in_map_iff in Hv.
      destruct Hv as (w & <- & Hw). apply in_map_iff in Hw.
      destruct Hw as (p & <- & _). apply fillna_plain_is_str, cell_plain.
      assumption. }
    split.
    + rewrite length_set_nth, !length_map. congruence.
    + apply Forall_set_nth; [assumption|].
      apply clean_organization_is_str.
      destruct ps as [|p0 [|p1 ps']]; simpl in Lps; try (rewrite Lps in L4; discriminate).
      unfold cell at 1. simpl.
      apply fillna_plain_is_str, cell_plain. assumption.
Qed.

(** The loader returns either what the body of its [try] returns on the
    three collections, or the empty frame of its handler, and then a file
    is missing. *)
Lemma load_people_cases (fs : filesystem) (out : DataFrame) :
  load_and_preprocess_people fs = Ok out ->
  (exists people orgs ms,
      file_data fs people_path = Some people
      /\ file_data fs org_path = Some orgs
      /\ file_data fs membership_path = Some ms
      /\ preprocess_people people orgs ms = Ok out)
  \/ (out = empty_frame
      /\ (fs people_path = Missing \/ fs org_path = Missing
          \/ fs membership_path = Missing)).
Proof.
  unfold load_and_preprocess_people, json_load, getitem, file_data.
  destruct (fs people_path) as [| | | |dp]; cbn [bind];
    [intros H; inv_Ok H; right; auto | discriminate | discriminate
    | discriminate |].
  destruct (dict_get dp "data") as [people|]; cbn [bind]; [|discriminate].
  destruct (fs org_path) as [| | | |do]; cbn [bind];
    [intros H; inv_Ok H; right; auto | discriminate | discriminate
    | discriminate |].
  destruct (dict_get do "data") as [orgs|]; cbn [bind]; [|discriminate].
  destruct (fs membership_path) as [| | | |dm]; cbn [bind];
    [intros H; inv_Ok H; right; auto | discriminate | discriminate
    | discriminate |].
  destruct (dict_get dm "data") as [ms|]; cbn [bind]; [|discriminate].
  rewrite try_except_id by apply preprocess_people_not_FileNotFound.
  intros H. left. exists people, orgs, ms. auto.
Qed.

(* ================================================================== *)
(** ** What the loaders recover from *)

Lemma merge_left_columns (left right : DataFrame) (left_on right_on : label)
    (df : DataFrame) :
  merge_left left right left_on right_on = Ok df ->
  columns df
  = suffixed (filter (fun c => mem c (columns right)) (columns left)) "_x"
      (columns left)
    ++ suffixed (filter (fun c => mem c (columns right)) (columns left)) "_y"
         (columns right).
Proof.
  unfold merge_left.
  destruct (index_of right_on (columns right)); [|discriminate].
  destruct (index_of left_on (columns left)); [|discriminate].
  cbv zeta. destruct (_ || _); [discriminate|].
  intros H. inv_Ok H. reflexivity.
Qed.

(** A label of a merged and renamed frame that neither the merge nor the
    renaming can have made is a label of the left frame. *)
Lemma label_origin (c new key : label) (left df : DataFrame)
    (targets : list record) :
  merge_left left (id_name_frame targets) key "id" = Ok df ->
  In c (columns (rename df "name" new)) ->
  c <> new -> c <> "id" -> c <> "id_y" -> c <> "name_y" ->
  (forall x, (x ++ "_x")%string <> c) ->
  In c (columns left).
Proof.
  intros Hm Hin Hnew Hid Hidy Hny Hx.
  apply merge_left_columns in Hm. unfold rename in Hin. cbn [columns] in Hin.
  rewrite Hm in Hin. apply in_map_iff in Hin. destruct Hin as (c' & Ec & Hin).
  destruct (String.eqb c' "name") eqn:En; [congruence|]. subst c'.
  apply String.eqb_neq in En.
  apply in_app_or in Hin. destruct Hin as [Hin|Hin].
  - unfold suffixed in Hin. apply in_map_iff in Hin.
    destruct Hin as (c0 & E0 & H0).
    destruct (mem c0 _); [exfalso; exact (Hx _ E0) | congruence].
  - exfalso. unfold suffixed, id_name_frame in Hin. cbn [columns map] in Hin.
    destruct (mem "id" _), (mem "name" _); simpl in Hin;
      intuition congruence.
Qed.

Lemma select_positions_In (wanted cols : list label) (ps : list (label * nat)) :
  select_positions wanted cols = Ok ps ->
  forall c, In c wanted -> In c cols.
Proof.
  revert ps. induction wanted as [|w wanted IH]; intros ps H c Hc;
    [contradiction|].
  simpl in H. destruct (positions w cols) as [|p0 ps0] eqn:Ep; [discriminate|].
  inv_bind H. destruct Hc as [<-|Hc].
  - apply In_positions. rewrite Ep. discriminate.
  - eapply IH; eassumption.
Qed.

Lemma select_labels (df out : DataFrame) (wanted : list label) :
  select df wanted = Ok out -> forall c, In c wanted -> In c (columns df).
Proof.
  unfold select. intros H. inv_bind H. eapply select_positions_In. eassumption.
Qed.

Ltac no_suffix :=
  let x := fresh "x" in
  let H := fresh "H" in
  intros x H;
  repeat (destruct x as [|? x]; simpl in H; [discriminate H|];
          injection H as _ H);
  destruct x; discriminate H.

(** The people loader returns a table only from collections that carry
    the keys it reads from the memberships after the first join. *)
Lemma preprocess_people_keys (people orgs ms : list record) (out : DataFrame) :
  preprocess_people people orgs ms = Ok out ->
  has_key ms "organization" = true /\ has_key ms "role" = true
  /\ has_key ms "startDate" = true.
Proof.
  unfold preprocess_people. intros H.
  inv_bind H. inv_bind H. inv_bind H. inv_bind H. inv_bind H. clear H.
  apply select_id_name_inv in E. destruct E as (_ & ->).
  apply select_id_name_inv in E1. destruct E1 as (_ & ->).
  pose proof (select_labels _ _ _ E3) as Hsel.
  assert (Horigin : forall c,
            In c (columns (rename x0 "name" "name_person")) ->
            c <> "name_person" -> c <> "id" -> c <> "id_y" -> c <> "name_y" ->
            (forall x, (x ++ "_x")%string <> c) ->
            has_key ms c = true).
  { intros c Hin H1 H2 H3 H4 H5. apply mem_In.
    exact (label_origin _ _ _ _ _ _ E0 Hin H1 H2 H3 H4 H5). }
  assert (Horigin2 : forall c,
            In c (columns (rename x2 "name" "name_org")) ->
            c <> "name_org" -> c <> "name_person" -> c <> "id" -> c <> "id_y" ->
            c <> "name_y" ->
            (forall x, (x ++ "_x")%string <> c) ->
            has_key ms c = true).
  { intros c Hin H0 H1 H2 H3 H4 H5. apply Horigin; try assumption.
    exact (label_origin _ _ _ _ _ _ E2 Hin H0 H2 H3 H4 H5). }
  split; [|split].
  - apply Horigin; try discriminate; [|no_suffix].
    apply merge_left_id_name_inv in E2. destruct E2 as (io & Hio & _).
    eapply nth_error_In, index_of_nth. eassumption.
  - apply Horigin2; try discriminate; [|no_suffix].
    apply Hsel. simpl. auto.
  - apply Horigin2; try discriminate; [|no_suffix].
    apply Hsel. simpl. auto.
Qed.

Lemma preprocess_people_reads_keys
    (people orgs ms : list record) (out : DataFrame) :
  preprocess_people people orgs ms = Ok out -> reads_keys people orgs ms = true.
Proof.
  intros H. destruct (preprocess_people_keys _ _ _ _ H) as (K1 & K2 & K3).
  apply preprocess_people_inv in H. destruct H as (Kp & Ko & Km & _).
  unfold reads_keys. rewrite Kp, Ko, Km, K1, K2, K3. reflexivity.
Qed.

Lemma In_unique_labels (c : label) (l : list label) :
  In c (unique_by String.eqb l) <-> In c l.
Proof.
  induction l as [|y l IH]; simpl; [tauto|].
  rewrite filter_In, IH. split.
  - intros [H|[H _]]; auto.
  - intros [H|H]; [auto|].
    destruct (String.eqb y c) eqn:E.
    + apply String.eqb_eq in E. auto.
    + right. split; [assumption | reflexivity].
Qed.

(** A key that no record carries gives a missing value in every row. *)
Lemma has_key_false_cell (records : list record) (c : label) (r : record) :
  has_key records c = false -> In r records -> cell_of r c = NaN.
Proof.
  unfold has_key. intros Hk Hr. apply mem_false in Hk. unfold cell_of.
  destruct (dict_get r c) as [[|s]|] eqn:Ed; try reflexivity.
  exfalso. apply Hk. unfold frame_of_records. cbn [columns].
  apply In_unique_labels, in_flat_map. exists r. split; [assumption|].
  clear -Ed. induction r as [|[k v] r IH]; [discriminate|]. simpl in *.
  destruct (String.eqb k c) eqn:E;
    [apply String.eqb_eq in E; auto | right; auto].
Qed.

Lemma select_missing_first (df : DataFrame) (c : label) (rest : list label) :
  mem c (columns df) = false -> select df (c :: rest) = Raise (KeyError c).
Proof.
  intros H. apply mem_false in H. unfold select. cbn [select_positions].
  rewrite (positions_not_In _ _ H). reflexivity.
Qed.

Lemma select_missing_second (df : DataFrame) (c c' : label) :
  mem c (columns df) = true -> mem c' (columns df) = false ->
  select df [c; c'] = Raise (KeyError c').
Proof.
  intros H H'. apply mem_false in H'. unfold select. cbn [select_positions].
  destruct (positions c (columns df)) eqn:Ep.
  - exfalso. apply mem_In in H. clear -H Ep.
    induction (columns df) as [|a l IH]; [contradiction|].
    simpl in Ep. destruct (String.eqb a c) eqn:E; [discriminate|].
    destruct H as [->|H]; [rewrite String.eqb_refl in E; discriminate|].
    apply IH; [assumption|]. destruct (positions c l); [reflexivity|discriminate].
  - rewrite (positions_not_In _ _ H'). reflexivity.
Qed.

Lemma try_except_not_FileNotFound {A : Type} (body handler : result A) :
  not_FileNotFound handler ->
  not_FileNotFound (try_except_FileNotFoundError body handler).
Proof.
  unfold not_FileNotFound. destruct body as [a|[]]; simpl; congruence.
Qed.

(** C6 (as amended).  A loader recovers from one condition only, a file
    that does not exist.  The decisions loader returns its two empty
    frames when its file is missing.  The people loader opens its files
    in the order people, organizations, memberships, and returns its
    empty frame when the first of them from which it gets no records is
    a missing one.  Everything else propagates.  A file that is not
    UTF-8, that is no JSON, that holds a JSON value other than an object,
    or an object without "data", makes the loader raise
    [UnicodeDecodeError], [JSONDecodeError], [TypeError], [KeyError]: the
    decisions file always, and a file of the people loader when the
    files before it have given their records, whatever the files after
    it are.  Once the records are read, every exception of the
    processing is the exception of the loader: [KeyError] for agenda
    items none of which has [created], or, when the timestamps are
    accepted, none of which has [result]; [KeyError] for Person records
    without [id] or without [name] and for Membership records without
    [person]; and the people loader returns no table when one of the
    eight keys it reads is carried by no record.  [FileNotFoundError]
    itself is never raised by a loader.  Each loader depends on its own
    files only, so what happens to the files of one category does not
    change what the other loader returns. *)
Theorem C6_only_a_missing_file_is_recovered
    (to_datetime : list value -> pystr -> parsed) (fs : filesystem) :
  (fs decisions_path = Missing ->
   load_and_preprocess_decisions to_datetime fs = Ok (empty_frame, empty_frame))
  /\ (forall e, malformed (fs decisions_path) e ->
      load_and_preprocess_decisions to_datetime fs = Raise e)
  /\ (forall records, file_data fs decisions_path = Some records ->
      (forall e, preprocess_decisions to_datetime records = Raise e ->
         load_and_preprocess_decisions to_datetime fs = Raise e)
      /\ (has_key records "created" = false ->
          load_and_preprocess_decisions to_datetime fs
          = Raise (KeyError "created"))
      /\ (has_key records "result" = false ->
          (exists e, load_and_preprocess_decisions to_datetime fs = Raise e)
          /\ (forall created,
                to_datetime_tz_convert to_datetime (created_column records)
                = Ok created ->
                load_and_preprocess_decisions to_datetime fs
                = Raise (KeyError "result"))))
  /\ (fs people_path = Missing
      \/ (exists people, file_data fs people_path = Some people
                         /\ fs org_path = Missing)
      \/ (exists people orgs, file_data fs people_path = Some people
                              /\ file_data fs org_path = Some orgs
                              /\ fs membership_path = Missing) ->
      load_and_preprocess_people fs = Ok empty_frame)
  /\ (forall e,
        malformed (fs people_path) e
        \/ (exists people, file_data fs people_path = Some people
                           /\ malformed (fs org_path) e)
        \/ (exists people orgs, file_data fs people_path = Some people
                                /\ file_data fs org_path = Some orgs
                                /\ malformed (fs membership_path) e) ->
        load_and_preprocess_people fs = Raise e)
  /\ (forall people orgs ms,
        file_data fs people_path = Some people ->
        file_data fs org_path = Some orgs ->
        file_data fs membership_path = Some ms ->
        (forall e, preprocess_people people orgs ms = Raise e ->
           load_and_preprocess_people fs = Raise e)
        /\ (has_key people "id" = false ->
            load_and_preprocess_people fs = Raise (KeyError "id"))
        /\ (has_key people "id" = true -> has_key people "name" = false ->
            load_and_preprocess_people fs = Raise (KeyError "name"))
        /\ (entity_keys_ok people = true -> has_key ms "person" = false ->
            load_and_preprocess_people fs = Raise (KeyError "person"))
        /\ (reads_keys people orgs ms = false ->
            exists e, load_and_preprocess_people fs = Raise e))
  /\ not_FileNotFound (load_and_preprocess_decisions to_datetime fs)
  /\ not_FileNotFound (load_and_preprocess_people fs)
  /\ (forall fs', fs' decisions_path = fs decisions_path ->
      load_and_preprocess_decisions to_datetime fs'
      = load_and_preprocess_decisions to_datetime fs)
  /\ (forall fs', fs' people_path = fs people_path ->
      fs' org_path = fs org_path ->
      fs' membership_path = fs membership_path ->
      load_and_preprocess_people fs' = load_and_preprocess_people fs).
Proof.
  split; [|split; [|split; [|split; [|split; [|split; [|split; [|split;
    [|split]]]]]]]].
  - unfold load_and_preprocess_decisions, json_load. intros ->. reflexivity.
  - unfold load_and_preprocess_decisions, json_load, getitem.
    intros e He. inversion He as [E|E|E|d Hd E]; subst; try reflexivity.
    cbn [bind]. rewrite Hd. reflexivity.
  - intros records Hfile.
    pose proof (load_decisions_data to_datetime _ _ Hfile) as Hl.
    rewrite Hl. split; [auto|]. split; [|split].
    + intros Hk. unfold preprocess_decisions, getcol.
      rewrite (index_of_not_mem _ _ Hk). reflexivity.
    + destruct (preprocess_decisions to_datetime records) as [[df dff]|e] eqn:E;
        [|eauto].
      apply preprocess_decisions_frame in E.
      destruct E as (_ & _ & _ & _ & Kr). congruence.
    + intros created Hc. unfold preprocess_decisions.
      destruct (getcol (frame_of_records records) "created") as [col|e] eqn:Ec.
      * pose proof (getcol_has_key _ _ _ Ec) as Kc.
        rewrite (has_key_getcol _ _ Kc) in Ec. inv_Ok Ec.
        cbn [bind]. unfold created_column in Hc. rewrite Hc. cbn [bind].
        rewrite getcol_setcol_other;
          [| apply rectangular_frame_of_records
           | rewrite (to_datetime_tz_convert_length _ _ _ Hc), length_map;
             symmetry; apply nrows_frame_of_records
           | discriminate].
        unfold getcol. unfold has_key in H.
        rewrite (index_of_not_mem _ _ H). reflexivity.
      * exfalso. unfold to_datetime_tz_convert, created_column in Hc.
        assert (Hnan : forall r, In r records -> cell_of r "created" = NaN).
        { intros r Hr. apply (has_key_false_cell records); [|assumption].
          destruct (has_key records "created") eqn:Kc; [|reflexivity].
          rewrite (has_key_getcol _ _ Kc) in Ec. discriminate. }
        destruct (existsb _ _); [discriminate|].
        assert (Hz : zones (map (to_datetime_value to_datetime
                                   (map (fun r => cell_of r "created") records))
                              (map (fun r => cell_of r "created") records))
                     = []).
        { generalize (map (fun r => cell_of r "created") records) at 1.
          intros col0. clear -Hnan.
          induction records as [|r rs IH]; [reflexivity|]. simpl.
          rewrite (Hnan r (or_introl eq_refl)). simpl.
          apply IH. intros r' Hr'. apply Hnan. right. assumption. }
        rewrite Hz in Hc. discriminate.
  - unfold load_and_preprocess_people, json_load, getitem, file_data.
    intros [Hp|[(people & Hp & Ho)|(people & orgs & Hp & Ho & Hm)]].
    + rewrite Hp. reflexivity.
    + destruct (fs people_path); try discriminate.
      cbn [bind]. rewrite Hp, Ho. reflexivity.
    + destruct (fs people_path); try discriminate.
      destruct (fs org_path); try discriminate.
      cbn [bind]. rewrite Hp. cbn [bind]. rewrite Ho, Hm. reflexivity.
  - unfold load_and_preprocess_people, json_load, getitem, file_data.
    intros e [He|[(people & Hp & He)|(people & orgs & Hp & Ho & He)]].
    + inversion He as [E|E|E|d Hd E]; subst; try reflexivity.
      cbn [bind]. rewrite Hd. reflexivity.
    + destruct (fs people_path); try discriminate.
      cbn [bind]. rewrite Hp. cbn [bind].
      inversion He as [E|E|E|d' Hd E]; subst; try reflexivity.
      cbn [bind]. rewrite Hd. reflexivity.
    + destruct (fs people_path); try discriminate.
      destruct (fs org_path); try discriminate.
      cbn [bind]. rewrite Hp. cbn [bind]. rewrite Ho. cbn [bind].
      inversion He as [E|E|E|d' Hd E]; subst; try reflexivity.
      cbn [bind]. rewrite Hd. reflexivity.
  - intros people orgs ms Fp Fo Fm.
    rewrite (load_people_data _ _ _ _ Fp Fo Fm).
    split; [auto|]. split; [|split; [|split]].
    + intros Hk. unfold preprocess_people.
      rewrite select_missing_first by exact Hk. reflexivity.
    + intros Hi Hn. unfold preprocess_people.
      rewrite select_missing_second by assumption. reflexivity.
    + intros Kp Hk. unfold preprocess_people.
      rewrite (select_id_name _ Kp). cbn [bind]. unfold merge_left.
      change (index_of "id" (columns (id_name_frame people))) with (Some 0).
      unfold has_key in Hk. rewrite (index_of_not_mem _ _ Hk). reflexivity.
    + intros Hk.
      destruct (preprocess_people people orgs ms) as [out|e] eqn:E; [|eauto].
      apply preprocess_people_reads_keys in E. congruence.
  - apply try_except_not_FileNotFound. discriminate.
  - apply try_except_not_FileNotFound. discriminate.
  - unfold load_and_preprocess_decisions, json_load. intros fs' ->. reflexivity.
  - unfold load_and_preprocess_people, json_load.
    intros fs' -> -> ->. reflexivity.
Qed.

Lemma C6_only_a_missing_file_is_recovered_witness :
  load_and_preprocess_decisions iso_utc demo_people_fs
  = Ok (empty_frame, empty_frame)
  /\ load_and_preprocess_decisions iso_utc broken_decisions_fs
     = Raise JSONDecodeError
  /\ load_and_preprocess_people broken_decisions_fs
     = load_and_preprocess_people demo_people_fs
  /\ load_and_preprocess_people demo_decisions_fs = Ok empty_frame
  /\ load_and_preprocess_people broken_orgs_fs = Raise TypeError
  /\ load_and_preprocess_people no_people_fs = Raise (KeyError "id").
Proof.
  pose proof (C6_only_a_missing_file_is_recovered iso_utc demo_people_fs)
    as (Hmiss & _ & _ & _ & _ & _ & _ & _ & _ & Hiso).
  pose proof (C6_only_a_missing_file_is_recovered iso_utc broken_decisions_fs)
    as (_ & Hbad & _).
  pose proof (C6_only_a_missing_file_is_recovered iso_utc demo_decisions_fs)
    as (_ & _ & _ & Hnone & _).
  pose proof (C6_only_a_missing_file_is_recovered iso_utc broken_orgs_fs)
    as (_ & _ & _ & _ & Horg & _).
  pose proof (C6_only_a_missing_file_is_recovered iso_utc no_people_fs)
    as (_ & _ & _ & _ & _ & Hkeys & _).
  split; [apply Hmiss; reflexivity|].
  split; [apply Hbad; constructor|].
  split; [apply Hiso; reflexivity|].
  split; [apply Hnone; left; reflexivity|].
  split.
  - apply Horg. right. left. exists demo_people.
    split; [reflexivity | constructor].
  - apply (Hkeys [] demo_orgs demo_memberships eq_refl eq_refl eq_refl).
    reflexivity.
Defined.

(** C6, the claim as stated, fails: on a decisions export that is no
    JSON the loader does not return an empty result, it raises; and so
    does the people loader on an organizations export that holds no
    object, although the memberships export is missing. *)
Lemma C6_malformed_source_counterexample :
  broken_decisions_fs decisions_path = NotJSON
  /\ load_and_preprocess_decisions iso_utc broken_decisions_fs
     = Raise JSONDecodeError
  /\ (forall r, load_and_preprocess_decisions iso_utc broken_decisions_fs
                <> Ok r)
  /\ broken_orgs_fs org_path = NotObject
  /\ broken_orgs_fs membership_path = Missing
  /\ load_and_preprocess_people broken_orgs_fs = Raise TypeError.
Proof.
  split; [reflexivity|]. split; [reflexivity|].
  split; [intros r; discriminate|].
  split; [reflexivity|]. split; reflexivity.
Qed.

(** X5.  Whatever the three files hold, a table the people loader
    returns is either the empty frame of its handler or has exactly the
    columns Name, Organization, Role, Start Date; each of its rows has
    four cells, all of them strings: no cell is ever left missing. *)
Theorem X5_people_table_is_filled (fs : filesystem) (out : DataFrame) :
  load_and_preprocess_people fs = Ok out ->
  (out = empty_frame
   \/ columns out = ["Name"; "Organization"; "Role"; "Start Date"])
  /\ Forall (fun row => length row = 4 /\ Forall (fun v => is_str v = true) row)
       (data out).
Proof.
  intros H. apply load_people_cases in H.
  destruct H as [(people & orgs & ms & _ & _ & _ & H)|(-> & _)].
  - apply preprocess_people_inv in H.
    destruct H as (_ & _ & _ & Hc & _ & Hrows). auto.
  - split; [auto | constructor].
Qed.

(** X6.  The people loader never loses a membership: from three files
    that are there, a table it returns has at least one row per
    Membership record, also when ids are not distinct, and is not empty
    (an empty Membership list makes the loader raise [KeyError]).  The
    table is empty exactly when one of the files is missing. *)
Theorem X6_no_membership_is_lost (fs : filesystem) (out : DataFrame) :
  load_and_preprocess_people fs = Ok out ->
  (is_empty out = true
   <-> fs people_path = Missing \/ fs org_path = Missing
       \/ fs membership_path = Missing)
  /\ (forall ms, file_data fs membership_path = Some ms ->
        fs people_path <> Missing -> fs org_path <> Missing ->
        ms <> [] /\ length ms <= nrows out).
Proof.
  intros H. apply load_people_cases in H.
  destruct H as [(people & orgs & ms & Fp & Fo & Fm & H)|(-> & Hm)].
  - apply preprocess_people_inv in H.
    destruct H as (_ & _ & Kp & Hc & Hn & _).
    pose proof (has_key_not_nil _ _ Kp) as Hne.
    split.
    + split.
      * intros He. exfalso. unfold is_empty in He. rewrite Hc in He.
        unfold nrows in Hn. destruct (data out); [|discriminate].
        destruct ms; simpl in Hn; [congruence | lia].
      * unfold file_data in Fp, Fo, Fm.
        intros [E|[E|E]]; rewrite E in *; discriminate.
    + intros ms' Fm' _ _. rewrite Fm in Fm'. inv_Ok Fm'. auto.
  - split.
    + split; [intros _; assumption | reflexivity].
    + intros ms Fm Hp Ho. exfalso.
      unfold file_data in Fm. destruct Hm as [E|[E|E]]; try contradiction.
      rewrite E in Fm. discriminate.
Qed.

Lemma demo_people_loaded :
  load_and_preprocess_people demo_people_fs = Ok demo_members.
Proof. vm_compute. reflexivity. Qed.

Lemma X5_people_table_is_filled_witness :
  columns demo_members = ["Name"; "Organization"; "Role"; "Start Date"]
  /\ Forall (fun row => length row = 4 /\ Forall (fun v => is_str v = true) row)
       (data demo_members).
Proof.
  destruct (X5_people_table_is_filled demo_people_fs demo_members
              demo_people_loaded) as (_ & Hrows).
  split; [reflexivity | exact Hrows].
Defined.

Lemma X6_no_membership_is_lost_witness :
  demo_memberships <> [] /\ length demo_memberships <= nrows demo_members.
Proof.
  destruct (X6_no_membership_is_lost demo_people_fs demo_members
              demo_people_loaded) as (_ & Hn).
  apply (Hn demo_memberships eq_refl); discriminate.
Defined.

(** ** The table of the people loader, row by row *)

Lemma length_flat_map_sum {A B : Type} (f : A -> list B) (l : list A) :
  length (flat_map f l) = list_sum (map (fun a => length (f a)) l).
Proof.
  induction l as [|a l IH]; simpl; [reflexivity|].
  rewrite length_app, IH. reflexivity.
Qed.

Lemma length_flat_map_const {A B : Type} (f : A -> list B) (l : list A) (n : nat) :
  (forall a, length (f a) = n) -> length (flat_map f l) = length l * n.
Proof.
  intros H. induction l as [|a l IH]; simpl; [reflexivity|].
  rewrite length_app, H, IH. reflexivity.
Qed.

Lemma length_joined (targets : list record) (key : value) :
  length (joined targets key) = fanout targets key.
Proof.
  unfold joined, fanout. destruct (resolved targets key) as [|t ts];
    [reflexivity|].
  rewrite length_map. simpl. reflexivity.
Qed.

Lemma length_rows_of_membership (people orgs : list record) (m : record) :
  length (rows_of_membership people orgs m)
  = fanout people (cell_of m "person") * fanout orgs (cell_of m "organization").
Proof.
  unfold rows_of_membership.
  rewrite (length_flat_map_const _ _ (fanout orgs (cell_of m "organization"))).
  - rewrite length_joined. reflexivity.
  - intros p. rewrite length_map. apply length_joined.
Qed.



Lemma find_filter {A : Type} (f : A -> bool) (l : list A) :
  find f l = hd_error (filter f l).
Proof.
  induction l as [|a l IH]; simpl; [reflexivity|].
  destruct (f a); [reflexivity | assumption].
Qed.

Lemma joined_distinct (targets : list record) (key : value) :
  NoDup (ids targets) ->
  joined targets key
  = [match find (fun t => value_eqb key (cell_of t "id")) targets with
     | Some t => id_name t
     | None => [NaN; NaN]
     end].
Proof.
  intros Hnd. pose proof (resolved_at_most_one targets key Hnd) as Hl.
  unfold joined. rewrite find_filter. fold (resolved targets key).
  destruct (resolved targets key) as [|t [|t' ts]]; simpl in *;
    try reflexivity. lia.
Qed.

Lemma flat_map_singleton {A B : Type} (g : A -> B) (l : list A) :
  flat_map (fun a => [g a]) l = map g l.
Proof. induction l as [|a l IH]; simpl; congruence. Qed.



(** ** The options of a multiselect *)

Lemma pystr_leb_total (a b : pystr) :
  pystr_leb a b = false -> pystr_leb b a = true.
Proof.
  revert b. induction a as [|x a IH]; intros [|y b]; simpl; try congruence.
  destruct (N.eqb x y) eqn:E.
  - apply N.eqb_eq in E. subst. rewrite N.eqb_refl. apply IH.
  - rewrite N.eqb_sym, E. rewrite N.ltb_ge, N.ltb_lt. intros H.
    apply N.eqb_neq in E. lia.
Qed.

Lemma value_leb_total (a b : value) :
  value_leb a b = false -> value_leb b a = true.
Proof.
  destruct a, b; simpl; try congruence.
  - apply pystr_leb_total.
  - rewrite Z.leb_gt, Z.leb_le. lia.
Qed.

Lemma insert_sorted_Sorted (x : value) (l : list value) :
  Sorted value_le l -> Sorted value_le (insert_sorted x l).
Proof.
  induction l as [|y l IH]; simpl; intros H.
  - repeat constructor.
  - destruct (value_leb x y) eqn:E.
    + constructor; [assumption|]. constructor. exact E.
    + inversion H as [|? ? Hs Hh]; subst. constructor; [auto|].
      apply value_leb_total in E.
      destruct l as [|z l]; simpl.
      * constructor. exact E.
      * destruct (value_leb x z); constructor;
          [exact E | inversion Hh; assumption].
Qed.

Lemma insertion_sort_Sorted (l : list value) :
  Sorted value_le (insertion_sort l).
Proof.
  induction l as [|x l IH]; simpl; [constructor|].
  apply insert_sorted_Sorted. assumption.
Qed.

Lemma insert_sorted_Permutation (x : value) (l : list value) :
  Permutation (insert_sorted x l) (x :: l).
Proof.
  induction l as [|y l IH]; simpl; [reflexivity|].
  destruct (value_leb x y); [reflexivity|].
  rewrite IH. apply perm_swap.
Qed.

Lemma insertion_sort_Permutation (l : list value) :
  Permutation (insertion_sort l) l.
Proof.
  induction l as [|x l IH]; simpl; [reflexivity|].
  rewrite insert_sorted_Permutation. constructor. assumption.
Qed.

Lemma NoDup_unique (l : list value) : NoDup (unique l).
Proof.
  unfold unique. induction l as [|x l IH]; simpl; constructor.
  - rewrite filter_In, value_eqb_refl. simpl. intros [_ H]; discriminate.
  - apply NoDup_filter. assumption.
Qed.

Lemma all_nan_Sorted (l : list value) :
  forallb is_nan l = true -> Sorted value_le l.
Proof.
  induction l as [|x l IH]; simpl; intros H; [constructor|].
  apply andb_true_iff in H. destruct H as (Hx & Hl).
  constructor; [auto|]. destruct l as [|y l]; constructor.
  destruct x; try discriminate. reflexivity.
Qed.

Lemma sorted_ascending (l opts : list value) :
  sorted l = Ok opts -> Sorted value_le opts /\ Permutation opts l.
Proof.
  unfold sorted. destruct (_ || _).
  - intros H. inv_Ok H.
    split; [apply insertion_sort_Sorted | apply insertion_sort_Permutation].
  - destruct (forallb is_nan l) eqn:E; intros H; [|discriminate].
    inv_Ok H. split; [apply all_nan_Sorted; assumption | reflexivity].
Qed.

(** X9.  The options a multiselect offers ([sorted(df[c].unique())]) are
    in ascending order and without repetition, and they are exactly the
    values of the column. *)
Theorem X9_options_are_sorted_and_distinct
    (df : DataFrame) (c : label) (opts : list value) :
  options df c = Ok opts ->
  Sorted value_le opts /\ NoDup opts
  /\ exists col, getcol df c = Ok col /\ forall v, In v opts <-> In v col.
Proof.
  unfold options. intros H. inv_bind H.
  destruct (sorted_ascending _ _ H) as (Hs & Hp).
  split; [assumption|]. split.
  - eapply Permutation_NoDup; [symmetry; eassumption | apply NoDup_unique].
  - exists x. split; [assumption|]. intros v.
    rewrite <- (In_unique v x). split.
    + apply Permutation_in. assumption.
    + apply Permutation_in. symmetry. assumption.
Qed.

Lemma X9_options_are_sorted_and_distinct_witness :
  options demo_decisions "status"
  = Ok [Str (lit "Beschlossen"); Str (lit "Vertagt")]
  /\ Sorted value_le [Str (lit "Beschlossen"); Str (lit "Vertagt")]
  /\ NoDup [Str (lit "Beschlossen"); Str (lit "Vertagt")].
Proof.
  destruct (X9_options_are_sorted_and_distinct demo_decisions "status"
              [Str (lit "Beschlossen"); Str (lit "Vertagt")] eq_refl)
    as (Hs & Hn & _).
  split; [reflexivity|]. split; assumption.
Defined.

(** ** The default date range *)

Lemma fold_left_min_le (l : list Z) (a : Z) :
  (fold_left Z.min l a <= a)%Z
  /\ forall x, In x l -> (fold_left Z.min l a <= x)%Z.
Proof.
  revert a. induction l as [|y l IH]; simpl; intros a.
  - split; [lia | tauto].
  - destruct (IH (Z.min a y)) as (H1 & H2). split; [lia|].
    intros x [->|Hx]; [lia | auto].
Qed.

Lemma fold_left_max_ge (l : list Z) (a : Z) :
  (a <= fold_left Z.max l a)%Z
  /\ forall x, In x l -> (x <= fold_left Z.max l a)%Z.
Proof.
  revert a. induction l as [|y l IH]; simpl; intros a.
  - split; [lia | tauto].
  - destruct (IH (Z.max a y)) as (H1 & H2). split; [lia|].
    intros x [->|Hx]; [lia | auto].
Qed.

Lemma In_timestamps (col : list value) (ns : Z) :
  In ns (timestamps col) <-> In (Timestamp ns) col.
Proof.
  unfold timestamps. rewrite in_flat_map. split.
  - intros (v & Hv & Hin). destruct v; simpl in Hin; try contradiction.
    destruct Hin as [->|[]]. assumption.
  - intros H. exists (Timestamp ns). simpl. auto.
Qed.

(** [col.min()] and [col.max()] bound every timestamp of the column. *)
Lemma series_min_max_bounds (col : list value) (ns : Z) :
  In (Timestamp ns) col ->
  exists lo hi,
    series_min col = Timestamp lo /\ series_max col = Timestamp hi
    /\ forall t, In (Timestamp t) col -> (lo <= t <= hi)%Z.
Proof.
  intros Hin. unfold series_min, series_max.
  assert (Hts : forall t, In (Timestamp t) col -> In t (timestamps col))
    by (intros t; apply In_timestamps).
  destruct (timestamps col) as [|a rest] eqn:E.
  - exfalso. exact (Hts _ Hin).
  - eexists. eexists. split; [reflexivity|]. split; [reflexivity|].
    intros t Ht. specialize (Hts _ Ht).
    destruct (fold_left_min_le rest a) as (M1 & M2).
    destruct (fold_left_max_ge rest a) as (X1 & X2).
    destruct Hts as [->|Hr]; [lia|].
    specialize (M2 _ Hr). specialize (X2 _ Hr). lia.
Qed.

Lemma date_of_monotone (a b : Z) : (a <= b)%Z -> (date_of a <= date_of b)%Z.
Proof.
  intros H. unfold date_of, ns_per_day. apply Z.div_le_mono; lia.
Qed.

Lemma In_keep {A : Type} (mask : list bool) (l : list A) (x : A) :
  In x (keep mask l) -> In x l.
Proof.
  revert mask. induction l as [|a l IH]; intros [|b mask]; simpl;
    try contradiction.
  destruct b; simpl; intros H; [destruct H; eauto | eauto].
Qed.

Section DefaultDates.

Variable to_datetime : list value -> pystr -> parsed.

(** A full view the loader returns from a file holds a timestamp. *)
Lemma loaded_created_has_timestamp (records : list record) (df dff : DataFrame) :
  preprocess_decisions to_datetime records = Ok (df, dff) ->
  exists created ns,
    getcol df "created" = Ok created /\ In (Timestamp ns) created.
Proof.
  intros H.
  pose proof (preprocess_decisions_inv _ _ _ _ H)
    as (_ & _ & _ & created & Hc & Hall).
  apply to_datetime_tz_convert_inv in Hall.
  destruct Hall as (Ec & off & (x & ns & Hx & Hns) & _).
  exists created, ns. split; [assumption|].
  rewrite Ec. apply in_map_iff. exists x. rewrite Hns. auto.
Qed.

(** The default range of the date picker and what the date filter keeps
    with it. *)
Lemma default_range_rows
    (records : list record) (df_all_decisions df_decisions : DataFrame) :
  preprocess_decisions to_datetime records
  = Ok (df_all_decisions, df_decisions) ->
  exists created min_date max_date,
    getcol df_all_decisions "created" = Ok created
    /\ timestamp_date (series_min created) = Some min_date
    /\ timestamp_date (series_max created) = Some max_date
    /\ (min_date <= max_date)%Z
    /\ decisions_date_filter [min_date; max_date] df_decisions
       = Ok (mkDataFrame (columns df_decisions)
               (filter (fun row => negb (is_nan (field df_decisions "created" row)))
                       (data df_decisions))).
Proof.
  intros Hload.
  destruct (loaded_created_has_timestamp _ _ _ Hload)
    as (created & ns & Hc & Hns).
  destruct (series_min_max_bounds _ _ Hns) as (lo & hi & Hlo & Hhi & Hb).
  pose proof (preprocess_decisions_inv _ _ _ _ Hload) as (_ & Hdff & _).
  destruct (loaded_decisions_typed _ _ _ _ Hload df_decisions (or_intror eq_refl))
    as (cd & _ & Hcd & Tcd & _).
  assert (Hsub : forall v, In v cd -> In v created).
  { intros v Hv. rewrite Hdff in Hcd.
    rewrite (getcol_boolean_index _ _ _ _ Hc) in Hcd. inv_Ok Hcd.
    eapply In_keep. eassumption. }
  exists created, (date_of lo), (date_of hi).
  split; [assumption|]. rewrite Hlo, Hhi.
  split; [reflexivity|]. split; [reflexivity|].
  split; [apply date_of_monotone; specialize (Hb _ Hns); lia|].
  rewrite (date_filter_rows _ _ _ _ Hcd Tcd). do 2 f_equal.
  apply filter_ext_in. intros row Hrow.
  assert (Hin : In (field df_decisions "created" row) cd).
  { rewrite (getcol_field _ _ _ Hcd). apply in_map. assumption. }
  rewrite Forall_forall in Tcd. specialize (Tcd _ Hin).
  destruct (field df_decisions "created" row) as [|s|t] eqn:Ef;
    try discriminate; [reflexivity|].
  specialize (Hb t (Hsub _ Hin)). simpl.
  apply andb_true_iff. rewrite !Z.leb_le.
  split; apply date_of_monotone; lia.
Qed.

(** When pandas reads a timestamp from the [created] of every agenda
    item, every row has one. *)
Lemma rows_all_created
    (records : list record) (df_all_decisions df_decisions : DataFrame) :
  preprocess_decisions to_datetime records
  = Ok (df_all_decisions, df_decisions) ->
  (forall r, In r records -> has_timestamp to_datetime records r) ->
  filter (fun row => negb (is_nan (field df_decisions "created" row)))
         (data df_decisions)
  = data df_decisions.
Proof.
  intros Hload Hnm.
  pose proof (preprocess_decisions_inv _ _ _ _ Hload)
    as (_ & Hdff & _ & created & Hc & Hall).
  apply to_datetime_tz_convert_inv in Hall. destruct Hall as (Ec & _).
  assert (Hnn : forall v, In v created -> is_nan v = false).
  { intros v Hv. rewrite Ec in Hv. apply in_map_iff in Hv.
    destruct Hv as (x & <- & Hx). apply in_map_iff in Hx.
    destruct Hx as (r & <- & Hr).
    destruct (Hnm r Hr) as (s & ns & off & Hs & Hp).
    unfold cell_of. rewrite Hs. cbn [to_datetime_value].
    unfold created_column, cell_of in Hp. rewrite Hp. reflexivity. }
  apply filter_all. intros row Hrow. apply negb_true_iff, Hnn.
  assert (Hcd : getcol df_decisions "created"
                = Ok (keep (map negb (isin (map derived_status records)
                                        excluded_statuses)) created)).
  { rewrite Hdff. apply getcol_boolean_index. assumption. }
  pose proof (getcol_field _ _ _ Hcd) as Ek.
  eapply In_keep. rewrite Ek. apply in_map. assumption.
Qed.

(** X10.  The bounds of the date picker ([min_date], [max_date], taken
    from the full view) exist and are ordered, and the range they span,
    which is the picker's default, lets every actionable decision with a
    timestamp through the date filter: it drops the rows whose [created]
    is missing (no [created] in the item, or a string such as the empty
    one, from which pandas reads a missing timestamp), and nothing when
    pandas reads a timestamp from the [created] of every agenda item. *)
Theorem X10_default_range_keeps_everything
    (fs : filesystem) (records : list record)
    (df_all_decisions df_decisions : DataFrame) :
  file_data fs decisions_path = Some records ->
  load_and_preprocess_decisions to_datetime fs
  = Ok (df_all_decisions, df_decisions) ->
  exists created min_date max_date out,
    getcol df_all_decisions "created" = Ok created
    /\ timestamp_date (series_min created) = Some min_date
    /\ timestamp_date (series_max created) = Some max_date
    /\ (min_date <= max_date)%Z
    /\ decisions_date_filter [min_date; max_date] df_decisions = Ok out
    /\ columns out = columns df_decisions
    /\ data out
       = filter (fun row => negb (is_nan (field df_decisions "created" row)))
           (data df_decisions)
    /\ ((forall r, In r records -> has_timestamp to_datetime records r) ->
        out = df_decisions).
Proof.
  intros Hfile Hload.
  rewrite (load_decisions_data _ _ _ Hfile) in Hload.
  destruct (default_range_rows _ _ _ Hload)
    as (created & lo & hi & Hc & Hlo & Hhi & Hle & Hf).
  exists created, lo, hi. eexists.
  repeat (split; [eassumption || reflexivity|]).
  intros Hnm. rewrite (rows_all_created _ _ _ Hload Hnm).
  destruct df_decisions; reflexivity.
Qed.

End DefaultDates.

Lemma X10_default_range_keeps_everything_witness :
  (exists created min_date max_date,
     getcol demo_all_decisions "created" = Ok created
     /\ timestamp_date (series_min created) = Some min_date
     /\ timestamp_date (series_max created) = Some max_date
     /\ (min_date <= max_date)%Z
     /\ decisions_date_filter [min_date; max_date] demo_decisions
        = Ok demo_decisions)
  /\ (exists df_all df_dec created min_date max_date out,
        load_and_preprocess_decisions iso_utc blank_created_fs
        = Ok (df_all, df_dec)
        /\ getcol df_all "created" = Ok created
        /\ timestamp_date (series_min created) = Some min_date
        /\ timestamp_date (series_max created) = Some max_date
        /\ decisions_date_filter [min_date; max_date] df_dec = Ok out
        /\ nrows df_dec = 2 /\ nrows out = 1).
Proof.
  split.
  - destruct (X10_default_range_keeps_everything iso_utc demo_decisions_fs
                demo_agenda demo_all_decisions demo_decisions eq_refl
                demo_decisions_loaded)
      as (created & lo & hi & out & Hc & Hlo & Hhi & Hle & Hf & _ & _ & Hall).
    exists created, lo, hi. repeat (split; [assumption|]).
    rewrite Hf. f_equal. apply Hall.
    intros r Hr. simpl in Hr.
    repeat (destruct Hr as [<-|Hr];
            [eexists; eexists; eexists; split; reflexivity|]).
    contradiction.
  - destruct (load_and_preprocess_decisions iso_utc blank_created_fs)
      as [[df_all df_dec]|e] eqn:Hload; [|vm_compute in Hload; discriminate].
    destruct (X10_default_range_keeps_everything iso_utc blank_created_fs
                blank_created_agenda df_all df_dec eq_refl Hload)
      as (created & lo & hi & out & Hc & Hlo & Hhi & _ & Hf & _ & Hd & _).
    exists df_all, df_dec, created, lo, hi, out.
    repeat (split; [reflexivity || assumption|]).
    unfold nrows. rewrite Hd.
    vm_compute in Hload. injection Hload as <- <-. split; reflexivity.
Defined.

(** ** The "Decisions" page *)

Lemma filter_filter_and {A : Type} (f g : A -> bool) (l : list A) :
  filter f (filter g l) = filter (fun x => g x && f x) l.
Proof.
  induction l as [|a l IH]; simpl; [reflexivity|].
  destruct (g a); simpl; [destruct (f a)|]; rewrite IH; reflexivity.
Qed.

Lemma length_filter_le {A : Type} (f : A -> bool) (l : list A) :
  length (filter f l) <= length l.
Proof.
  induction l as [|a l IH]; simpl; [lia|]. destruct (f a); simpl; lia.
Qed.

Lemma length_keep_le {A : Type} (mask : list bool) (l : list A) :
  length (keep mask l) <= length l.
Proof.
  revert mask. induction l as [|a l IH]; intros [|b mask]; simpl; try lia.
  specialize (IH mask). destruct b; simpl; lia.
Qed.

Lemma field_same_columns (df df' : DataFrame) (c : label) (row : list value) :
  columns df' = columns df -> field df' c row = field df c row.
Proof. unfold field. intros ->. reflexivity. Qed.

(** The date filter on a frame whose [created] column is a datetime
    column, for any tuple of the date picker. *)
Lemma date_filter_picked (df out : DataFrame) (date_range : list date)
    (created : list value) :
  getcol df "created" = Ok created ->
  Forall (fun v => is_str v = false) created ->
  decisions_date_filter date_range df = Ok out ->
  out = mkDataFrame (columns df)
          (filter (fun row => in_picked_range date_range (field df "created" row))
                  (data df)).
Proof.
  intros Hc Ht H.
  assert (Hid : forall dr, (forall lo hi, dr <> [lo; hi]) ->
                decisions_date_filter dr df = Ok out ->
                out = mkDataFrame (columns df)
                        (filter (fun row => in_picked_range dr (field df "created" row))
                                (data df))).
  { intros dr Hdr E.
    assert (Ed : decisions_date_filter dr df = Ok df).
    { destruct dr as [|a [|b [|c dr]]]; try reflexivity.
      exfalso. apply (Hdr a b). reflexivity. }
    assert (Ep : forall x, in_picked_range dr x = true).
    { intros x. destruct dr as [|a [|b [|c dr]]]; try reflexivity.
      exfalso. apply (Hdr a b). reflexivity. }
    rewrite Ed in E. inv_Ok E.
    rewrite filter_all by (intros; apply Ep). destruct out; reflexivity. }
  destruct date_range as [|lo [|hi [|c dr]]];
    try (apply Hid; [intros; discriminate | assumption]).
  rewrite (date_filter_rows _ _ _ _ Hc Ht) in H. inv_Ok H. reflexivity.
Qed.

Lemma count_eq_le (col : list value) (x : value) : count_eq col x <= length col.
Proof. apply length_filter_le. Qed.

Lemma count_eq_absent (col : list value) (x : value) :
  ~ In x col -> count_eq col x = 0.
Proof.
  intros H. unfold count_eq. rewrite filter_none; [reflexivity|].
  intros v Hv. destruct (value_eqb v x) eqn:E; [|reflexivity].
  apply value_eqb_eq in E. subst. contradiction.
Qed.

Section DecisionsPage.

Variable to_datetime : list value -> pystr -> parsed.
Variable date_input : option date -> option date -> result (list date).
Variable multiselect : list value -> result (list value).

(** The steps of a run of the page that shows more than its header. *)
Lemma decisions_page_inv (fs : filesystem) (rep : decisions_report) :
  decisions_page to_datetime date_input multiselect fs = Ok (Some rep) ->
  exists df_all df_dec created date_range filtered opts selected status,
    load_and_preprocess_decisions to_datetime fs = Ok (df_all, df_dec)
    /\ is_empty df_all = false
    /\ getcol df_all "created" = Ok created
    /\ date_input (timestamp_date (series_min created))
                  (timestamp_date (series_max created)) = Ok date_range
    /\ decisions_date_filter date_range df_dec = Ok filtered
    /\ status_options filtered = Ok opts
    /\ multiselect opts = Ok selected
    /\ decisions_status_filter filtered selected = Ok (decisions_filtered_df rep)
    /\ getcol (decisions_filtered_df rep) "status" = Ok status
    /\ total_agenda_items rep = nrows df_all
    /\ total_filtered_decisions rep = nrows (decisions_filtered_df rep)
    /\ decided rep = count_eq status (Str (lit "Beschlossen")).
Proof.
  unfold decisions_page. intros H. inv_bind H. destruct x as [df_all df_dec].
  cbn [fst snd] in H.
  destruct (is_empty df_all) eqn:He; [discriminate|].
  inv_bind H. inv_bind H. inv_bind H. inv_bind H. inv_bind H. inv_bind H.
  inv_bind H. injection H as <-.
  exists df_all, df_dec, x, x0, x1, x2, x3, x5. cbn.
  repeat (split; [assumption || reflexivity|]). reflexivity.
Qed.

(** X11.  Whatever the widgets return, the frame [filtered_df] from
    which the "Decisions" page makes its metrics, its charts and its
    listing holds the rows of the actionable view, in the order of that
    view, whose date lies in the range the date picker returned (every
    row when it did not return two dates) and whose status is among the
    statuses the multiselect returned.  The date picker is called with
    the dates of the oldest and the newest [created] of the full view;
    the multiselect is offered the statuses of the rows in the range,
    among which "No result" and "Kenntnis genommen" never are.  The three
    metrics count what they name, so that decided <= filtered decisions
    <= actionable decisions <= all agenda items, and "decided" is zero
    when "Beschlossen" is not selected. *)
Theorem X11_decisions_page_filtered_rows
    (fs : filesystem) (rep : decisions_report) :
  decisions_page to_datetime date_input multiselect fs = Ok (Some rep) ->
  exists df_all df_dec created date_range filtered opts selected,
    load_and_preprocess_decisions to_datetime fs = Ok (df_all, df_dec)
    /\ getcol df_all "created" = Ok created
    /\ date_input (timestamp_date (series_min created))
                  (timestamp_date (series_max created)) = Ok date_range
    /\ decisions_date_filter date_range df_dec = Ok filtered
    /\ columns filtered = columns df_dec
    /\ data filtered
       = filter (fun row =>
                   in_picked_range date_range (field df_dec "created" row))
           (data df_dec)
    /\ status_options filtered = Ok opts
    /\ (forall v, In v opts
                  <-> exists row, In row (data filtered)
                                  /\ field df_dec "status" row = v)
    /\ ~ In (Str (lit "No result")) opts
    /\ ~ In (Str (lit "Kenntnis genommen")) opts
    /\ multiselect opts = Ok selected
    /\ columns (decisions_filtered_df rep) = columns df_dec
    /\ data (decisions_filtered_df rep)
       = filter (fun row =>
                   in_picked_range date_range (field df_dec "created" row)
                   && isin1 selected (field df_dec "status" row))
           (data df_dec)
    /\ total_agenda_items rep = nrows df_all
    /\ total_filtered_decisions rep = nrows (decisions_filtered_df rep)
    /\ decided rep
       = length (filter (fun row =>
                           value_eqb (field df_dec "status" row)
                                     (Str (lit "Beschlossen")))
                        (data (decisions_filtered_df rep)))
    /\ decided rep <= total_filtered_decisions rep
    /\ total_filtered_decisions rep <= nrows df_dec
    /\ nrows df_dec <= total_agenda_items rep
    /\ (~ In (Str (lit "Beschlossen")) selected -> decided rep = 0).
Proof.
  intros H. apply decisions_page_inv in H.
  destruct H as (df_all & df_dec & created & date_range & filtered & opts
                 & selected & status & Hload & He & Hc & Hdi & Hdf & Hopts
                 & Hms & Hsf & Hst & Ht & Hf & Hd).
  exists df_all, df_dec, created, date_range, filtered, opts, selected.
  destruct (load_decisions_cases _ _ _ _ Hload) as [(records & Hpre)|(-> & _)];
    [|discriminate].
  destruct (loaded_decisions_typed _ _ _ _ Hpre df_dec (or_intror eq_refl))
    as (cd & sd & Hcd & Tcd & Hsd & Tsd).
  pose proof (date_filter_picked _ _ _ _ Hcd Tcd Hdf) as Ef.
  assert (Hcols : columns filtered = columns df_dec) by (rewrite Ef; reflexivity).
  assert (Hdataf : data filtered
                   = filter (fun row => in_picked_range date_range
                                          (field df_dec "created" row))
                       (data df_dec)) by (rewrite Ef; reflexivity).
  assert (Hsfcol : exists sf, getcol filtered "status" = Ok sf).
  { unfold status_options, options in Hopts. inv_bind Hopts. eauto. }
  destruct Hsfcol as (sf & Hsfc).
  unfold decisions_status_filter in Hsf.
  rewrite (filter_isin_rows _ _ _ _ Hsfc) in Hsf. injection Hsf as Hfiltered.
  assert (Hcols' : columns (decisions_filtered_df rep) = columns df_dec)
    by (rewrite <- Hfiltered; cbn [columns]; assumption).
  assert (Edata : data (decisions_filtered_df rep)
                  = filter (fun row =>
                              in_picked_range date_range (field df_dec "created" row)
                              && isin1 selected (field df_dec "status" row))
                      (data df_dec)).
  { rewrite <- Hfiltered. cbn [data]. rewrite Hdataf.
    rewrite filter_filter_and. apply filter_ext. intros row.
    rewrite (field_same_columns df_dec filtered) by assumption. reflexivity. }
  assert (Hoptsin : forall v, In v opts
                    <-> exists row, In row (data filtered)
                                    /\ field df_dec "status" row = v).
  { intros v. unfold status_options, options in Hopts. rewrite Hsfc in Hopts.
    cbn [bind] in Hopts. rewrite (sorted_In _ _ v Hopts), In_unique.
    rewrite (getcol_field _ _ _ Hsfc), in_map_iff.
    split; intros (row & H1 & H2); exists row;
      rewrite (field_same_columns df_dec filtered) in * by assumption; auto. }
  assert (Hexcl : forall v, In v excluded_statuses -> ~ In v opts).
  { intros v Hv Hin. apply Hoptsin in Hin. destruct Hin as (row & Hin & Hrow).
    assert (Hin' : In row (data df_dec)).
    { rewrite Hdataf in Hin. apply filter_In in Hin. tauto. }
    pose proof (preprocess_decisions_inv _ _ _ _ Hpre) as (Hs0 & Hdff & _).
    pose proof (getcol_field _ _ _ Hs0) as Hcol0.
    rewrite Hdff in Hin'. unfold boolean_index, isin in Hin'. cbn [data] in Hin'.
    rewrite Hcol0, !map_map, keep_map in Hin'. apply filter_In in Hin'.
    destruct Hin' as (_ & Hne). apply negb_true_iff in Hne.
    rewrite Hdff in Hrow. unfold field, boolean_index in Hrow.
    cbn [columns] in Hrow. unfold field in Hne. rewrite Hrow in Hne.
    apply isin1_In in Hv. congruence. }
  assert (Hstatus : status
                    = map (field df_dec "status") (data (decisions_filtered_df rep))).
  { rewrite (getcol_field _ _ _ Hst). apply map_ext. intros row.
    apply field_same_columns. assumption. }
  assert (Hdec : decided rep
                 = length (filter (fun row =>
                                     value_eqb (field df_dec "status" row)
                                               (Str (lit "Beschlossen")))
                                  (data (decisions_filtered_df rep)))).
  { rewrite Hd, Hstatus. unfold count_eq.
    generalize (data (decisions_filtered_df rep)). intros rows.
    induction rows as [|row rows IH]; [reflexivity|]. simpl.
    destruct (value_eqb _ _); simpl; rewrite IH; reflexivity. }
  split; [assumption|]. split; [assumption|]. split; [assumption|].
  split; [assumption|]. split; [assumption|]. split; [assumption|].
  split; [assumption|]. split; [assumption|].
  split; [apply Hexcl; simpl; auto|]. split; [apply Hexcl; simpl; auto|].
  split; [assumption|]. split; [assumption|]. split; [exact Edata|].
  split; [assumption|]. split; [assumption|]. split; [exact Hdec|].
  split.
  { rewrite Hd, Hf. rewrite <- (getcol_length _ _ _ Hst). apply count_eq_le. }
  split.
  { rewrite Hf. unfold nrows. rewrite Edata. apply length_filter_le. }
  split.
  { rewrite Ht. unfold nrows.
    pose proof (preprocess_decisions_inv _ _ _ _ Hpre) as (_ & Hdff & _).
    rewrite Hdff. unfold boolean_index. cbn [data]. apply length_keep_le. }
  intros Hns. rewrite Hd. apply count_eq_absent. intros Hin.
  rewrite Hstatus in Hin. apply in_map_iff in Hin.
  destruct Hin as (row & Hrow & Hin).
  rewrite Edata in Hin. apply filter_In in Hin. destruct Hin as (_ & Hk).
  apply andb_true_iff in Hk. destruct Hk as (_ & Hk). apply isin1_In in Hk.
  rewrite Hrow in Hk. contradiction.
Qed.

(** X12.  The page shows its header only exactly when the decisions file
    is missing; an exception of the loader (a file that is no JSON, a
    missing key) is the exception of the page. *)
Theorem X12_decisions_page_without_data (fs : filesystem) :
  (fs decisions_path = Missing ->
   decisions_page to_datetime date_input multiselect fs = Ok None)
  /\ (decisions_page to_datetime date_input multiselect fs = Ok None ->
      fs decisions_path = Missing)
  /\ (forall e, load_and_preprocess_decisions to_datetime fs = Raise e ->
      decisions_page to_datetime date_input multiselect fs = Raise e).
Proof.
  split; [|split].
  - intros Hf. unfold decisions_page, load_and_preprocess_decisions, json_load.
    rewrite Hf. reflexivity.
  - unfold decisions_page. intros H. inv_bind H. destruct x as [df dff].
    cbn [fst snd] in H.
    destruct (is_empty df) eqn:He.
    + destruct (load_decisions_file _ _ _ _ E)
        as [(Hm & _)|(records & Hfile)]; [assumption|].
      destruct (loaded_full_view_not_empty _ _ _ _ _ Hfile E) as (He' & _).
      congruence.
    + inv_bind H. inv_bind H. inv_bind H. inv_bind H. inv_bind H. inv_bind H.
      inv_bind H. discriminate.
  - intros e He. unfold decisions_page. rewrite He. reflexivity.
Qed.

End DecisionsPage.

Lemma getcol_filtered (df : DataFrame) (f : list value -> bool) (c : label)
    (col : list value) :
  getcol df c = Ok col ->
  getcol (mkDataFrame (columns df) (filter f (data df))) c
  = Ok (map (field df c) (filter f (data df))).
Proof.
  intros H. destruct (getcol_cells _ _ _ H) as (i & Hi & _).
  unfold getcol, field. cbn [columns data]. rewrite Hi. reflexivity.
Qed.

Lemma select_positions_present (wanted cols : list label) :
  NoDup cols -> (forall c, In c wanted -> In c cols) ->
  exists ps, select_positions wanted cols = Ok ps /\ map fst ps = wanted.
Proof.
  intros Hnd. induction wanted as [|w wanted IH]; intros Hin.
  - exists []. auto.
  - destruct IH as (ps & Hps & Hfst); [intros c Hc; apply Hin; right; assumption|].
    assert (Hw : mem w cols = true) by (apply mem_In, Hin; left; reflexivity).
    destruct (index_of_mem _ _ Hw) as (i & Hi).
    exists ((w, i) :: ps). cbn [select_positions].
    rewrite (positions_NoDup _ _ _ Hnd Hi), Hps. cbn. rewrite Hfst. auto.
Qed.

(** Selecting labels that a frame with distinct labels carries. *)
Lemma select_present (df : DataFrame) (wanted : list label) :
  NoDup (columns df) -> (forall c, In c wanted -> In c (columns df)) ->
  exists out,
    select df wanted = Ok out /\ columns out = wanted /\ nrows out = nrows df.
Proof.
  intros Hnd Hin.
  destruct (select_positions_present _ _ Hnd Hin) as (ps & Hps & Hfst).
  unfold select. rewrite Hps. cbn [bind]. eexists. split; [reflexivity|].
  split; [exact Hfst | apply length_map].
Qed.

Section FirstRender.

Variable to_datetime : list value -> pystr -> parsed.
Variable date_input : option date -> option date -> result (list date).
Variable multiselect : list value -> result (list value).

(** The labels of the two views: the keys of the agenda items, and
    [status]. *)
Lemma loaded_columns (records : list record) (df dff : DataFrame) :
  preprocess_decisions to_datetime records = Ok (df, dff) ->
  columns dff = columns df
  /\ NoDup (columns df)
  /\ forall c, In c (columns df) <-> c = "status" \/ has_key records c = true.
Proof.
  intros H.
  pose proof (preprocess_decisions_inv _ _ _ _ H) as (_ & -> & _).
  apply preprocess_decisions_frame in H. destruct H as (created & _ & -> & Kc & _).
  split; [reflexivity|].
  rewrite !columns_setcol. unfold has_key in *. rewrite Kc.
  pose proof (NoDup_columns_frame_of_records records) as Hnd.
  destruct (mem "status" (columns (frame_of_records records))) eqn:Es.
  - split; [assumption|]. intros c. rewrite <- mem_In. split; [auto|].
    intros [->|Hc]; assumption.
  - apply mem_false in Es. split.
    + apply NoDup_app; [assumption | repeat constructor; simpl; tauto|].
      intros c Hc [<-|[]]. contradiction.
    + intros c. rewrite in_app_iff, <- mem_In. simpl. intuition.
Qed.

(** The widgets return their defaults, as on the first run of the page. *)
Hypothesis date_input_default :
  forall lo hi, date_input (Some lo) (Some hi) = Ok [lo; hi].
Hypothesis multiselect_default : forall opts, multiselect opts = Ok opts.

(** X13.  On a first run, when the date picker and the multiselect
    return their defaults, lines 189-225 of the "Decisions" page (the two
    filters and the three metrics) raise nothing, for every file from
    which the loader returns.  [filtered_df] then holds every actionable
    decision whose [created] is a timestamp, in the order of the
    actionable view: all of them when pandas reads a timestamp from the
    [created] of every agenda item.  "Total Agenda Items" is the number
    of agenda items of the file.  Further down, the listing of line 270
    selects the columns [name], [status] and [created] of [filtered_df]:
    this raises [KeyError] when no agenda item has a [name], and gives
    one row per row of [filtered_df] otherwise. *)
Theorem X13_decisions_page_first_run
    (fs : filesystem) (records : list record)
    (df_all_decisions df_decisions : DataFrame) :
  file_data fs decisions_path = Some records ->
  load_and_preprocess_decisions to_datetime fs
  = Ok (df_all_decisions, df_decisions) ->
  exists rep,
    decisions_page to_datetime date_input multiselect fs = Ok (Some rep)
    /\ columns (decisions_filtered_df rep) = columns df_decisions
    /\ data (decisions_filtered_df rep)
       = filter (fun row => negb (is_nan (field df_decisions "created" row)))
           (data df_decisions)
    /\ total_agenda_items rep = length records
    /\ total_filtered_decisions rep <= nrows df_decisions
    /\ ((forall r, In r records -> has_timestamp to_datetime records r) ->
        decisions_filtered_df rep = df_decisions
        /\ total_filtered_decisions rep = nrows df_decisions)
    /\ (has_key records "name" = false ->
        decisions_listing (decisions_filtered_df rep)
        = Raise (KeyError "name"))
    /\ (has_key records "name" = true ->
        exists listing,
          decisions_listing (decisions_filtered_df rep) = Ok listing
          /\ columns listing = ["name"; "status"; "created"]
          /\ nrows listing = total_filtered_decisions rep).
Proof.
  intros Hfile Hload.
  destruct (loaded_full_view_not_empty _ _ _ _ _ Hfile Hload) as (He & _ & Hn).
  pose proof Hload as Hpre. rewrite (load_decisions_data _ _ _ Hfile) in Hpre.
  destruct (default_range_rows _ _ _ _ Hpre)
    as (created & lo & hi & Hc & Hlo & Hhi & _ & Hf).
  destruct (loaded_decisions_typed _ _ _ _ Hpre df_decisions (or_intror eq_refl))
    as (_ & sd & _ & _ & Hsd & Tsd).
  set (out := mkDataFrame (columns df_decisions)
                (filter (fun row => negb (is_nan (field df_decisions "created" row)))
                        (data df_decisions))) in *.
  assert (Hso : getcol out "status"
                = Ok (map (field df_decisions "status") (data out))).
  { apply (getcol_filtered _ _ _ _ Hsd). }
  assert (Tso : Forall (fun v => is_str v = true)
                  (map (field df_decisions "status") (data out))).
  { apply Forall_forall. intros v Hv. apply in_map_iff in Hv.
    destruct Hv as (row & <- & Hrow). cbn [out data] in Hrow.
    apply filter_In in Hrow. destruct Hrow as (Hrow & _).
    rewrite Forall_forall in Tsd. apply Tsd.
    rewrite (getcol_field _ _ _ Hsd). apply in_map. assumption. }
  destruct (options_of_strings _ _ _ Hso Tso) as (opts & Hopts).
  pose proof (filter_isin_options _ _ _ Hopts) as Hid.
  eexists. split.
  - unfold decisions_page. rewrite Hload. cbn [bind fst snd]. rewrite He.
    rewrite Hc. cbn [bind]. rewrite Hlo, Hhi, date_input_default. cbn [bind].
    rewrite Hf. cbn [bind]. unfold status_options. rewrite Hopts. cbn [bind].
    rewrite multiselect_default. cbn [bind].
    unfold decisions_status_filter. rewrite Hid. cbn [bind].
    rewrite Hso. cbn [bind]. reflexivity.
  - destruct (loaded_columns _ _ _ Hpre) as (Hcols & Hnd & Hlabels).
    pose proof (preprocess_decisions_frame _ _ _ _ Hpre)
      as (_ & _ & _ & Kc & _).
    cbn. split; [reflexivity|]. split; [reflexivity|].
    split; [assumption|]. split; [apply length_filter_le|].
    split; [|split].
    + intros Hnm. unfold out, nrows. cbn [data].
      rewrite (rows_all_created _ _ _ _ Hpre Hnm).
      split; [destruct df_decisions|]; reflexivity.
    + intros Hk. unfold decisions_listing. apply select_missing_first.
      cbn [columns out]. rewrite Hcols. apply mem_false. intros Hin.
      apply Hlabels in Hin. destruct Hin as [Hin|Hin]; congruence.
    + intros Hk. unfold decisions_listing.
      destruct (select_present out ["name"; "status"; "created"])
        as (listing & Hsel & Hc1 & Hn1).
      * cbn [columns out]. rewrite Hcols. assumption.
      * cbn [columns out]. rewrite Hcols. intros c Hc'. apply Hlabels.
        simpl in Hc'. destruct Hc' as [<-|[<-|[<-|[]]]]; auto.
      * exists listing. auto.
Qed.

End FirstRender.

Lemma X11_decisions_page_filtered_rows_witness :
  exists rep df_all df_dec created date_range filtered opts selected,
    decisions_page iso_utc default_date_input default_multiselect
      demo_decisions_fs = Ok (Some rep)
    /\ load_and_preprocess_decisions iso_utc demo_decisions_fs
       = Ok (df_all, df_dec)
    /\ getcol df_all "created" = Ok created
    /\ default_date_input (timestamp_date (series_min created))
                          (timestamp_date (series_max created)) = Ok date_range
    /\ decisions_date_filter date_range df_dec = Ok filtered
    /\ status_options filtered = Ok opts
    /\ ~ In (Str (lit "No result")) opts
    /\ ~ In (Str (lit "Kenntnis genommen")) opts
    /\ default_multiselect opts = Ok selected
    /\ data (decisions_filtered_df rep)
       = filter (fun row =>
                   in_picked_range date_range (field df_dec "created" row)
                   && isin1 selected (field df_dec "status" row))
           (data df_dec)
    /\ decided rep <= total_filtered_decisions rep
    /\ total_filtered_decisions rep <= nrows df_dec
    /\ nrows df_dec <= total_agenda_items rep.
Proof.
  destruct (decisions_page iso_utc default_date_input default_multiselect
              demo_decisions_fs) as [[rep|]|e] eqn:Hpage;
    try (vm_compute in Hpage; discriminate).
  destruct (X11_decisions_page_filtered_rows iso_utc default_date_input
              default_multiselect demo_decisions_fs rep Hpage)
    as (df_all & df_dec & created & date_range & filtered & opts & selected
        & H1 & H2 & H3 & H4 & _ & _ & H7 & _ & H9 & H10 & H11 & _ & H13
        & _ & _ & _ & H17 & H18 & H19 & _).
  exists rep, df_all, df_dec, created, date_range, filtered, opts, selected.
  repeat (split; [reflexivity || assumption|]). assumption.
Defined.

Lemma X12_decisions_page_without_data_witness :
  decisions_page iso_utc default_date_input default_multiselect demo_people_fs
  = Ok None
  /\ decisions_page iso_utc default_date_input default_multiselect
       broken_decisions_fs
     = Raise JSONDecodeError.
Proof.
  split.
  - apply (X12_decisions_page_without_data iso_utc default_date_input
             default_multiselect demo_people_fs). reflexivity.
  - apply (X12_decisions_page_without_data iso_utc default_date_input
             default_multiselect broken_decisions_fs). reflexivity.
Defined.

Example blank_created_run :
  exists df_all df_dec,
    load_and_preprocess_decisions iso_utc blank_created_fs = Ok (df_all, df_dec)
    /\ getcol df_all "created" = Ok [Timestamp 1678786200000000000; NaN]
    /\ nrows df_dec = 2.
Proof. eexists. eexists. split; [vm_compute; reflexivity|]. split; reflexivity. Qed.

Lemma X13_decisions_page_first_run_witness :
  (exists rep,
     decisions_page iso_utc default_date_input default_multiselect
       demo_decisions_fs = Ok (Some rep)
     /\ decisions_filtered_df rep = demo_decisions
     /\ total_agenda_items rep = 5
     /\ total_filtered_decisions rep = 2
     /\ exists listing,
          decisions_listing (decisions_filtered_df rep) = Ok listing
          /\ nrows listing = 2)
  /\ (exists rep df_all df_dec,
        load_and_preprocess_decisions iso_utc blank_created_fs
        = Ok (df_all, df_dec)
        /\ decisions_page iso_utc default_date_input default_multiselect
             blank_created_fs = Ok (Some rep)
        /\ nrows df_dec = 2
        /\ total_filtered_decisions rep = 1).
Proof.
  split.
  - destruct (X13_decisions_page_first_run iso_utc default_date_input
                default_multiselect (fun lo hi => eq_refl) (fun opts => eq_refl)
                demo_decisions_fs demo_agenda demo_all_decisions demo_decisions
                eq_refl demo_decisions_loaded)
      as (rep & Hpage & _ & _ & Ht & _ & Hall & _ & Hlist).
    exists rep. split; [exact Hpage|].
    assert (Hnm : forall r, In r demo_agenda ->
                            has_timestamp iso_utc demo_agenda r).
    { intros r Hr. simpl in Hr.
      repeat (destruct Hr as [<-|Hr];
              [eexists; eexists; eexists; split; reflexivity|]).
      contradiction. }
    destruct (Hall Hnm) as (Hs & Hf).
    split; [exact Hs|]. split; [exact Ht|].
    split; [rewrite Hf; reflexivity|].
    destruct (Hlist eq_refl) as (listing & Hl & _ & Hn).
    exists listing. split; [exact Hl|]. rewrite Hn, Hf. reflexivity.
  - destruct (load_and_preprocess_decisions iso_utc blank_created_fs)
      as [[df_all df_dec]|e] eqn:Hload; [|vm_compute in Hload; discriminate].
    destruct (X13_decisions_page_first_run iso_utc default_date_input
                default_multiselect (fun lo hi => eq_refl) (fun opts => eq_refl)
                blank_created_fs blank_created_agenda df_all df_dec
                eq_refl Hload)
      as (rep & Hpage & _).
    exists rep, df_all, df_dec. split; [reflexivity|]. split; [exact Hpage|].
    vm_compute in Hload. injection Hload as <- <-.
    vm_compute in Hpage. injection Hpage as <-.
    split; reflexivity.
Defined.

(** ** The "People" page *)

Lemma nunique_incl (a b : list value) :
  (forall v, In v a -> In v b) -> nunique a <= nunique b.
Proof.
  intros H. unfold nunique. apply NoDup_incl_length; [apply NoDup_unique|].
  intros v Hv. apply In_unique. apply (proj1 (In_unique _ _)) in Hv.
  apply filter_In in Hv. apply filter_In. destruct Hv; auto.
Qed.

Lemma nunique_positive (col : list value) (v : value) :
  In v col -> is_nan v = false -> 1 <= nunique col.
Proof.
  intros Hin Hv. unfold nunique.
  assert (H : In v (unique (filter (fun v => negb (is_nan v)) col))).
  { apply In_unique, filter_In. rewrite Hv. auto. }
  destruct (unique _); [contradiction | simpl; lia].
Qed.

Lemma keep_eq_map (k : value) (f g : list value -> value)
    (rows : list (list value)) :
  keep (map (value_eqb k) (map f rows)) (map g rows)
  = map g (filter (fun row => value_eqb k (f row)) rows).
Proof.
  induction rows as [|r rows IH]; simpl; [reflexivity|].
  destruct (value_eqb k (f r)); simpl; rewrite IH; reflexivity.
Qed.

Lemma is_str_not_nan (v : value) : is_str v = true -> is_nan v = false.
Proof. destruct v; simpl; congruence. Qed.

Section PeoplePage.

Variable multiselect : list value -> result (list value).

(** The steps of a run of the page that shows more than its header. *)
Lemma people_page_inv (fs : filesystem) (rep : people_report) :
  people_page multiselect fs = Ok (Some rep) ->
  exists df_members opts selected name filtered_name organization,
    load_and_preprocess_people fs = Ok df_members
    /\ is_empty df_members = false
    /\ org_options df_members = Ok opts
    /\ multiselect opts = Ok selected
    /\ people_org_filter df_members selected = Ok (members_filtered_df rep)
    /\ getcol df_members "Name" = Ok name
    /\ getcol (members_filtered_df rep) "Name" = Ok filtered_name
    /\ getcol (members_filtered_df rep) "Organization" = Ok organization
    /\ total_members rep = nunique name
    /\ filtered_members rep = nunique filtered_name
    /\ org_counts rep = groupby_nunique organization filtered_name.
Proof.
  unfold people_page. intros H. inv_bind H.
  destruct (is_empty x) eqn:He; [discriminate|].
  inv_bind H. inv_bind H. inv_bind H. inv_bind H. inv_bind H. inv_bind H.
  injection H as <-.
  exists x, x0, x1, x3, x4, x5. cbn.
  repeat (split; [assumption || reflexivity|]). reflexivity.
Qed.

(** X14.  Whatever the multiselect returns, the frame [filtered_df] from
    which the "People" page makes its metrics, its chart and its listing
    holds the rows of the membership table whose organization is among
    those returned, in the order of that table, and "Filtered Members"
    never exceeds "Total Members".  The table [org_counts] behind the
    chart has one row for each organization of [filtered_df], in
    ascending order and without repetition (the chart then re-sorts it by
    count); each row counts at least one member and at most "Filtered
    Members". *)
Theorem X14_people_page_filtered_rows
    (fs : filesystem) (rep : people_report) :
  people_page multiselect fs = Ok (Some rep) ->
  exists df_members opts selected,
    load_and_preprocess_people fs = Ok df_members
    /\ org_options df_members = Ok opts
    /\ multiselect opts = Ok selected
    /\ columns (members_filtered_df rep) = columns df_members
    /\ data (members_filtered_df rep)
       = filter (fun row => isin1 selected (field df_members "Organization" row))
           (data df_members)
    /\ filtered_members rep <= total_members rep
    /\ Sorted value_le (map fst (org_counts rep))
    /\ NoDup (map fst (org_counts rep))
    /\ (forall k, In k (map fst (org_counts rep))
                  <-> exists row, In row (data (members_filtered_df rep))
                                  /\ field df_members "Organization" row = k)
    /\ (forall k n, In (k, n) (org_counts rep) ->
                    1 <= n <= filtered_members rep).
Proof.
  intros H. apply people_page_inv in H.
  destruct H as (df & opts & selected & name & fname & org & Hload & He
                 & Hopts & Hms & Hsf & Hn & Hfn & Ho & Ht & Hf & Hoc).
  exists df, opts, selected.
  destruct (load_people_cases _ _ Hload)
    as [(people & orgs & ms & _ & _ & _ & Hpre)|(-> & _)]; [|discriminate].
  apply preprocess_people_inv in Hpre.
  destruct Hpre as (_ & _ & _ & Hc & _ & Hrows).
  assert (Hocol : exists ocol, getcol df "Organization" = Ok ocol).
  { unfold org_options, options in Hopts. inv_bind Hopts. eauto. }
  destruct Hocol as (ocol & Hocol).
  unfold people_org_filter in Hsf.
  rewrite (filter_isin_rows _ _ _ _ Hocol) in Hsf. injection Hsf as Hfiltered.
  assert (Hcols : columns (members_filtered_df rep) = columns df)
    by (rewrite <- Hfiltered; reflexivity).
  assert (Edata : data (members_filtered_df rep)
                  = filter (fun row => isin1 selected (field df "Organization" row))
                      (data df))
    by (rewrite <- Hfiltered; reflexivity).
  assert (Hsub : forall row, In row (data (members_filtered_df rep)) -> In row (data df)).
  { intros row Hrow. rewrite Edata in Hrow. apply filter_In in Hrow. tauto. }
  pose proof (getcol_field _ _ _ Hn) as En.
  pose proof (getcol_field _ _ _ Hfn) as Efn.
  pose proof (getcol_field _ _ _ Ho) as Eo.
  assert (Fn : forall row, field (members_filtered_df rep) "Name" row = field df "Name" row)
    by (intros row; apply field_same_columns; assumption).
  assert (Fo : forall row, field (members_filtered_df rep) "Organization" row
                           = field df "Organization" row)
    by (intros row; apply field_same_columns; assumption).
  assert (Hstr : forall row c, In row (data df) ->
                   c = "Name" \/ c = "Organization" ->
                   is_str (field df c row) = true).
  { intros row c Hrow Hcn. rewrite Forall_forall in Hrows.
    destruct (Hrows _ Hrow) as (Hl & Hs).
    destruct row as [|a [|b [|c0 [|d [|]]]]]; try discriminate.
    unfold field. rewrite Hc.
    inversion Hs as [|? ? Ha Hs1]; subst. inversion Hs1 as [|? ? Hb _]; subst.
    destruct Hcn as [->| ->]; assumption. }
  assert (Hincl : forall v, In v fname -> In v name).
  { intros v Hv. rewrite Efn in Hv. rewrite En. apply in_map_iff in Hv.
    destruct Hv as (row & <- & Hrow). rewrite Fn. apply in_map. auto. }
  split; [assumption|]. split; [assumption|]. split; [assumption|].
  split; [assumption|]. split; [assumption|].
  split; [rewrite Ht, Hf; apply nunique_incl; assumption|].
  assert (Ekeys : map fst (org_counts rep)
                  = insertion_sort
                      (unique (filter (fun v => negb (is_nan v)) org))).
  { rewrite Hoc. unfold groupby_nunique. rewrite map_map. apply map_id. }
  split; [rewrite Ekeys; apply insertion_sort_Sorted|].
  split.
  { rewrite Ekeys. eapply Permutation_NoDup;
      [symmetry; apply insertion_sort_Permutation | apply NoDup_unique]. }
  split.
  - intros k. rewrite Ekeys, In_insertion_sort, In_unique, filter_In, Eo,
      in_map_iff. split.
    + intros ((row & <- & Hrow) & _). exists row. rewrite Fo. auto.
    + intros (row & Hrow & <-). split.
      * exists row. rewrite Fo. auto.
      * apply negb_true_iff, is_str_not_nan, Hstr; auto.
  - intros k n Hkn. rewrite Hoc in Hkn. unfold groupby_nunique in Hkn.
    apply in_map_iff in Hkn. destruct Hkn as (k' & E & Hk).
    injection E as Ek' En'. subst k'. rewrite <- En'. clear En'.
    apply (proj1 (In_insertion_sort _ _)) in Hk.
    apply (proj1 (In_unique _ _)) in Hk.
    apply filter_In in Hk. destruct Hk as (Hk & _).
    rewrite Eo, Efn, keep_eq_map. rewrite Eo in Hk. apply in_map_iff in Hk.
    destruct Hk as (row & Ek & Hrow). split.
    + apply (nunique_positive _ (field (members_filtered_df rep) "Name" row)).
      * apply in_map. apply filter_In. split; [assumption|].
        rewrite Ek. apply value_eqb_refl.
      * rewrite Fn. apply is_str_not_nan, Hstr; auto.
    + rewrite Hf, Efn. apply nunique_incl. intros v Hv.
      apply in_map_iff in Hv. destruct Hv as (row' & <- & Hrow').
      apply in_map. apply filter_In in Hrow'. tauto.
Qed.

(** X15.  The "People" page shows its header only exactly when one of
    the three files is missing, and an exception of the loader is the
    exception of the page.  When the widget returns its default, all
    options, lines 274-293 of the page do not raise, [filtered_df] is the
    whole membership table, and "Filtered Members" equals "Total
    Members". *)
Theorem X15_people_page_edges (fs : filesystem) :
  (people_page multiselect fs = Ok None
   <-> load_and_preprocess_people fs = Ok empty_frame)
  /\ (load_and_preprocess_people fs = Ok empty_frame
      <-> (exists out, load_and_preprocess_people fs = Ok out)
          /\ (fs people_path = Missing \/ fs org_path = Missing
              \/ fs membership_path = Missing))
  /\ (forall e, load_and_preprocess_people fs = Raise e ->
        people_page multiselect fs = Raise e)
  /\ ((forall opts, multiselect opts = Ok opts) ->
      forall df_members,
        load_and_preprocess_people fs = Ok df_members ->
        is_empty df_members = false ->
        exists rep,
          people_page multiselect fs = Ok (Some rep)
          /\ members_filtered_df rep = df_members
          /\ filtered_members rep = total_members rep).
Proof.
  assert (Hcases : forall out, load_and_preprocess_people fs = Ok out ->
            (out = empty_frame
             /\ (fs people_path = Missing \/ fs org_path = Missing
                 \/ fs membership_path = Missing))
            \/ (is_empty out = false
                /\ fs people_path <> Missing /\ fs org_path <> Missing
                /\ fs membership_path <> Missing
                /\ (exists ocol, getcol out "Organization" = Ok ocol
                                 /\ Forall (fun v => is_str v = true) ocol)
                /\ exists ncol, getcol out "Name" = Ok ncol)).
  { intros out Hload.
    destruct (load_people_cases _ _ Hload)
      as [(people & orgs & ms & Fp & Fo & Fm & Hpre)|(-> & Hm)]; [right|left; auto].
    apply preprocess_people_inv in Hpre.
    destruct Hpre as (_ & _ & Kp & Hc & Hn & Hrows).
    pose proof (has_key_not_nil _ _ Kp) as Hne.
    unfold file_data in Fp, Fo, Fm.
    split.
    { unfold is_empty. rewrite Hc. unfold nrows in Hn.
      destruct (data out); [|reflexivity].
      destruct ms; simpl in Hn; [congruence | lia]. }
    split; [intros E; rewrite E in Fp; discriminate|].
    split; [intros E; rewrite E in Fo; discriminate|].
    split; [intros E; rewrite E in Fm; discriminate|].
    split.
    - eexists. split; [unfold getcol; rewrite Hc; reflexivity|].
      apply Forall_forall. intros v Hv. apply in_map_iff in Hv.
      destruct Hv as (row & <- & Hrow). rewrite Forall_forall in Hrows.
      destruct (Hrows _ Hrow) as (Hl & Hs).
      destruct row as [|a [|b [|c0 [|d [|]]]]]; try discriminate.
      inversion Hs as [|? ? Ha Hs1]; subst. inversion Hs1; subst. assumption.
    - eexists. unfold getcol. rewrite Hc. reflexivity. }
  split; [|split; [|split]].
  - split.
    + unfold people_page. intros H. inv_bind H.
      destruct (Hcases _ E) as [(-> & _)|(He & _)]; [assumption|].
      rewrite He in H. inv_bind H. inv_bind H. inv_bind H. inv_bind H.
      inv_bind H. inv_bind H. discriminate.
    + intros H. unfold people_page. rewrite H. reflexivity.
  - split.
    + intros H. split; [eauto|].
      destruct (Hcases _ H) as [(_ & Hm)|(He & _)]; [assumption | discriminate].
    + intros ((out & H) & Hm).
      destruct (Hcases _ H) as [(-> & _)|(_ & Hp & Ho & Hmm & _)];
        [assumption|].
      destruct Hm as [E|[E|E]]; contradiction.
  - intros e He. unfold people_page. rewrite He. reflexivity.
  - intros Hdef df Hload He.
    destruct (Hcases _ Hload) as [(-> & _)|(_ & _ & _ & _ & (ocol & Hocol & Tocol)
                                           & (ncol & Hncol))];
      [discriminate|].
    destruct (options_of_strings _ _ _ Hocol Tocol) as (opts & Hopts).
    pose proof (filter_isin_options _ _ _ Hopts) as Hid.
    eexists. split.
    + unfold people_page. rewrite Hload. cbn [bind]. rewrite He.
      unfold org_options. rewrite Hopts. cbn [bind]. rewrite Hdef. cbn [bind].
      unfold people_org_filter. rewrite Hid. cbn [bind].
      rewrite Hncol. cbn [bind]. rewrite Hocol. cbn [bind]. reflexivity.
    + cbn. auto.
Qed.

End PeoplePage.

Lemma X14_people_page_shows_selected_rows_witness :
  exists rep df_members opts selected,
    people_page default_multiselect demo_people_fs = Ok (Some rep)
    /\ load_and_preprocess_people demo_people_fs = Ok df_members
    /\ org_options df_members = Ok opts
    /\ default_multiselect opts = Ok selected
    /\ filtered_members rep <= total_members rep
    /\ Sorted value_le (map fst (org_counts rep))
    /\ NoDup (map fst (org_counts rep))
    /\ (forall k n, In (k, n) (org_counts rep) ->
                    1 <= n <= filtered_members rep).
Proof.
  destruct (people_page default_multiselect demo_people_fs)
    as [[rep|]|e] eqn:Hpage; try (vm_compute in Hpage; discriminate).
  destruct (X14_people_page_filtered_rows default_multiselect
              demo_people_fs rep Hpage)
    as (df & opts & selected & H1 & H2 & H3 & _ & _ & H6 & H7 & H8 & _ & H10).
  exists rep, df, opts, selected. repeat (split; [reflexivity || assumption|]).
  assumption.
Defined.

Lemma X15_people_page_edges_witness :
  people_page default_multiselect demo_decisions_fs = Ok None
  /\ exists rep,
       people_page default_multiselect demo_people_fs = Ok (Some rep)
       /\ members_filtered_df rep = demo_members
       /\ filtered_members rep = total_members rep.
Proof.
  split.
  - apply (X15_people_page_edges default_multiselect demo_decisions_fs).
    reflexivity.
  - apply (X15_people_page_edges default_multiselect demo_people_fs).
    + intros opts. reflexivity.
    + exact demo_people_loaded.
    + reflexivity.
Defined.

(** ** The cleanup of organization names *)

Lemma subsequence_length (s t : pystr) :
  subsequence s t -> length t <= length s.
Proof. induction 1; simpl; lia. Qed.

Lemma subsequence_trans (s t u : pystr) :
  subsequence s t -> subsequence t u -> subsequence s u.
Proof.
  intros H. revert u. induction H; intros u Hu.
  - assumption.
  - inversion Hu; subst; constructor; auto.
  - constructor. auto.
Qed.

Lemma replace_from_subsequence (old : pystr) (s : pystr) :
  forall skip, subsequence s (replace_from old [] skip s).
Proof.
  induction s as [|c s IH]; intros skip; [constructor|].
  cbn [replace_from]. destruct skip as [|k]; [|constructor; apply IH].
  destruct (startswith old (c :: s)); cbn [app]; constructor; apply IH.
Qed.

Lemma replace_from_shorter (old s : pystr) :
  old <> [] -> occurs old s = true ->
  length (replace_from old [] 0 s) < length s.
Proof.
  intros Hne. induction s as [|c s IH]; intros Ho.
  - destruct old; [congruence | discriminate].
  - cbn [replace_from]. cbn [occurs] in Ho.
    destruct (startswith old (c :: s)); cbn [app length].
    + pose proof (subsequence_length _ _
                    (replace_from_subsequence old s (length old - 1))). lia.
    + simpl in Ho. apply IH in Ho. lia.
Qed.

(** X16.  The cleanup of an organization name only deletes characters:
    what it returns is the name with some characters left out, in their
    order.  It returns the name itself exactly when neither
    ["Fraktion der "] nor ["Fraktionsgemeinschaft "] occurs in it, and a
    strictly shorter string otherwise. *)
Theorem X16_cleanup_only_deletes (s : pystr) :
  exists t,
    clean_organization (Str s) = Str t
    /\ subsequence s t
    /\ (t = s <-> occurs Fraktion_der s = false
                  /\ occurs Fraktionsgemeinschaft s = false)
    /\ (t <> s -> length t < length s).
Proof.
  remember (str_replace Fraktion_der [] s) as u eqn:Du.
  remember (str_replace Fraktionsgemeinschaft [] u) as t eqn:Dt.
  assert (Su : subsequence s u)
    by (rewrite Du; apply replace_from_subsequence).
  assert (St : subsequence u t)
    by (rewrite Dt; apply replace_from_subsequence).
  assert (Lu := subsequence_length _ _ Su).
  assert (Lt := subsequence_length _ _ St).
  assert (Hd : occurs Fraktion_der s = true -> length u < length s)
    by (rewrite Du; apply replace_from_shorter; discriminate).
  assert (Hg : occurs Fraktionsgemeinschaft u = true -> length t < length u)
    by (rewrite Dt; apply replace_from_shorter; discriminate).
  assert (Hiff : t = s <-> occurs Fraktion_der s = false
                           /\ occurs Fraktionsgemeinschaft s = false).
  { split.
    - intros E.
      destruct (occurs Fraktion_der s) eqn:Od.
      + specialize (Hd eq_refl). rewrite E in Lt. lia.
      + assert (Eu : u = s) by (rewrite Du; apply str_replace_absent; assumption).
        split; [reflexivity|]. rewrite Eu in Hg.
        destruct (occurs Fraktionsgemeinschaft s); [|reflexivity].
        specialize (Hg eq_refl). rewrite E in Hg. lia.
    - intros (Od & Og). rewrite Dt, Du.
      rewrite (str_replace_absent _ _ s Od). apply str_replace_absent, Og. }
  exists t. split; [rewrite Dt, Du; reflexivity|].
  split; [eapply subsequence_trans; eassumption|].
  split; [exact Hiff|].
  intros Hne.
  destruct (occurs Fraktion_der s) eqn:Od; [specialize (Hd eq_refl); lia|].
  destruct (occurs Fraktionsgemeinschaft s) eqn:Og.
  - assert (Eu : u = s) by (rewrite Du; apply str_replace_absent; assumption).
    rewrite Eu in Hg. specialize (Hg Og). lia.
  - exfalso. apply Hne, Hiff. auto.
Qed.

(** ** The trend by month *)

Example month_of_instant_run :
  map (fun d => month_of_days (days_from_civil (fst (fst d)) (snd (fst d)) (snd d)))
      [(1970, 1, 1); (1969, 12, 31); (2023, 3, 14); (2024, 2, 29); (2000, 12, 31)]%Z
  = [0; -1; 638; 649; 371]%Z.
Proof. reflexivity. Qed.

Lemma In_insert_period (x m : Z) (l : list Z) :
  In x (insert_period m l) <-> x = m \/ In x l.
Proof.
  induction l as [|y l IH]; simpl; [intuition|].
  destruct (m <=? y)%Z; simpl; [intuition|]. rewrite IH. intuition.
Qed.

Lemma In_sort_periods (x : Z) (l : list Z) :
  In x (sort_periods l) <-> In x l.
Proof.
  induction l as [|m l IH]; simpl; [tauto|].
  rewrite In_insert_period, IH. intuition.
Qed.

Lemma insert_period_sorted (m : Z) (l : list Z) :
  StronglySorted Z.lt l -> ~ In m l ->
  StronglySorted Z.lt (insert_period m l).
Proof.
  induction l as [|y l IH]; intros Hs Hm; simpl.
  - constructor; constructor.
  - inversion Hs as [|? ? Hs' Hall]; subst.
    destruct (Z.leb_spec m y) as [Hle|Hgt].
    + assert (Hlt : (m < y)%Z) by (simpl in Hm; lia).
      constructor; [assumption|]. constructor; [assumption|].
      rewrite Forall_forall in Hall |- *. intros z Hz.
      specialize (Hall z Hz). lia.
    + constructor.
      * apply IH; [assumption|]. simpl in Hm. tauto.
      * rewrite Forall_forall in Hall |- *. intros z Hz.
        apply In_insert_period in Hz. destruct Hz as [->|Hz]; [lia | auto].
Qed.

Lemma sort_periods_sorted (l : list Z) :
  NoDup l -> StronglySorted Z.lt (sort_periods l).
Proof.
  induction 1 as [|m l Hm Hnd IH]; simpl; [constructor|].
  apply insert_period_sorted; [assumption|].
  rewrite In_sort_periods. assumption.
Qed.

Lemma StronglySorted_lt_NoDup (l : list Z) :
  StronglySorted Z.lt l -> NoDup l.
Proof.
  induction 1 as [|m l Hs IH Hall]; constructor; [|assumption].
  intros Hin. rewrite Forall_forall in Hall. specialize (Hall m Hin). lia.
Qed.

Lemma sum_indicator (x : Z) (ks : list Z) :
  NoDup ks -> In x ks ->
  list_sum (map (fun m => if (m =? x)%Z then 1 else 0) ks) = 1.
Proof.
  induction 1 as [|k ks Hk Hnd IH]; intros Hin; [contradiction|].
  simpl. destruct (Z.eqb_spec k x) as [->|Hne].
  - assert (H0 : list_sum (map (fun m => if (m =? x)%Z then 1 else 0) ks) = 0).
    { clear IH Hnd Hin. induction ks as [|k ks IH]; [reflexivity|]. simpl.
      destruct (Z.eqb_spec k x) as [->|_]; [exfalso; apply Hk; simpl; auto|].
      apply IH. intros H. apply Hk. simpl. auto. }
    rewrite H0. reflexivity.
  - destruct Hin as [E|Hin]; [congruence|]. rewrite (IH Hin). reflexivity.
Qed.

Lemma list_sum_map_add {A : Type} (f g : A -> nat) (l : list A) :
  list_sum (map (fun a => f a + g a) l)
  = list_sum (map f l) + list_sum (map g l).
Proof. induction l as [|a l IH]; simpl; [reflexivity | rewrite IH; lia]. Qed.

(** The sizes of the groups add up to the number of keys. *)
Lemma group_sizes_sum (ks l : list Z) :
  NoDup ks -> (forall x, In x l -> In x ks) ->
  list_sum (map (fun m => length (filter (Z.eqb m) l)) ks) = length l.
Proof.
  intros Hnd. induction l as [|x l IH]; intros Hin.
  - simpl. clear Hnd Hin. induction ks as [|k ks IHk]; [reflexivity|].
    simpl. apply IHk.
  - rewrite (map_ext _ (fun m => (if (m =? x)%Z then 1 else 0)
                                 + length (filter (Z.eqb m) l))).
    + rewrite list_sum_map_add, sum_indicator, IH.
      * reflexivity.
      * intros y Hy. apply Hin. right. assumption.
      * assumption.
      * apply Hin. left. reflexivity.
    + intros m. simpl. destruct (m =? x)%Z; reflexivity.
Qed.

Section TrendProperties.

Variable to_period_M : Z -> Z.

Lemma mapM_dt_to_period (col : list value) :
  Forall (fun v => is_str v = false) col ->
  exists months,
    mapM (dt_to_period_value to_period_M) col = Ok months
    /\ present months = map to_period_M (timestamps col).
Proof.
  induction 1 as [|v col Hv _ (months & Hm & Hp)]; [exists []; auto|].
  destruct v as [|s|ns]; try discriminate; cbn [mapM dt_to_period_value bind];
    rewrite Hm; cbn [bind]; eexists; (split; [reflexivity|]).
  - exact Hp.
  - unfold present, timestamps in *. cbn [flat_map app map]. rewrite Hp.
    reflexivity.
Qed.

Lemma filter_month_timestamps (m : Z) (col : list value) :
  length (filter (Z.eqb m) (map to_period_M (timestamps col)))
  = length (filter (is_timestamp_in to_period_M m) col).
Proof.
  unfold timestamps. induction col as [|v col IH]; [reflexivity|].
  destruct v as [|s|ns]; cbn [flat_map app map filter is_timestamp_in]; auto.
  rewrite (Z.eqb_sym m). destruct (to_period_M ns =? m)%Z; simpl; auto.
Qed.

(** The rows of the trend over a datetime column. *)
Lemma decision_trend_rows (df : DataFrame) (created : list value) :
  getcol df "created" = Ok created ->
  Forall (fun v => is_str v = false) created ->
  decision_trend to_period_M df
  = Ok (map (fun m => (m, length (filter (is_timestamp_in to_period_M m) created)))
          (sort_periods (nodup Z.eq_dec (map to_period_M (timestamps created))))).
Proof.
  intros Hc Hall. unfold decision_trend. rewrite Hc. cbn [bind].
  destruct (mapM_dt_to_period _ Hall) as (months & -> & Hp). cbn [bind].
  unfold groupby_size. rewrite Hp. f_equal. apply map_ext. intros m.
  rewrite filter_month_timestamps. reflexivity.
Qed.

Lemma trend_rows_sum (created : list value) :
  list_sum
    (map snd
       (map (fun m => (m, length (filter (is_timestamp_in to_period_M m) created)))
          (sort_periods (nodup Z.eq_dec (map to_period_M (timestamps created))))))
  = length (timestamps created).
Proof.
  set (months := map to_period_M (timestamps created)).
  rewrite map_map. cbn [snd].
  rewrite (map_ext _ (fun m => length (filter (Z.eqb m) months)))
    by (intros m; symmetry; apply filter_month_timestamps).
  rewrite group_sizes_sum.
  - unfold months. apply length_map.
  - apply StronglySorted_lt_NoDup, sort_periods_sorted, NoDup_nodup.
  - intros x Hx. apply In_sort_periods, nodup_In. assumption.
Qed.

(** X17.  Over a datetime column [created], the trend has one row per
    month in which a row of the table was created, in strictly ascending
    order of the months; the count of a month is the number of rows
    created in it, at least one; and the counts add up to the number of
    rows that have a timestamp: rows without one are in no month. *)
Theorem X17_trend_counts_rows_by_month (df : DataFrame) (created : list value) :
  getcol df "created" = Ok created ->
  Forall (fun v => is_str v = false) created ->
  exists trend,
    decision_trend to_period_M df = Ok trend
    /\ StronglySorted Z.lt (map fst trend)
    /\ (forall m, In m (map fst trend)
                  <-> exists ns, In (Timestamp ns) created /\ to_period_M ns = m)
    /\ (forall m n, In (m, n) trend ->
          1 <= n
          /\ n = length (filter (is_timestamp_in to_period_M m) created))
    /\ list_sum (map snd trend) = length (timestamps created).
Proof.
  intros Hc Hall. eexists. split; [apply decision_trend_rows; eassumption|].
  set (months := map to_period_M (timestamps created)).
  assert (Hnd : NoDup (nodup Z.eq_dec months)) by apply NoDup_nodup.
  assert (Hin : forall m, In m (sort_periods (nodup Z.eq_dec months))
                          <-> exists ns, In (Timestamp ns) created
                                         /\ to_period_M ns = m).
  { intros m. rewrite In_sort_periods, nodup_In. unfold months.
    rewrite in_map_iff. split; intros (ns & H1 & H2); exists ns.
    - apply In_timestamps in H2. auto.
    - apply In_timestamps in H1. auto. }
  split; [rewrite map_map; cbn [fst]; rewrite map_id;
          apply sort_periods_sorted; assumption|].
  split; [rewrite map_map; cbn [fst]; rewrite map_id; exact Hin|].
  split; [|apply trend_rows_sum].
  - intros m n Hmn. apply in_map_iff in Hmn. destruct Hmn as (m' & E & Hm').
    injection E as -> <-. split; [|reflexivity].
    apply Hin in Hm'. destruct Hm' as (ns & Hns & Em).
    assert (H : In (Timestamp ns)
                  (filter (is_timestamp_in to_period_M m) created)).
    { apply filter_In. split; [assumption|]. simpl. apply Z.eqb_eq, Em. }
    destruct (filter _ created); [contradiction | simpl; lia].
Qed.

Lemma length_timestamps_le (col : list value) :
  length (timestamps col) <= length col.
Proof.
  unfold timestamps. induction col as [|v col IH]; [simpl; lia|].
  destruct v; simpl; lia.
Qed.

Lemma length_timestamps_all (col : list value) :
  Forall (fun v => is_timestamp v = true) col ->
  length (timestamps col) = length col.
Proof.
  unfold timestamps. induction 1 as [|v col Hv _ IH]; [reflexivity|].
  destruct v; try discriminate. simpl. rewrite IH. reflexivity.
Qed.

Variable to_datetime : list value -> pystr -> parsed.
Variable date_input : option date -> option date -> result (list date).
Variable multiselect : list value -> result (list value).

(** The [created] column of [filtered_df]. *)
Lemma filtered_df_created (fs : filesystem) (rep : decisions_report) :
  decisions_page to_datetime date_input multiselect fs = Ok (Some rep) ->
  exists df_all df_dec created date_range filtered_created,
    load_and_preprocess_decisions to_datetime fs = Ok (df_all, df_dec)
    /\ getcol df_all "created" = Ok created
    /\ date_input (timestamp_date (series_min created))
                  (timestamp_date (series_max created)) = Ok date_range
    /\ getcol (decisions_filtered_df rep) "created" = Ok filtered_created
    /\ Forall (fun v => is_str v = false
                        /\ in_picked_range date_range v = true) filtered_created
    /\ total_filtered_decisions rep = length filtered_created.
Proof.
  intros H. apply decisions_page_inv in H.
  destruct H as (df_all & df_dec & created & date_range & filtered & opts
                 & selected & status & Hload & He & Hc & Hdi & Hdf & Hopts
                 & Hms & Hsf & Hst & Ht & Hf & Hd).
  destruct (load_decisions_cases _ _ _ _ Hload) as [(records & Hpre)|(-> & _)];
    [|discriminate].
  destruct (loaded_decisions_typed _ _ _ _ Hpre df_dec (or_intror eq_refl))
    as (cd & sd & Hcd & Tcd & Hsd & Tsd).
  pose proof (date_filter_picked _ _ _ _ Hcd Tcd Hdf) as Ef.
  assert (Hsfcol : exists sf, getcol filtered "status" = Ok sf).
  { unfold status_options, options in Hopts. inv_bind Hopts. eauto. }
  destruct Hsfcol as (sf & Hsfc).
  unfold decisions_status_filter in Hsf.
  rewrite (filter_isin_rows _ _ _ _ Hsfc) in Hsf. injection Hsf as Hfiltered.
  pose proof (getcol_filtered df_dec
                (fun row => in_picked_range date_range (field df_dec "created" row))
                "created" cd Hcd) as Hfc.
  rewrite <- Ef in Hfc.
  pose proof (getcol_filtered filtered
                (fun row => isin1 selected (field filtered "status" row))
                "created" _ Hfc) as Hsc.
  rewrite Hfiltered in Hsc.
  exists df_all, df_dec, created, date_range. eexists.
  split; [assumption|]. split; [assumption|]. split; [assumption|].
  split; [exact Hsc|]. split.
  - apply Forall_forall. intros v Hv. apply in_map_iff in Hv.
    destruct Hv as (row & <- & Hrow). apply filter_In in Hrow.
    destruct Hrow as (Hrow & _). rewrite Ef in Hrow. cbn [data] in Hrow.
    apply filter_In in Hrow. destruct Hrow as (Hrow & Hpick).
    rewrite (field_same_columns df_dec filtered)
      by (rewrite Ef; reflexivity).
    split; [|assumption].
    rewrite Forall_forall in Tcd. apply Tcd.
    rewrite (getcol_field _ _ _ Hcd). apply in_map. assumption.
  - rewrite Hf, length_map. unfold nrows. rewrite <- Hfiltered. reflexivity.
Qed.

(** X18.  On the "Decisions" page the trend is always computed, over the
    rows of [filtered_df], and its counts never add up to more than
    "Total Filtered Decisions".  When the date widget returned two dates,
    every row of [filtered_df] has a timestamp and the counts add up to
    exactly "Total Filtered Decisions". *)
Theorem X18_trend_adds_up_to_filtered_total
    (fs : filesystem) (rep : decisions_report) :
  decisions_page to_datetime date_input multiselect fs = Ok (Some rep) ->
  exists df_all df_dec created date_range trend,
    load_and_preprocess_decisions to_datetime fs = Ok (df_all, df_dec)
    /\ getcol df_all "created" = Ok created
    /\ date_input (timestamp_date (series_min created))
                  (timestamp_date (series_max created)) = Ok date_range
    /\ decision_trend to_period_M (decisions_filtered_df rep) = Ok trend
    /\ list_sum (map snd trend) <= total_filtered_decisions rep
    /\ (length date_range = 2 ->
        list_sum (map snd trend) = total_filtered_decisions rep).
Proof.
  intros H. apply filtered_df_created in H.
  destruct H as (df_all & df_dec & created & date_range & sc & Hload & Hc
                 & Hdi & Hsc & Hall & Hf).
  exists df_all, df_dec, created, date_range. eexists.
  split; [assumption|]. split; [assumption|]. split; [assumption|].
  split.
  { apply (decision_trend_rows _ sc); [assumption|].
    revert Hall. apply Forall_impl. tauto. }
  rewrite trend_rows_sum, Hf.
  split; [apply length_timestamps_le|].
  intros H2. apply length_timestamps_all.
  revert Hall. apply Forall_impl. intros v (_ & Hv).
  destruct date_range as [|lo [|hi [|]]]; try discriminate.
  destruct v; try discriminate. reflexivity.
Qed.

End TrendProperties.

Lemma trend_decisions_loaded :
  exists dff, load_and_preprocess_decisions iso_utc trend_fs
              = Ok (trend_all_decisions, dff).
Proof. eexists. vm_compute. reflexivity. Qed.

Lemma X17_trend_counts_rows_by_month_witness :
  exists created trend,
    getcol trend_all_decisions "created" = Ok created
    /\ length created = 5
    /\ decision_trend month_of_instant trend_all_decisions = Ok trend
    /\ StronglySorted Z.lt (map fst trend)
    /\ list_sum (map snd trend) = 4.
Proof.
  destruct (getcol trend_all_decisions "created") as [created|e] eqn:Hc;
    [|vm_compute in Hc; discriminate].
  assert (Hall : Forall (fun v => is_str v = false) created).
  { vm_compute in Hc. injection Hc as <-. repeat constructor. }
  destruct (X17_trend_counts_rows_by_month month_of_instant
              trend_all_decisions created Hc Hall)
    as (trend & Ht & Hs & _ & _ & Hsum).
  exists created, trend. split; [reflexivity|].
  vm_compute in Hc. injection Hc as <-.
  split; [reflexivity|]. split; [assumption|]. split; [assumption|].
  rewrite Hsum. reflexivity.
Defined.

Lemma X18_trend_adds_up_to_filtered_total_witness :
  exists rep trend,
    decisions_page iso_utc default_date_input default_multiselect trend_fs
    = Ok (Some rep)
    /\ decision_trend month_of_instant (decisions_filtered_df rep) = Ok trend
    /\ list_sum (map snd trend) = total_filtered_decisions rep.
Proof.
  destruct (decisions_page iso_utc default_date_input default_multiselect
              trend_fs) as [[rep|]|e] eqn:Hpage;
    try (vm_compute in Hpage; discriminate).
  destruct (X18_trend_adds_up_to_filtered_total month_of_instant iso_utc
              default_date_input default_multiselect trend_fs rep Hpage)
    as (df_all & df_dec & created & date_range & trend & Hload & Hc & Hdi
        & Ht & _ & Hsum).
  exists rep, trend. split; [reflexivity|]. split; [assumption|].
  apply Hsum.
  destruct (timestamp_date (series_min created)),
           (timestamp_date (series_max created)); try discriminate.
  injection Hdi as <-. reflexivity.
Defined.
